(** * dubplate: immutable validated records

    A shallow embedding of [dubplate/__init__.py]: the [Record] class (an
    immutable dict-like object carrying side attributes stored in slots),
    its validator [_set_record], [copy_record], [get_hash_index_key], the
    module-level [generate_hash_index_key], and the date/time normalisation
    used by [RecordJSONEncoder].

    Python objects are modelled by the inductive type [value]; Python
    exceptions by the type [exn] carried in the error monad [result]. *)

From Stdlib Require Import List String Ascii ZArith NArith Bool Lia Permutation.
From Stdlib Require Import DecimalString Sorting.Sorted.
Import ListNotations.
Open Scope string_scope.
Open Scope list_scope.

Set Implicit Arguments.
Set Warnings "-register-all".

(** ** Exceptions and the error monad *)

Inductive exn : Type :=
| KeyError (msg : string)
| ValueError (msg : string)
| TypeError (msg : string)
| AttributeError (msg : string).

Inductive result (A : Type) : Type :=
| Ok (a : A)
| Raise (e : exn).

Arguments Ok {A} a.
Arguments Raise {A} e.

Definition bind {A B : Type} (m : result A) (k : A -> result B) : result B :=
  match m with
  | Ok a => k a
  | Raise e => Raise e
  end.

Notation "x <- m ;; k" := (bind m (fun x => k))
  (at level 61, m at next level, right associativity).

(** ** Dates and times ([datetime.date], naive [datetime.datetime])

    A [datetime] has no [tzinfo]: the date-times of the model are the
    naive ones, whose ISO text carries no UTC offset. *)

Record date : Type := mkDate
  { d_year : N; d_month : N; d_day : N }.

Record datetime : Type := mkDateTime
  { dt_year : N; dt_month : N; dt_day : N;
    dt_hour : N; dt_minute : N; dt_second : N; dt_microsecond : N }.

(** ** The policy of a record type

    The class variables read by the code through [getattr] on the instance,
    together with the class name and the slots of the type.
    [getattr(self, 'fields', [])] and
    [getattr(self, 'non_null_fields', [])] default to the empty sequence,
    [getattr(self, 'hash_index_fields', None)] to [None].

    A type has two lists of slot names.  [cls_slots] holds the names of
    the side attributes its instances can store: the slots declared for
    them anywhere in the class hierarchy.  [cls_dunder_slots] is what
    [self.__slots__] evaluates to: the [__slots__] list of the most derived
    class that declares one, without the lists of its parents.  The two
    agree for a hierarchy that declares its side attributes once (the
    [TstRecord] family of the test suite); a subclass with a [__slots__] of
    its own has only its own names in [cls_dunder_slots].  The private
    slots of [Record] itself are the other components of an instance and
    are not side attributes; their names are taken not to be key fields. *)

Record RecordClass : Type := mkClass
  { cls_name : string;
    cls_slots : list string;
    cls_dunder_slots : list string;
    fields : list string;
    non_null_fields : list string;
    require_all_fields : bool;
    hash_index_fields : option (list string) }.

(** ** Python values

    Dicts are insertion-ordered association lists with string keys.  A
    [Record] instance carries its class, the side attributes stored in its
    slots and its internal record mapping ([__record]).  Floats, bytes and
    sets are not part of the model; dicts and dates stand for the values
    that are neither sequences nor integers. *)

Inductive value : Type :=
| VNone
| VBool (b : bool)
| VInt (n : Z)
| VStr (s : string)
| VList (l : list value)
| VTuple (l : list value)
| VDict (d : list (string * value))
| VDate (d : date)
| VDateTime (d : datetime)
| VRecord (c : RecordClass) (attrs : list (string * value))
          (rec : list (string * value)).

Definition pydict : Type := list (string * value).

(** [v is None] *)
Definition is_None (v : value) : bool :=
  match v with VNone => true | _ => false end.

(** ** Dict operations *)

Fixpoint dict_get (d : pydict) (k : string) : option value :=
  match d with
  | [] => None
  | (k', v) :: d' => if String.eqb k' k then Some v else dict_get d' k
  end.

(** [d.get(k, None)] *)
Definition dict_get_default (d : pydict) (k : string) : value :=
  match dict_get d k with Some v => v | None => VNone end.

(** [d[k] = v]: an existing key keeps its position, a new key goes last. *)
Fixpoint dict_set (d : pydict) (k : string) (v : value) : pydict :=
  match d with
  | [] => [(k, v)]
  | (k', v') :: d' =>
      if String.eqb k' k then (k', v) :: d' else (k', v') :: dict_set d' k v
  end.

(** [d.update(items)] *)
Definition dict_update (d : pydict) (items : list (string * value)) : pydict :=
  fold_left (fun acc kv => dict_set acc (fst kv) (snd kv)) items d.

(** [dict(items)] / [OrderedDict(items)] *)
Definition dict_of_items (items : list (string * value)) : pydict :=
  dict_update [] items.

Definition dict_keys (d : pydict) : list string := map fst d.

Definition dict_contains (d : pydict) (k : string) : bool :=
  match dict_get d k with Some _ => true | None => false end.

(** ** Sets of strings

    A Python set is kept as a duplicate-free list; the order in which a set
    is iterated is not fixed by the language, so the places where the code
    iterates a set without sorting it go through the parameter [set_iter]
    of the section below. *)

Definition mem (x : string) (l : list string) : bool :=
  existsb (String.eqb x) l.

Fixpoint set_of (l : list string) : list string :=
  match l with
  | [] => []
  | x :: l' => if mem x l' then set_of l' else x :: set_of l'
  end.

(** The names of [l] in order, each one kept at its first occurrence and
    dropped when already [seen]: the keys of a dict filled from items with
    these keys. *)
Fixpoint distinct_from (seen l : list string) : list string :=
  match l with
  | [] => []
  | x :: l' =>
      if mem x seen then distinct_from seen l'
      else x :: distinct_from (x :: seen) l'
  end.

Definition distinct (l : list string) : list string := distinct_from [] l.

Definition set_diff (a b : list string) : list string :=
  filter (fun x => negb (mem x b)) a.

Definition subseteq (a b : list string) : bool :=
  forallb (fun x => mem x b) a.

(** [a > b] on sets: proper superset. *)
Definition proper_superset (a b : list string) : bool :=
  subseteq b a && negb (subseteq a b).

(** [a < b] on sets: proper subset. *)
Definition proper_subset (a b : list string) : bool :=
  subseteq a b && negb (subseteq b a).

(** [sorted(...)] on strings: insertion sort by code-point order. *)
Fixpoint insert_sorted (x : string) (l : list string) : list string :=
  match l with
  | [] => [x]
  | y :: l' => if String.leb x y then x :: y :: l' else y :: insert_sorted x l'
  end.

Fixpoint sorted (l : list string) : list string :=
  match l with
  | [] => []
  | x :: l' => insert_sorted x (sorted l')
  end.

(** The order [sorted] sorts by. *)
Definition leb_true (a b : string) : Prop := String.leb a b = true.

(** [", ".join(names)] *)
Definition join_comma (names : list string) : string :=
  String.concat ", " names.

(** [bool(s)] for a sequence or string *)
Definition nonempty {A : Type} (l : list A) : bool :=
  match l with [] => false | _ => true end.

(** [d[k]]: raises [KeyError(k)] when the key is absent. *)
Definition dict_getitem (d : pydict) (k : string) : result value :=
  match dict_get d k with
  | Some v => Ok v
  | None => Raise (KeyError k)
  end.

(** The list comprehension [[f for f in names if record[f] is None]]. *)
Fixpoint null_names (record : pydict) (names : list string)
  : result (list string) :=
  match names with
  | [] => Ok []
  | f :: names' =>
      v <- dict_getitem record f ;;
      rest <- null_names record names' ;;
      Ok (if is_None v then f :: rest else rest)
  end.

(** ** Instances of [Record]

    [obj_attrs] holds the side attributes stored in the slots of the
    instance, [obj_record] the private [__record] mapping and
    [obj_initialized] the private [_initialized] flag (unset reads as
    false). *)

Record RecordObj : Type := mkObj
  { obj_class : RecordClass;
    obj_attrs : pydict;
    obj_record : pydict;
    obj_initialized : bool }.

Definition value_of_obj (o : RecordObj) : value :=
  VRecord (obj_class o) (obj_attrs o) (obj_record o).

(** [object.__new__(cls)]: no slot is set yet. *)
Definition new_obj (c : RecordClass) : RecordObj :=
  {| obj_class := c; obj_attrs := []; obj_record := [];
     obj_initialized := false |}.

Section Validation.

(** The order in which CPython iterates the set built from the given
    elements; it depends on string hashing and is left open. *)
Variable set_iter : list string -> list string.

(** *** [Record._set_record]

    [check_non_null] is the first block of the method, the one guarded by
    [if non_null_fields:].  [missing] is the joined text, and it is its
    length that selects the plural; [null_fields] is a list, sorted before
    it is joined, so the order in which the set is walked does not show. *)

Definition check_non_null (self : RecordClass) (record : pydict)
  : result unit :=
  let non_null_fields := set_of (non_null_fields self) in
  let keys := set_of (dict_keys record) in
  if nonempty non_null_fields then
    let missing := join_comma (sorted (set_diff non_null_fields keys)) in
    if negb (String.eqb missing "") then
      Raise (KeyError
               ("The following field"
                  ++ (if (1 <? String.length missing)%nat
                      then "s are" else " is")
                  ++ " required: " ++ missing))
    else
      null_fields <- null_names record non_null_fields ;;
      if nonempty null_fields then
        Raise (KeyError
                 ("The following field"
                    ++ (if (1 <? List.length null_fields)%nat
                        then "s" else "")
                    ++ " can not be None: "
                    ++ join_comma (sorted null_fields)))
      else Ok tt
  else Ok tt.

(** The method itself: the block above, then the checks against
    [fields] and the construction of the frozen mapping. *)
Definition _set_record (self : RecordClass) (record : pydict)
  : result pydict :=
  let fields := fields self in
  let keys := set_of (dict_keys record) in
  _ <- check_non_null self record ;;
  if nonempty fields then
    if proper_superset keys (set_of fields) then
      Raise (KeyError
               ("Extra keys: "
                  ++ join_comma (set_iter (set_diff keys (set_of fields)))
                  ++ ". Only the following keys can be used in the record: "
                  ++ join_comma fields))
    else if proper_subset keys (set_of fields) && require_all_fields self
    then
      Raise (KeyError
               ("Missing keys: "
                  ++ join_comma (set_iter (set_diff (set_of fields) keys))
                  ++ ". The following keys must be used in the record: "
                  ++ join_comma fields))
    else
      Ok (dict_of_items
            (map (fun field => (field, dict_get_default record field))
                 fields))
  else Ok (dict_of_items record).

(** *** [Record.__init__]

    The method first gives [require_all_fields] its default: when
    [getattr(self, 'require_all_fields', None)] is falsy it assigns
    [False] to the attribute, after which the attribute reads as the
    boolean of the policy.  The model takes that assignment to succeed, as
    it does when the type leaves the attribute to the slot of [Record] or
    when its instances have a [__dict__]; what the constructor does on a
    type that hides the slot behind a falsy class variable and has no
    [__dict__] is outside the model.  The validated mapping is then stored
    in [__record] and the instance is sealed. *)
Definition Record___init__ (self : RecordObj) (kwargs : pydict)
  : result RecordObj :=
  rec <- _set_record (obj_class self) kwargs ;;
  Ok {| obj_class := obj_class self; obj_attrs := obj_attrs self;
        obj_record := rec; obj_initialized := true |}.

(** *** Attribute and item mutation *)

Definition no_support (self : RecordObj) (what : string) : exn :=
  TypeError ("'" ++ cls_name (obj_class self)
                 ++ "' object does not support " ++ what).

Definition no_attribute (self : RecordObj) (name : string) : exn :=
  AttributeError ("'" ++ cls_name (obj_class self)
                      ++ "' object has no attribute '" ++ name ++ "'").

(** Every mutator returns the outcome together with the instance as it
    is left afterwards. *)
Definition Record___setattr__ (self : RecordObj) (name : string)
  (v : value) : result unit * RecordObj :=
  if obj_initialized self then
    (Raise (no_support self "attribute assignment"), self)
  else if mem name (cls_slots (obj_class self)) then
    (Ok tt,
     {| obj_class := obj_class self;
        obj_attrs := dict_set (obj_attrs self) name v;
        obj_record := obj_record self;
        obj_initialized := obj_initialized self |})
  else (Raise (no_attribute self name), self).

(** [__delattr__] reads [self._initialized] without a default: on an
    instance that is not sealed yet the slot is unset and the read itself
    raises [AttributeError]. *)
Definition Record___delattr__ (self : RecordObj) (name : string)
  : result unit * RecordObj :=
  if obj_initialized self then
    (Raise (no_support self "attribute deletion"), self)
  else (Raise (AttributeError "_initialized"), self).

Definition Record___setitem__ (self : RecordObj) (name : string)
  (v : value) : result unit * RecordObj :=
  (Raise (no_support self "item assignment"), self).

Definition Record___delitem__ (self : RecordObj) (name : string)
  : result unit * RecordObj :=
  (Raise (no_support self "item deletion"), self).

(** A concrete record type's constructor: the side attributes are
    assigned first, then the base [__init__] runs on the keyword
    arguments. *)
Fixpoint set_attrs (self : RecordObj) (side : list (string * value))
  : result RecordObj :=
  match side with
  | [] => Ok self
  | (name, v) :: side' =>
      match Record___setattr__ self name v with
      | (Ok _, self') => set_attrs self' side'
      | (Raise e, _) => Raise e
      end
  end.

Definition construct (c : RecordClass) (side : list (string * value))
  (kwargs : pydict) : result RecordObj :=
  self <- set_attrs (new_obj c) side ;;
  Record___init__ self kwargs.

(** *** Read-only mapping methods *)

Definition Record_keys (self : RecordObj) : list string :=
  dict_keys (obj_record self).

Definition Record___iter__ (self : RecordObj) : list string :=
  dict_keys (obj_record self).

Definition Record___contains__ (self : RecordObj) (name : string) : bool :=
  dict_contains (obj_record self) name.

Definition Record___len__ (self : RecordObj) : nat :=
  List.length (obj_record self).

Definition Record_get (self : RecordObj) (key : string) (default : value)
  : value :=
  match dict_get (obj_record self) key with
  | Some v => v
  | None => default
  end.

(** [frozendict.copy] with keyword overrides: a new mapping of the same kind
    built from the old items followed by the overrides. *)
Definition frozendict_copy (d : pydict) (kwargs : pydict) : pydict :=
  dict_update (dict_of_items d) kwargs.

(** *** [Record.copy_record] *)
Definition Record_copy_record (self : RecordObj) (kwargs : pydict)
  : result pydict :=
  _set_record (obj_class self) (frozendict_copy (obj_record self) kwargs).

End Validation.

(** ** Truthiness, type tests and equality of values *)

(** [bool(v)]: a [Record] defines [__len__] and no [__bool__]. *)
Definition truthy (v : value) : bool :=
  match v with
  | VNone => false
  | VBool b => b
  | VInt n => negb (n =? 0)%Z
  | VStr s => negb (String.eqb s "")
  | VList l => nonempty l
  | VTuple l => nonempty l
  | VDict d => nonempty d
  | VDate _ => true
  | VDateTime _ => true
  | VRecord _ _ r => nonempty r
  end.

(** [isinstance(v, (Sequence, int))]: strings, lists and tuples are
    sequences, [bool] is a subclass of [int]. *)
Definition is_sequence_or_int (v : value) : bool :=
  match v with
  | VBool _ | VInt _ | VStr _ | VList _ | VTuple _ => true
  | _ => false
  end.

Definition date_eqb (a b : date) : bool :=
  (d_year a =? d_year b)%N && (d_month a =? d_month b)%N
  && (d_day a =? d_day b)%N.

Definition datetime_eqb (a b : datetime) : bool :=
  (dt_year a =? dt_year b)%N && (dt_month a =? dt_month b)%N
  && (dt_day a =? dt_day b)%N && (dt_hour a =? dt_hour b)%N
  && (dt_minute a =? dt_minute b)%N && (dt_second a =? dt_second b)%N
  && (dt_microsecond a =? dt_microsecond b)%N.

Section EqualityOfContainers.

(** Equality of the elements. *)
Variable eqv : value -> value -> bool.

(** [l1 == l2] for lists and tuples: same length, equal element-wise. *)
Fixpoint list_eq_with (l1 l2 : list value) {struct l1} : bool :=
  match l1, l2 with
  | [], [] => true
  | x :: l1', y :: l2' => eqv x y && list_eq_with l1' l2'
  | _, _ => false
  end.

(** Every item of [d1] is found in [d2] with an equal value. *)
Fixpoint items_in_with (d1 : pydict) (d2 : pydict) {struct d1} : bool :=
  match d1 with
  | [] => true
  | (k, v) :: d1' =>
      match dict_get d2 k with
      | Some v' => eqv v v'
      | None => false
      end && items_in_with d1' d2
  end.

(** [d1 == d2] for dicts: as many items, and every item of the first is
    in the second. *)
Definition mapping_eq_with (d1 d2 : pydict) : bool :=
  (List.length d1 =? List.length d2)%nat && items_in_with d1 d2.

End EqualityOfContainers.

(** [v1 == v2].  A [Record] compares through its [__record] mapping (see
    [Record___eq__] below); [bool] is a subclass of [int]. *)
Fixpoint py_eq (v1 v2 : value) {struct v1} : bool :=
  match v1, v2 with
  | VNone, VNone => true
  | VBool a, VBool b => Bool.eqb a b
  | VBool a, VInt n => (Z.b2z a =? n)%Z
  | VInt n, VBool a => (n =? Z.b2z a)%Z
  | VInt a, VInt b => (a =? b)%Z
  | VStr a, VStr b => String.eqb a b
  | VList a, VList b => list_eq_with py_eq a b
  | VTuple a, VTuple b => list_eq_with py_eq a b
  | VDict a, VDict b => mapping_eq_with py_eq a b
  | VDict a, VRecord _ _ b => mapping_eq_with py_eq a b
  | VRecord _ _ a, VDict b => mapping_eq_with py_eq a b
  | VRecord _ _ a, VRecord _ _ b => mapping_eq_with py_eq a b
  | VDate a, VDate b => date_eqb a b
  | VDateTime a, VDateTime b => datetime_eqb a b
  | _, _ => false
  end.

(** Equality of two mappings ([Mapping.__eq__] of [frozendict], which
    compares [dict(self.items())] with [dict(other.items())]). *)
Definition mapping_eq (d1 d2 : pydict) : bool :=
  mapping_eq_with py_eq d1 d2.

(** *** [Record.__eq__], [Record.__ne__]

    [other == self.__record]: a dict or another record ends up in the
    mapping comparison of the frozen record with the other's items; any
    other object is not a mapping and compares unequal. *)
Definition Record___eq__ (self : RecordObj) (other : value) : bool :=
  match other with
  | VDict d => mapping_eq (obj_record self) d
  | VRecord _ _ d => mapping_eq (obj_record self) d
  | _ => false
  end.

Definition Record___ne__ (self : RecordObj) (other : value) : bool :=
  negb (Record___eq__ self other).

Section Hashing.

(** [hash((key, value))] of an item; [TypeError] for an unhashable value. *)
Variable hash_item : string -> value -> result Z.

(** [frozendict.__hash__]: the exclusive or of the hashes of the items. *)
Fixpoint frozendict_hash_from (items : pydict) (h : Z) : result Z :=
  match items with
  | [] => Ok h
  | (key, v) :: items' =>
      x <- hash_item key v ;;
      frozendict_hash_from items' (Z.lxor h x)
  end.

Definition frozendict___hash__ (d : pydict) : result Z :=
  frozendict_hash_from d 0%Z.

(** *** [Record.__hash__] *)
Definition Record___hash__ (self : RecordObj) : result Z :=
  frozendict___hash__ (obj_record self).

End Hashing.

(** ** Hash-index keys *)

Section HashIndexKey.

Variable set_iter : list string -> list string.

(** ['{}'.format(v)], the text [str.format] substitutes for a value. *)
Variable py_format : value -> string.

(** The error raised for a field whose value has no order. *)
Definition unordered_value_error (field : string) : exn :=
  ValueError ("Fields that return unordered value types cannot be used "
                ++ "to create hash keys. field: " ++ field).

(** The body of the [for field in fields] loop, with the list
    [field_values] built so far. *)
Fixpoint collect_field_values (fields : list string) (values_dict : pydict)
  (field_values : list string) : result (list string) :=
  match fields with
  | [] => Ok field_values
  | field :: fields' =>
      let value := dict_get_default values_dict field in
      if negb (truthy value) then
        collect_field_values fields' values_dict field_values
      else if negb (is_sequence_or_int value) then
        Raise (unordered_value_error field)
      else
        collect_field_values fields' values_dict
          (field_values ++ [(field ++ ":" ++ py_format value)%string])
  end.

Definition generate_hash_index_key (obj_type : string)
  (fields : list string) (values_dict : pydict) (obj_id : option Z)
  : result (option string) :=
  if nonempty fields && nonempty values_dict then
    field_values <- collect_field_values fields values_dict [] ;;
    if nonempty field_values then
      let obj_str :=
        match obj_id with
        | Some id =>
            if truthy (VInt id)
            then (obj_type ++ ":" ++ py_format (VInt id))%string
            else obj_type
        | None => obj_type
        end in
      Ok (Some (obj_str ++ ":" ++ String.concat ":" field_values)%string)
    else Ok None
  else Ok None.

(** [getattr(self, 'hash_index_fields', None) or fields or []] *)
Definition key_fields_of (c : RecordClass) : list string :=
  match hash_index_fields c with
  | Some h => if nonempty h then h else fields c
  | None => fields c
  end.

(** [{key: getattr(self, key, None) for key in key_fields
      if key in self.__slots__}] *)
Definition slots_dict_of (self : RecordObj) (key_fields : list string)
  : pydict :=
  dict_of_items
    (map (fun key => (key, dict_get_default (obj_attrs self) key))
         (filter (fun key => mem key (cls_dunder_slots (obj_class self)))
                 key_fields)).

(** *** [Record.get_hash_index_key] *)
Definition Record_get_hash_index_key (self : RecordObj)
  : result (option string) :=
  let class_name := cls_name (obj_class self) in
  let key_fields := key_fields_of (obj_class self) in
  let slots_dict := slots_dict_of self key_fields in
  value_dict <- Record_copy_record set_iter self slots_dict ;;
  generate_hash_index_key class_name key_fields value_dict None.

End HashIndexKey.

(** ** Normalising dates and times for JSON *)

Definition digit (n : N) : ascii := ascii_of_N (48 + n mod 10).

(** [n] printed in decimal on [width] digits, padded with zeros
    (["%0<width>d"] for a number that fits). *)
Fixpoint zero_padded (width : nat) (n : N) : string :=
  match width with
  | O => ""
  | S w => zero_padded w (n / 10) ++ String (digit n) ""
  end.

(** [date.isoformat()] *)
Definition date_isoformat (d : date) : string :=
  zero_padded 4 (d_year d) ++ "-" ++ zero_padded 2 (d_month d) ++ "-"
    ++ zero_padded 2 (d_day d).

(** [dt.replace(microsecond=us)] *)
Definition replace_microsecond (dt : datetime) (us : N) : datetime :=
  {| dt_year := dt_year dt; dt_month := dt_month dt; dt_day := dt_day dt;
     dt_hour := dt_hour dt; dt_minute := dt_minute dt;
     dt_second := dt_second dt; dt_microsecond := us |}.

(** [datetime.isoformat()] of a naive date-time: the fraction is printed
    only when the microseconds are not zero. *)
Definition datetime_isoformat (dt : datetime) : string :=
  zero_padded 4 (dt_year dt) ++ "-" ++ zero_padded 2 (dt_month dt) ++ "-"
    ++ zero_padded 2 (dt_day dt) ++ "T" ++ zero_padded 2 (dt_hour dt) ++ ":"
    ++ zero_padded 2 (dt_minute dt) ++ ":" ++ zero_padded 2 (dt_second dt)
    ++ (if (dt_microsecond dt =? 0)%N then ""
        else "." ++ zero_padded 6 (dt_microsecond dt)).

Definition _convert_datetime (val : value) : value :=
  match val with
  | VDateTime dt => VStr (datetime_isoformat (replace_microsecond dt 0))
  | VDate d => VStr (date_isoformat d)
  | _ => val
  end.

Definition _convert_list_datetime (lst : list value) : list value :=
  map _convert_datetime lst.

(** The name of the type of a value, as it appears in error messages. *)
Definition type_name (v : value) : string :=
  match v with
  | VNone => "NoneType"
  | VBool _ => "bool"
  | VInt _ => "int"
  | VStr _ => "str"
  | VList _ => "list"
  | VTuple _ => "tuple"
  | VDict _ => "dict"
  | VDate _ => "datetime.date"
  | VDateTime _ => "datetime.datetime"
  | VRecord c _ _ => cls_name c
  end.

(** JSON documents, the output of the encoder. *)
Inductive json : Type :=
| JNull
| JBool (b : bool)
| JInt (n : Z)
| JStr (s : string)
| JArr (l : list json)
| JObj (members : list (string * json)).

Section Serializer.

Variable set_iter : list string -> list string.

(** [val.copy_record()] on a record held as a value. *)
Definition copy_record_of (c : RecordClass) (attrs rec : pydict)
  : result pydict :=
  Record_copy_record set_iter
    {| obj_class := c; obj_attrs := attrs; obj_record := rec;
       obj_initialized := true |} [].

(** [_convert_dict_datetime]: the recursion goes through the copy of a
    nested record, so it is bounded by [fuel]; [None] means the bound was
    reached. *)
Fixpoint _convert_dict_datetime (fuel : nat) (inputdict : pydict)
  : option (result pydict) :=
  match fuel with
  | O => None
  | S fuel' =>
      (fix loop (items : pydict) (rdict : pydict) {struct items}
         : option (result pydict) :=
         match items with
         | [] => Some (Ok rdict)
         | (key, val) :: items' =>
             match val with
             | VList l =>
                 loop items' (dict_set rdict key
                                (VList (_convert_list_datetime l)))
             | VTuple l =>
                 loop items' (dict_set rdict key
                                (VList (_convert_list_datetime l)))
             | VDict d =>
                 match _convert_dict_datetime fuel' d with
                 | Some (Ok r) => loop items' (dict_set rdict key (VDict r))
                 | Some (Raise e) => Some (Raise e)
                 | None => None
                 end
             | VRecord c attrs rec =>
                 match copy_record_of c attrs rec with
                 | Ok copy =>
                     match _convert_dict_datetime fuel' copy with
                     | Some (Ok r) =>
                         loop items' (dict_set rdict key (VDict r))
                     | Some (Raise e) => Some (Raise e)
                     | None => None
                     end
                 | Raise e => Some (Raise e)
                 end
             | _ => loop items' (dict_set rdict key (_convert_datetime val))
             end
         end) inputdict []
  end.

(** [RecordJSONEncoder.default]: the encoder calls it on every object it
    cannot serialise itself; anything but a record has no [copy_record]. *)
Definition RecordJSONEncoder_default (fuel : nat) (record : value)
  : option (result value) :=
  match record with
  | VRecord c attrs rec =>
      match copy_record_of c attrs rec with
      | Ok rdict =>
          match _convert_dict_datetime fuel rdict with
          | Some (Ok r) => Some (Ok (VDict r))
          | Some (Raise e) => Some (Raise e)
          | None => None
          end
      | Raise e => Some (Raise e)
      end
  | other =>
      Some (Raise (AttributeError
                     ("'" ++ type_name other
                          ++ "' object has no attribute 'copy_record'")))
  end.

(** [json.JSONEncoder.encode] with the [default] hook above: [None],
    booleans, integers, strings, lists, tuples and dicts are serialised
    directly, every other object goes through [default] and the result is
    encoded in turn. *)
Fixpoint encode (fuel : nat) (o : value) : option (result json) :=
  match fuel with
  | O => None
  | S fuel' =>
      let fix encode_list (l : list value) : option (result (list json)) :=
        match l with
        | [] => Some (Ok [])
        | x :: l' =>
            match encode fuel' x with
            | Some (Ok j) =>
                match encode_list l' with
                | Some (Ok js) => Some (Ok (j :: js))
                | other => other
                end
            | Some (Raise e) => Some (Raise e)
            | None => None
            end
        end in
      let fix encode_items (d : pydict)
        : option (result (list (string * json))) :=
        match d with
        | [] => Some (Ok [])
        | (k, x) :: d' =>
            match encode fuel' x with
            | Some (Ok j) =>
                match encode_items d' with
                | Some (Ok js) => Some (Ok ((k, j) :: js))
                | other => other
                end
            | Some (Raise e) => Some (Raise e)
            | None => None
            end
        end in
      match o with
      | VNone => Some (Ok JNull)
      | VBool b => Some (Ok (JBool b))
      | VInt n => Some (Ok (JInt n))
      | VStr s => Some (Ok (JStr s))
      | VList l | VTuple l =>
          match encode_list l with
          | Some (Ok js) => Some (Ok (JArr js))
          | Some (Raise e) => Some (Raise e)
          | None => None
          end
      | VDict d =>
          match encode_items d with
          | Some (Ok js) => Some (Ok (JObj js))
          | Some (Raise e) => Some (Raise e)
          | None => None
          end
      | _ =>
          match RecordJSONEncoder_default fuel' o with
          | Some (Ok v) => encode fuel' v
          | Some (Raise e) => Some (Raise e)
          | None => None
          end
      end
  end.

(** *** [Record.json]: the JSON document whose text the method returns. *)
Definition Record_json (fuel : nat) (self : RecordObj)
  : option (result json) :=
  encode fuel (value_of_obj self).

End Serializer.

(** ** Well-formed values

    The keys of a Python dict are unique; on association lists this is an
    invariant of the values the program can receive. *)

Fixpoint nodupb (l : list string) : bool :=
  match l with
  | [] => true
  | x :: l' => negb (mem x l') && nodupb l'
  end.

Fixpoint wf_value (v : value) : bool :=
  match v with
  | VList l => forallb wf_value l
  | VTuple l => forallb wf_value l
  | VDict d =>
      nodupb (map fst d) && forallb (fun kv => wf_value (snd kv)) d
  | VRecord _ attrs rec =>
      nodupb (map fst attrs) && forallb (fun kv => wf_value (snd kv)) attrs
      && nodupb (map fst rec) && forallb (fun kv => wf_value (snd kv)) rec
  | _ => true
  end.

Definition wf_values (d : pydict) : bool :=
  forallb (fun kv => wf_value (snd kv)) d.

(** ** The hash-index key as the specification words it

    [key_spec skipped shown] is the key described in prose: nothing when
    there are no fields or no values; the fields whose value is not
    [skipped] survive, the first survivor that is neither a sequence nor an
    integer is an error, and the survivors are joined after the prefix,
    which carries the id when one is given and [shown]. *)

Section KeySpec.

Variable py_format : value -> string.
Variable skipped : value -> bool.
Variable shown : Z -> bool.

Definition survivors (fields : list string) (values : pydict) : list string :=
  filter (fun f => negb (skipped (dict_get_default values f))) fields.

Definition segment (values : pydict) (f : string) : string :=
  f ++ ":" ++ py_format (dict_get_default values f).

Definition prefix_of (obj_type : string) (obj_id : option Z) : string :=
  match obj_id with
  | Some id =>
      if shown id then obj_type ++ ":" ++ py_format (VInt id) else obj_type
  | None => obj_type
  end.

Definition key_spec (obj_type : string) (fields : list string)
  (values : pydict) (obj_id : option Z) : result (option string) :=
  match fields, values with
  | [], _ => Ok None
  | _, [] => Ok None
  | _, _ =>
      let kept := survivors fields values in
      match find (fun f => negb (is_sequence_or_int
                                   (dict_get_default values f))) kept with
      | Some f => Raise (unordered_value_error f)
      | None =>
          match kept with
          | [] => Ok None
          | _ =>
              Ok (Some (prefix_of obj_type obj_id ++ ":"
                          ++ String.concat ":" (map (segment values) kept))%string)
          end
      end
  end.

End KeySpec.

(** A value is null or empty: [None], the empty string, an empty list,
    tuple or mapping. *)
Definition null_or_empty (v : value) : bool :=
  match v with
  | VNone => true
  | VStr s => String.eqb s ""
  | VList l => negb (nonempty l)
  | VTuple l => negb (nonempty l)
  | VDict d => negb (nonempty d)
  | VRecord _ _ r => negb (nonempty r)
  | _ => false
  end.

(** The key as claimed: null or empty values are skipped, every other
    value is kept, and a supplied id is always part of the prefix. *)
Definition claimed_key (py_format : value -> string) :=
  key_spec py_format null_or_empty (fun _ => true).

(** [not v] *)
Definition falsy (v : value) : bool := negb (truthy v).

(** The key as computed: every falsy value is skipped (also [0] and
    [False]) and the id is part of the prefix unless it is [0]. *)
Definition falsy_key (py_format : value -> string) :=
  key_spec py_format falsy (fun id => negb (id =? 0)%Z).

(** ** Sample record types and formatter (those of the test suite) *)

Definition TstRecord : RecordClass :=
  mkClass "TstRecord" ["service"; "test"] ["service"; "test"] [] [] false
    None.

Definition FieldRecord : RecordClass :=
  mkClass "FieldRecord" ["service"; "test"] ["service"; "test"]
    ["a"; "b"; "c"] ["a"; "b"]
    false None.

Definition RequiredFieldRecord : RecordClass :=
  mkClass "RequiredFieldRecord" ["service"; "test"] ["service"; "test"] []
    ["a"; "b"] false None.

Definition RequireAllFieldsRecord : RecordClass :=
  mkClass "RequireAllFieldsRecord" ["service"; "test"] ["service"; "test"]
    ["a"; "b"; "c"]
    ["a"; "b"] true None.

Definition HashIndexSlotsRecord : RecordClass :=
  mkClass "HashIndexSlotsRecord" ["service"; "test"] ["service"; "test"] []
    [] false
    (Some ["test"; "a"; "b"]).

(** A record type that declares [fields] and names a slot in
    [hash_index_fields]. *)
Definition FieldSlotsRecord : RecordClass :=
  mkClass "FieldSlotsRecord" ["service"; "test"] ["service"; "test"]
    ["a"; "b"] [] false
    (Some ["test"; "a"]).

(** A subclass of [TstRecord] with a [__slots__] of its own: its
    instances store three side attributes, and [self.__slots__] is the list
    of the subclass alone. *)
Definition ExtraSlotRecord : RecordClass :=
  mkClass "ExtraSlotRecord" ["service"; "test"; "extra"] ["extra"] [] []
    false (Some ["test"; "extra"; "a"]).

(** A record type with one required field, as the [Book] of the class
    docstring has. *)
Definition TitledRecord : RecordClass :=
  mkClass "TitledRecord" ["service"; "test"] ["service"; "test"] []
    ["title"] false None.

(** A set iteration order: the order of first insertion. *)
Definition insertion_order (l : list string) : list string := l.

Definition str_of_Z (n : Z) : string :=
  NilZero.string_of_int (Z.to_int n).

(** [str.format] on the scalars the examples use: exact on [None],
    booleans, integers, strings and dates; containers are not rendered. *)
Definition format_scalar (v : value) : string :=
  match v with
  | VNone => "None"
  | VBool true => "True"
  | VBool false => "False"
  | VInt n => str_of_Z n
  | VStr s => s
  | VDate d => date_isoformat d
  | _ => "<object>"
  end.

(** A sample item hash that tells scalars apart and hashes [1] and [True]
    alike, as Python does; lists, tuples, dicts and records are taken to be
    unhashable here. *)
Definition scalar_item_hash (k : string) (v : value) : result Z :=
  let hk := Z.of_nat (String.length k) in
  match v with
  | VNone => Ok hk
  | VBool b => Ok (Z.lxor hk (Z.b2z b))
  | VInt n => Ok (Z.lxor hk n)
  | VStr s => Ok (Z.lxor hk (Z.of_nat (String.length s)))
  | VDate d => Ok (Z.lxor hk (Z.of_N (d_year d)))
  | VDateTime d => Ok (Z.lxor hk (Z.of_N (dt_year d)))
  | _ => Raise (TypeError ("unhashable type: '" ++ type_name v ++ "'"))
  end.

(** A sample item hash: the length of the key, values ignored. *)
Definition sample_hash (k : string) (v : value) : result Z :=
  Ok (Z.of_nat (String.length k)).

(** ** Attempts to mutate an instance

    The four access paths through which a caller can try to change a
    record: attribute assignment and deletion, item assignment and
    deletion. *)

Inductive mutation : Type :=
| SetAttr (name : string) (v : value)
| DelAttr (name : string)
| SetItem (name : string) (v : value)
| DelItem (name : string).

Definition attempt (m : mutation) (self : RecordObj)
  : result unit * RecordObj :=
  match m with
  | SetAttr name v => Record___setattr__ self name v
  | DelAttr name => Record___delattr__ self name
  | SetItem name v => Record___setitem__ self name v
  | DelItem name => Record___delitem__ self name
  end.

(** The instance left by a sequence of attempts, each one caught by the
    caller. *)
Fixpoint attempts (ms : list mutation) (self : RecordObj) : RecordObj :=
  match ms with
  | [] => self
  | m :: ms' => attempts ms' (snd (attempt m self))
  end.

(** The error message of each access path. *)
Definition immutability_message (c : RecordClass) (m : mutation) : string :=
  "'" ++ cls_name c ++ "' object does not support "
    ++ match m with
       | SetAttr _ _ => "attribute assignment"
       | DelAttr _ => "attribute deletion"
       | SetItem _ _ => "item assignment"
       | DelItem _ => "item deletion"
       end.

(** The access path of an attempt: attribute or item. *)
Definition on_attribute (m : mutation) : bool :=
  match m with
  | SetAttr _ _ | DelAttr _ => true
  | SetItem _ _ | DelItem _ => false
  end.

(** ** The remaining read-only methods of [Record] *)

(** [Record.__getitem__]: [self.__record[name]]. *)
Definition Record___getitem__ (self : RecordObj) (name : string)
  : result value :=
  dict_getitem (obj_record self) name.

(** [Record.items] *)
Definition Record_items (self : RecordObj) : list (string * value) :=
  obj_record self.

(** [Record.values] *)
Definition Record_values (self : RecordObj) : list value :=
  map snd (obj_record self).

(** ** The ranges of dates and times

    The bounds [datetime] enforces on the components of its values (the
    length of each month is not modelled). *)

Definition in_range (lo hi n : N) : bool := (lo <=? n)%N && (n <=? hi)%N.

Definition valid_date (d : date) : bool :=
  in_range 1 9999 (d_year d) && in_range 1 12 (d_month d)
  && in_range 1 31 (d_day d).

Definition valid_datetime (dt : datetime) : bool :=
  in_range 1 9999 (dt_year dt) && in_range 1 12 (dt_month dt)
  && in_range 1 31 (dt_day dt) && in_range 0 23 (dt_hour dt)
  && in_range 0 59 (dt_minute dt) && in_range 0 59 (dt_second dt)
  && in_range 0 999999 (dt_microsecond dt).

(** ** What the serialiser is expected to produce

    [to_json] is the document of a value: dates and times as ISO texts,
    lists and tuples as arrays, dicts and records as objects over their
    own items.  [normalised] is the value [_convert_dict_datetime] is
    expected to leave in place of a value. *)

Fixpoint to_json (v : value) : json :=
  match v with
  | VNone => JNull
  | VBool b => JBool b
  | VInt n => JInt n
  | VStr s => JStr s
  | VList l => JArr (map to_json l)
  | VTuple l => JArr (map to_json l)
  | VDict d => JObj (map (fun '(k, x) => (k, to_json x)) d)
  | VDate d => JStr (date_isoformat d)
  | VDateTime dt => JStr (datetime_isoformat (replace_microsecond dt 0))
  | VRecord _ _ rec => JObj (map (fun '(k, x) => (k, to_json x)) rec)
  end.

Fixpoint normalised (v : value) : value :=
  match v with
  | VList l => VList (_convert_list_datetime l)
  | VTuple l => VList (_convert_list_datetime l)
  | VDict d => VDict (map (fun '(k, x) => (k, normalised x)) d)
  | VRecord _ _ rec => VDict (map (fun '(k, x) => (k, normalised x)) rec)
  | _ => _convert_datetime v
  end.

(** Values without structure: [None], booleans, integers, strings, dates
    and date-times. *)
Definition is_leaf (v : value) : bool :=
  match v with
  | VNone | VBool _ | VInt _ | VStr _ | VDate _ | VDateTime _ => true
  | _ => false
  end.

Section Supported.

Variable set_iter : list string -> list string.

(** The values the serialiser handles in the data of a record: leaves,
    lists and tuples of leaves, dicts of such values, and records of such
    values whose data pass their own validator unchanged. *)
Inductive supported : value -> Prop :=
| supported_leaf v : is_leaf v = true -> supported v
| supported_list l :
    Forall (fun x => is_leaf x = true) l -> supported (VList l)
| supported_tuple l :
    Forall (fun x => is_leaf x = true) l -> supported (VTuple l)
| supported_dict d :
    NoDup (dict_keys d) -> Forall (fun kv => supported (snd kv)) d ->
    supported (VDict d)
| supported_record c attrs rec :
    copy_record_of set_iter c attrs rec = Ok rec ->
    Forall (fun kv => supported (snd kv)) rec ->
    supported (VRecord c attrs rec).

(** The step of the loop of [_convert_dict_datetime] on one value, given
    the conversion of nested dicts. *)
Definition convert_value (convert : pydict -> option (result pydict))
  (val : value) : option (result value) :=
  match val with
  | VList l => Some (Ok (VList (_convert_list_datetime l)))
  | VTuple l => Some (Ok (VList (_convert_list_datetime l)))
  | VDict d =>
      match convert d with
      | Some (Ok r) => Some (Ok (VDict r))
      | Some (Raise e) => Some (Raise e)
      | None => None
      end
  | VRecord c attrs rec =>
      match copy_record_of set_iter c attrs rec with
      | Ok copy =>
          match convert copy with
          | Some (Ok r) => Some (Ok (VDict r))
          | Some (Raise e) => Some (Raise e)
          | None => None
          end
      | Raise e => Some (Raise e)
      end
  | _ => Some (Ok (_convert_datetime val))
  end.

(** The loop itself, over the items that are left and the dict built so
    far. *)
Fixpoint convert_items (step : value -> option (result value))
  (items : pydict) (rdict : pydict) : option (result pydict) :=
  match items with
  | [] => Some (Ok rdict)
  | (key, val) :: items' =>
      match step val with
      | Some (Ok v) => convert_items step items' (dict_set rdict key v)
      | Some (Raise e) => Some (Raise e)
      | None => None
      end
  end.

End Supported.

(** The encoder on the elements of a list and on the items of a dict,
    given the encoder of one value. *)
Fixpoint encode_all (enc : value -> option (result json)) (l : list value)
  : option (result (list json)) :=
  match l with
  | [] => Some (Ok [])
  | x :: l' =>
      match enc x with
      | Some (Ok j) =>
          match encode_all enc l' with
          | Some (Ok js) => Some (Ok (j :: js))
          | other => other
          end
      | Some (Raise e) => Some (Raise e)
      | None => None
      end
  end.

Fixpoint encode_members (enc : value -> option (result json)) (d : pydict)
  : option (result (list (string * json))) :=
  match d with
  | [] => Some (Ok [])
  | (k, x) :: d' =>
      match enc x with
      | Some (Ok j) =>
          match encode_members enc d' with
          | Some (Ok js) => Some (Ok ((k, j) :: js))
          | other => other
          end
      | Some (Raise e) => Some (Raise e)
      | None => None
      end
  end.

(** * Properties *)

Unset Implicit Arguments.

(** ** Strings, sets and dicts *)

Lemma append_inj_l (s a b : string) : (s ++ a = s ++ b)%string -> a = b.
Proof.
  induction s as [|ch s IH]; simpl; intros H; [exact H|].
  injection H as H. auto.
Qed.

Lemma mem_In (x : string) (l : list string) : mem x l = true <-> In x l.
Proof.
  unfold mem. rewrite existsb_exists. split.
  - intros [y [Hy He]]. apply String.eqb_eq in He. subst. exact Hy.
  - intros H. exists x. split; [exact H|apply String.eqb_refl].
Qed.

Lemma mem_false (x : string) (l : list string) :
  mem x l = false <-> ~ In x l.
Proof.
  rewrite <- mem_In. destruct (mem x l); split; intros; congruence.
Qed.

Lemma nodupb_NoDup (l : list string) : nodupb l = true <-> NoDup l.
Proof.
  induction l as [|x l IH]; simpl.
  - split; [constructor|reflexivity].
  - rewrite andb_true_iff, negb_true_iff, mem_false, IH. split.
    + intros [H1 H2]. constructor; assumption.
    + intros H. inversion H; subst. split; assumption.
Qed.

Lemma In_set_of (x : string) (l : list string) : In x (set_of l) <-> In x l.
Proof.
  induction l as [|y l IH]; simpl; [tauto|].
  destruct (mem y l) eqn:E.
  - rewrite IH. apply mem_In in E. split; [tauto|].
    intros [->|H]; assumption.
  - simpl. rewrite IH. tauto.
Qed.

Lemma mem_set_of (x : string) (l : list string) : mem x (set_of l) = mem x l.
Proof.
  destruct (mem x l) eqn:E.
  - apply mem_In, In_set_of, mem_In, E.
  - apply mem_false. rewrite In_set_of. apply mem_false, E.
Qed.

Lemma subseteq_incl (a b : list string) :
  subseteq a b = true <-> incl a b.
Proof.
  unfold subseteq, incl. rewrite forallb_forall.
  split; intros H x Hx; apply mem_In, H, Hx.
Qed.

Lemma subseteq_refl (a : list string) : subseteq a a = true.
Proof. apply subseteq_incl, incl_refl. Qed.

Lemma dict_get_In (d : pydict) (k : string) (v : value) :
  dict_get d k = Some v -> In (k, v) d.
Proof.
  induction d as [|[k' v'] d IH]; simpl; [discriminate|].
  destruct (String.eqb k' k) eqn:E.
  - apply String.eqb_eq in E. intros [= ->]. subst. now left.
  - intros H. right. auto.
Qed.

Lemma dict_get_None (d : pydict) (k : string) :
  dict_get d k = None <-> ~ In k (dict_keys d).
Proof.
  induction d as [|[k' v'] d IH]; simpl; [tauto|].
  destruct (String.eqb k' k) eqn:E.
  - apply String.eqb_eq in E. split; [discriminate|]. intros H. tauto.
  - apply String.eqb_neq in E. rewrite IH. tauto.
Qed.

Lemma In_dict_get (d : pydict) (k : string) (v : value) :
  NoDup (dict_keys d) -> In (k, v) d -> dict_get d k = Some v.
Proof.
  induction d as [|[k' v'] d IH]; simpl; [tauto|].
  intros Hnd [H|H].
  - injection H as -> ->. now rewrite String.eqb_refl.
  - inversion Hnd as [|? ? Hn Hnd']; subst.
    destruct (String.eqb k' k) eqn:E.
    + apply String.eqb_eq in E. subst. exfalso. apply Hn.
      apply (in_map fst) in H. exact H.
    + auto.
Qed.

Lemma dict_get_set_same (d : pydict) (k : string) (v : value) :
  dict_get (dict_set d k v) k = Some v.
Proof.
  induction d as [|[k' v'] d IH]; simpl.
  - now rewrite String.eqb_refl.
  - destruct (String.eqb k' k) eqn:E; simpl; rewrite E; auto.
Qed.

Lemma dict_get_set_other (d : pydict) (k k' : string) (v : value) :
  k <> k' -> dict_get (dict_set d k v) k' = dict_get d k'.
Proof.
  intros Hne. induction d as [|[k0 v0] d IH]; simpl.
  - apply String.eqb_neq in Hne. now rewrite Hne.
  - destruct (String.eqb k0 k) eqn:E; simpl.
    + apply String.eqb_eq in E. subst k0.
      apply String.eqb_neq in Hne. now rewrite Hne.
    + rewrite IH. reflexivity.
Qed.

Lemma dict_set_length (d : pydict) (k : string) (v : value) :
  In k (dict_keys d) -> List.length (dict_set d k v) = List.length d.
Proof.
  induction d as [|[k0 v0] d IH]; simpl; [tauto|].
  intros H. destruct (String.eqb k0 k) eqn:E; simpl; [reflexivity|].
  apply String.eqb_neq in E. f_equal. apply IH. tauto.
Qed.

Lemma dict_set_fresh (d : pydict) (k : string) (v : value) :
  ~ In k (dict_keys d) -> dict_set d k v = (d ++ [(k, v)])%list.
Proof.
  induction d as [|[k0 v0] d IH]; simpl; intros H; [reflexivity|].
  destruct (String.eqb k0 k) eqn:E.
  - apply String.eqb_eq in E. tauto.
  - f_equal. apply IH. tauto.
Qed.

Lemma dict_keys_set (d : pydict) (k : string) (v : value) :
  dict_keys (dict_set d k v)
  = if mem k (dict_keys d) then dict_keys d else (dict_keys d ++ [k])%list.
Proof.
  induction d as [|[k0 v0] d IH]; simpl; [reflexivity|].
  rewrite (String.eqb_sym k k0).
  destruct (String.eqb k0 k) eqn:E; simpl; [reflexivity|].
  rewrite IH. fold (mem k (dict_keys d)).
  destruct (mem k (dict_keys d)); reflexivity.
Qed.

Lemma dict_set_NoDup (d : pydict) (k : string) (v : value) :
  NoDup (dict_keys d) -> NoDup (dict_keys (dict_set d k v)).
Proof.
  intros H. rewrite dict_keys_set.
  destruct (mem k (dict_keys d)) eqn:E; [exact H|].
  apply mem_false in E.
  apply NoDup_app; [exact H|repeat constructor; simpl; tauto|].
  intros x Hx [<-|[]]. tauto.
Qed.

Lemma dict_update_NoDup (items : list (string * value)) (d : pydict) :
  NoDup (dict_keys d) -> NoDup (dict_keys (dict_update d items)).
Proof.
  revert d. induction items as [|[k v] items IH]; simpl; intros d H.
  - exact H.
  - apply IH, dict_set_NoDup, H.
Qed.

Lemma dict_of_items_NoDup (items : list (string * value)) :
  NoDup (dict_keys (dict_of_items items)).
Proof. apply dict_update_NoDup. constructor. Qed.

Lemma dict_update_fresh (items : list (string * value)) (d : pydict) :
  NoDup (dict_keys items) ->
  (forall k, In k (dict_keys items) -> ~ In k (dict_keys d)) ->
  dict_update d items = (d ++ items)%list.
Proof.
  revert d. induction items as [|[k v] items IH]; simpl; intros d Hnd Hfr.
  - now rewrite app_nil_r.
  - inversion Hnd as [|? ? Hn Hnd']; subst.
    unfold dict_update in *. simpl.
    rewrite dict_set_fresh by (apply Hfr; now left).
    rewrite IH; [now rewrite <- app_assoc|exact Hnd'|].
    intros k' Hk'. unfold dict_keys. rewrite map_app, in_app_iff. simpl.
    intros [H|[H|[]]].
    + apply (Hfr k'); [now right|exact H].
    + subst. tauto.
Qed.

Lemma dict_of_items_id (items : list (string * value)) :
  NoDup (dict_keys items) -> dict_of_items items = items.
Proof.
  intros H. unfold dict_of_items.
  rewrite dict_update_fresh; auto.
Qed.

Lemma dict_get_app (d1 d2 : pydict) (k : string) :
  dict_get (d1 ++ d2) k
  = match dict_get d1 k with Some v => Some v | None => dict_get d2 k end.
Proof.
  induction d1 as [|[k0 v0] d1 IH]; simpl; [reflexivity|].
  destruct (String.eqb k0 k); auto.
Qed.

(** Lookup after an update: the last item given for a key wins, and a key
    that is not updated keeps its value. *)
Lemma dict_get_update (items : list (string * value)) (d : pydict)
  (k : string) :
  dict_get (dict_update d items) k
  = match dict_get (rev items) k with
    | Some v => Some v
    | None => dict_get d k
    end.
Proof.
  revert d. induction items as [|[k0 v0] items IH]; intros d; simpl.
  - reflexivity.
  - unfold dict_update in *. simpl. rewrite IH, dict_get_app. simpl.
    destruct (dict_get (rev items) k); [reflexivity|].
    destruct (String.eqb k0 k) eqn:E.
    + apply String.eqb_eq in E. subst. apply dict_get_set_same.
    + apply String.eqb_neq in E. now apply dict_get_set_other.
Qed.

Lemma dict_get_perm (d d' : pydict) (k : string) :
  NoDup (dict_keys d) -> Permutation d d' -> dict_get d k = dict_get d' k.
Proof.
  intros Hnd Hp.
  assert (Hnd' : NoDup (dict_keys d')).
  { eapply Permutation_NoDup; [|exact Hnd]. now apply Permutation_map. }
  destruct (dict_get d k) as [v|] eqn:E.
  - symmetry. apply In_dict_get; [exact Hnd'|].
    eapply Permutation_in; [exact Hp|]. now apply dict_get_In.
  - symmetry. apply dict_get_None. apply dict_get_None in E.
    intros H. apply E. eapply Permutation_in; [|exact H].
    apply Permutation_sym. now apply Permutation_map.
Qed.


Lemma subseteq_equiv (a a' b b' : list string) :
  (forall x, In x a <-> In x a') -> (forall x, In x b <-> In x b') ->
  subseteq a b = subseteq a' b'.
Proof.
  intros Ha Hb. apply Bool.eq_iff_eq_true. rewrite !subseteq_incl.
  unfold incl. split; intros H x Hx; apply Hb, H, Ha, Hx.
Qed.

Lemma null_names_ext (r r' : pydict) (names : list string) :
  (forall k, dict_get r k = dict_get r' k) ->
  null_names r names = null_names r' names.
Proof.
  intros H. induction names as [|f names IH]; simpl; [reflexivity|].
  unfold dict_getitem. rewrite H, IH. reflexivity.
Qed.

Section ValidationFacts.

Variable set_iter : list string -> list string.

Lemma check_non_null_perm (c : RecordClass) (r r' : pydict) :
  NoDup (dict_keys r) -> Permutation r r' ->
  check_non_null c r = check_non_null c r'.
Proof.
  intros Hnd Hp. unfold check_non_null.
  assert (Hmem : forall x,
             mem x (set_of (dict_keys r)) = mem x (set_of (dict_keys r'))).
  { intros x. rewrite !mem_set_of. apply Bool.eq_iff_eq_true.
    rewrite !mem_In. split; apply Permutation_in;
      [|apply Permutation_sym]; now apply Permutation_map. }
  assert (Hd : set_diff (set_of (non_null_fields c)) (set_of (dict_keys r))
               = set_diff (set_of (non_null_fields c))
                          (set_of (dict_keys r'))).
  { unfold set_diff. apply filter_ext. intros x. now rewrite Hmem. }
  rewrite Hd.
  rewrite (null_names_ext r r') by (intros k; now apply dict_get_perm).
  reflexivity.
Qed.

Lemma _set_record_perm (c : RecordClass) (r r' d : pydict) :
  NoDup (dict_keys r) -> Permutation r r' -> fields c <> [] ->
  _set_record set_iter c r = Ok d -> _set_record set_iter c r' = Ok d.
Proof.
  intros Hnd Hp Hf. unfold _set_record.
  rewrite <- (check_non_null_perm c r r' Hnd Hp).
  destruct (check_non_null c r); simpl; [|discriminate].
  destruct (fields c) as [|f0 fs] eqn:Ef; [congruence|].
  assert (Hk : forall x, In x (set_of (dict_keys r))
                         <-> In x (set_of (dict_keys r'))).
  { intros x. rewrite !In_set_of. split; apply Permutation_in;
      [|apply Permutation_sym]; now apply Permutation_map. }
  unfold proper_superset, proper_subset.
  assert (Hi : forall x, In x (set_of (f0 :: fs)) <-> In x (set_of (f0 :: fs)))
    by tauto.
  rewrite <- (@subseteq_equiv _ _ _ _ Hi Hk).
  rewrite <- (@subseteq_equiv _ _ _ _ Hk Hi).
  simpl nonempty. cbv iota.
  destruct (_ && _); [discriminate|].
  destruct (_ && _); [discriminate|].
  assert (Hm : forall l,
             map (fun field => (field, dict_get_default r' field)) l
             = map (fun field => (field, dict_get_default r field)) l).
  { intros l. apply map_ext. intros f. unfold dict_get_default.
    now rewrite (dict_get_perm r r' f Hnd Hp). }
  rewrite Hm. exact (fun H => H).
Qed.

Lemma set_attrs_inv (side : list (string * value)) (o o' : RecordObj) :
  set_attrs o side = Ok o' ->
  obj_class o' = obj_class o /\ obj_record o' = obj_record o
  /\ (obj_initialized o = false -> obj_initialized o' = false).
Proof.
  revert o. induction side as [|[name v] side IH]; simpl; intros o H.
  - injection H as <-. auto.
  - unfold Record___setattr__ in H.
    destruct (obj_initialized o) eqn:Ei; [discriminate|].
    destruct (mem name (cls_slots (obj_class o))); [|discriminate].
    apply IH in H. simpl in H. tauto.
Qed.

(** What a successful construction leaves behind. *)
Lemma construct_inv (c : RecordClass) (side : list (string * value))
  (kwargs : pydict) (r : RecordObj) :
  construct set_iter c side kwargs = Ok r ->
  obj_class r = c /\ obj_initialized r = true
  /\ _set_record set_iter c kwargs = Ok (obj_record r).
Proof.
  unfold construct, Record___init__.
  destruct (set_attrs (new_obj c) side) as [o|e] eqn:Es; simpl;
    [|discriminate].
  apply set_attrs_inv in Es. simpl in Es. destruct Es as (Hc & _ & _).
  rewrite Hc.
  destruct (_set_record set_iter c kwargs) as [d|e]; simpl; [|discriminate].
  intros [= <-]. simpl. auto.
Qed.

Lemma _set_record_NoDup (c : RecordClass) (kwargs d : pydict) :
  _set_record set_iter c kwargs = Ok d -> NoDup (dict_keys d).
Proof.
  unfold _set_record. destruct (check_non_null c kwargs); simpl;
    [|discriminate].
  destruct (nonempty (fields c)).
  - destruct (proper_superset _ _); [discriminate|].
    destruct (_ && _); [discriminate|].
    intros [= <-]. apply dict_of_items_NoDup.
  - intros [= <-]. apply dict_of_items_NoDup.
Qed.

End ValidationFacts.

(** ** Validation *)

Lemma fields_items_keys (fields : list string) (g : string -> value) :
  dict_keys (map (fun field => (field, g field)) fields) = fields.
Proof.
  unfold dict_keys. rewrite map_map. simpl. apply map_id.
Qed.

Lemma distinct_from_ext (l seen seen' : list string) :
  (forall x, mem x seen = mem x seen') ->
  distinct_from seen l = distinct_from seen' l.
Proof.
  revert seen seen'. induction l as [|x l IH]; intros seen seen' H; simpl.
  - reflexivity.
  - rewrite <- H. destruct (mem x seen); [now apply IH|].
    f_equal. apply IH. intros y. simpl. now rewrite H.
Qed.

Lemma distinct_from_NoDup (l seen : list string) :
  NoDup l -> (forall x, In x l -> ~ In x seen) -> distinct_from seen l = l.
Proof.
  revert seen. induction l as [|x l IH]; intros seen Hnd Hfr; simpl.
  - reflexivity.
  - inversion Hnd as [|? ? Hx Hnd']; subst.
    assert (E : mem x seen = false) by (apply mem_false, Hfr; now left).
    rewrite E. f_equal. apply IH; [exact Hnd'|].
    intros y Hy [<-|Hs]; [tauto|]. apply (Hfr y); [now right|exact Hs].
Qed.

Lemma mem_app (x : string) (l l' : list string) :
  mem x (l ++ l') = mem x l || mem x l'.
Proof. unfold mem. apply existsb_app. Qed.

(** The keys of an updated dict: the old keys, then the new ones in the
    order of their first appearance. *)
Lemma dict_update_keys (items : list (string * value)) (d : pydict) :
  dict_keys (dict_update d items)
  = (dict_keys d ++ distinct_from (dict_keys d) (dict_keys items))%list.
Proof.
  revert d. induction items as [|[k v] items IH]; intros d; simpl.
  - now rewrite app_nil_r.
  - unfold dict_update in *. simpl. rewrite IH, dict_keys_set.
    destruct (mem k (dict_keys d)) eqn:E; [reflexivity|].
    rewrite <- app_assoc. simpl. do 2 f_equal.
    apply distinct_from_ext. intros x. rewrite mem_app. simpl.
    rewrite orb_false_r. apply orb_comm.
Qed.

Lemma dict_of_items_keys (items : list (string * value)) :
  dict_keys (dict_of_items items) = distinct (dict_keys items).
Proof. unfold dict_of_items. now rewrite dict_update_keys. Qed.

Lemma dict_get_fields_items (g : string -> value) (l : list string)
  (f : string) :
  dict_get (map (fun field => (field, g field)) l) f
  = if mem f l then Some (g f) else None.
Proof.
  induction l as [|x l IH]; simpl; [reflexivity|].
  rewrite (String.eqb_sym f x).
  destruct (String.eqb x f) eqn:E; simpl; [|exact IH].
  apply String.eqb_eq in E. now subst.
Qed.

Lemma mem_rev (x : string) (l : list string) : mem x (rev l) = mem x l.
Proof.
  apply Bool.eq_iff_eq_true. rewrite !mem_In. symmetry. apply in_rev.
Qed.

(** A dict built from one item per field holds, for every field, the value
    given for it. *)
Lemma dict_of_fields_items_get (g : string -> value) (l : list string)
  (f : string) :
  dict_get (dict_of_items (map (fun field => (field, g field)) l)) f
  = if mem f l then Some (g f) else None.
Proof.
  unfold dict_of_items. rewrite dict_get_update, <- map_rev.
  rewrite dict_get_fields_items, mem_rev.
  destruct (mem f l); reflexivity.
Qed.

Lemma _set_record_fields (set_iter : list string -> list string)
  (c : RecordClass) (kwargs d : pydict) :
  fields c <> [] ->
  _set_record set_iter c kwargs = Ok d ->
  d = dict_of_items
        (map (fun field => (field, dict_get_default kwargs field))
             (fields c)).
Proof.
  intros Hf. unfold _set_record.
  destruct (check_non_null c kwargs); simpl; [|discriminate].
  destruct (fields c) as [|f0 fs] eqn:Ef; [congruence|]. cbn [nonempty].
  destruct (proper_superset _ _); [discriminate|].
  destruct (_ && _); [discriminate|].
  now intros [= <-].
Qed.

(** C8. When [fields] is declared and the keyword arguments pass
    validation, [keys()] and iteration give the declared fields in their
    declared order (a name declared twice appears once, at its first
    position; with pairwise distinct names the keys are exactly [fields]),
    every declared field that was not supplied is present with the value
    [None], every supplied one with its value, and supplying the same
    arguments in any other order builds the same record. *)
Theorem field_order_determinism (set_iter : list string -> list string)
  (c : RecordClass) (side : list (string * value)) (kwargs : pydict)
  (r : RecordObj) :
  fields c <> [] -> NoDup (dict_keys kwargs) ->
  construct set_iter c side kwargs = Ok r ->
  Record_keys r = distinct (fields c)
  /\ Record___iter__ r = Record_keys r
  /\ (NoDup (fields c) -> Record_keys r = fields c)
  /\ (forall f, In f (fields c) -> ~ In f (dict_keys kwargs) ->
                dict_get (obj_record r) f = Some VNone)
  /\ (forall f v, In f (fields c) -> dict_get kwargs f = Some v ->
                  dict_get (obj_record r) f = Some v)
  /\ (forall kwargs', Permutation kwargs kwargs' ->
                      construct set_iter c side kwargs' = Ok r).
Proof.
  intros Hf Hk Hc.
  destruct (construct_inv _ _ _ _ _ Hc) as (Hcl & Hin & Hs).
  pose proof (_set_record_fields _ _ _ _ Hf Hs) as Hd.
  assert (Hkeys : Record_keys r = distinct (fields c)).
  { unfold Record_keys. rewrite Hd, dict_of_items_keys.
    now rewrite fields_items_keys. }
  assert (Hget : forall f, In f (fields c) ->
             dict_get (obj_record r) f = Some (dict_get_default kwargs f)).
  { intros f Hin'. rewrite Hd, dict_of_fields_items_get.
    apply mem_In in Hin'. now rewrite Hin'. }
  split; [exact Hkeys|]. split; [reflexivity|]. split; [|split; [|split]].
  - intros Hnd. rewrite Hkeys. unfold distinct.
    apply distinct_from_NoDup; [exact Hnd|]. intros x _ [].
  - intros f Hin' Hno. rewrite (Hget f Hin'). unfold dict_get_default.
    apply dict_get_None in Hno. now rewrite Hno.
  - intros f v Hin' Hv. rewrite (Hget f Hin'). unfold dict_get_default.
    now rewrite Hv.
  - intros kwargs' Hp. revert Hc. unfold construct, Record___init__.
    destruct (set_attrs (new_obj c) side) as [o|e] eqn:Es; simpl;
      [|discriminate].
    apply set_attrs_inv in Es. simpl in Es. destruct Es as (Hoc & _ & _).
    rewrite Hoc.
    destruct (_set_record set_iter c kwargs) as [d|e] eqn:E; simpl;
      [|discriminate].
    rewrite (_set_record_perm set_iter c kwargs kwargs' d Hk Hp Hf E). simpl.
    exact (fun H => H).
Qed.

(** The ordering test of the suite: [FieldRecord('red', 1, a=2, c=4, b=3)]. *)
Lemma field_order_determinism_witness :
  let kwargs := [("a", VInt 2); ("c", VInt 4); ("b", VInt 3)] in
  let r := {| obj_class := FieldRecord;
              obj_attrs := [("service", VStr "red"); ("test", VInt 1)];
              obj_record := [("a", VInt 2); ("b", VInt 3); ("c", VInt 4)];
              obj_initialized := true |} in
  construct insertion_order FieldRecord
    [("service", VStr "red"); ("test", VInt 1)] kwargs = Ok r
  /\ Record_keys r = ["a"; "b"; "c"]
  /\ construct insertion_order FieldRecord
       [("service", VStr "red"); ("test", VInt 1)]
       [("b", VInt 3); ("a", VInt 2); ("c", VInt 4)] = Ok r.
Proof.
  intros kwargs r.
  assert (Hc : construct insertion_order FieldRecord
                 [("service", VStr "red"); ("test", VInt 1)] kwargs = Ok r)
    by reflexivity.
  assert (Hf : fields FieldRecord <> []) by discriminate.
  assert (Hk : NoDup (dict_keys kwargs)) by (apply nodupb_NoDup; reflexivity).
  destruct (field_order_determinism insertion_order FieldRecord _ _ _ Hf Hk Hc)
    as (_ & _ & H3 & _ & _ & H6).
  split; [exact Hc|]. split.
  - apply H3. apply nodupb_NoDup. reflexivity.
  - apply H6. unfold kwargs.
    apply perm_trans with [("a", VInt 2); ("b", VInt 3); ("c", VInt 4)].
    + apply perm_skip, perm_swap.
    + apply perm_swap.
Defined.

(** C1 (defect in the code). A record type with [fields = ("a","b","c")]
    constructed with [a], [b] and the undeclared key [d] is accepted: the
    test [keys > set(fields)] only fires when every declared field is
    supplied as well, so the extra key is dropped silently instead of
    raising the [KeyError] the class documentation promises. *)
Theorem extra_key_accepted_when_a_field_is_omitted
  (set_iter : list string -> list string) :
  construct set_iter FieldRecord [("service", VStr "red"); ("test", VInt 1)]
    [("a", VInt 2); ("b", VInt 3); ("d", VInt 5)]
  = Ok {| obj_class := FieldRecord;
          obj_attrs := [("service", VStr "red"); ("test", VInt 1)];
          obj_record := [("a", VInt 2); ("b", VInt 3); ("c", VNone)];
          obj_initialized := true |}.
Proof. reflexivity. Qed.

(** C5 (defect in the code). The plural of the missing-required-field
    message is chosen from the length of the joined text, not from the
    number of names: a single missing field whose name is longer than one
    character is reported with "fields are". *)
Theorem single_missing_field_reported_in_plural
  (set_iter : list string -> list string) :
  construct set_iter TitledRecord
    [("service", VStr "red"); ("test", VInt 1)]
    [("author", VStr "Banana Yoshimoto")]
  = Raise (KeyError "The following fields are required: title").
Proof. reflexivity. Qed.

(** The messages the test suite expects: with one-letter names the
    required-field checks report every offender, sorted, in one error. *)
Example validation_messages_of_the_tests :
  _set_record insertion_order RequiredFieldRecord
    [("a", VInt 2); ("c", VInt 3)]
  = Raise (KeyError "The following field is required: b")
  /\ _set_record insertion_order RequiredFieldRecord
       [("d", VInt 2); ("c", VInt 3)]
     = Raise (KeyError "The following fields are required: a, b")
  /\ _set_record insertion_order RequiredFieldRecord
       [("a", VInt 2); ("b", VNone)]
     = Raise (KeyError "The following field can not be None: b")
  /\ _set_record insertion_order RequiredFieldRecord
       [("b", VNone); ("a", VNone)]
     = Raise (KeyError "The following fields can not be None: a, b")
  /\ _set_record insertion_order FieldRecord
       [("a", VInt 2); ("b", VInt 3); ("c", VInt 4); ("d", VInt 5)]
     = Raise (KeyError
                ("Extra keys: d. Only the following keys can be used "
                   ++ "in the record: a, b, c"))
  /\ _set_record insertion_order RequireAllFieldsRecord
       [("a", VInt 2); ("b", VInt 3)]
     = Raise (KeyError
                ("Missing keys: c. The following keys must be used "
                   ++ "in the record: a, b, c")).
Proof. repeat split. Qed.

(** ** Copies *)





(** ** Immutability *)

Lemma attribute_and_item_messages_differ (c : RecordClass) (m m' : mutation) :
  on_attribute m = true -> on_attribute m' = false ->
  immutability_message c m <> immutability_message c m'.
Proof.
  unfold immutability_message. intros Hm Hm' H.
  apply append_inj_l, append_inj_l, append_inj_l in H.
  destruct m, m'; simpl in *; discriminate.
Qed.

(** C6. On a constructed record every attempt to set or delete a side
    attribute or a record key raises a [TypeError] whose message names the
    access path (attribute or item, assignment or deletion), the messages
    of the attribute path differ from those of the item path, and the
    instance (its data and its side attributes) is left as it was, also
    after any sequence of such attempts. *)
Theorem record_is_immutable (set_iter : list string -> list string)
  (c : RecordClass) (side : list (string * value)) (kwargs : pydict)
  (r : RecordObj) :
  construct set_iter c side kwargs = Ok r ->
  (forall m, attempt m r = (Raise (TypeError (immutability_message c m)), r))
  /\ (forall m m', on_attribute m = true -> on_attribute m' = false ->
                   fst (attempt m r) <> fst (attempt m' r))
  /\ (forall ms, attempts ms r = r).
Proof.
  intros Hc.
  destruct (construct_inv _ _ _ _ _ Hc) as (Hcl & Hin & _).
  assert (Hone : forall m,
             attempt m r = (Raise (TypeError (immutability_message c m)), r)).
  { intros m. subst c.
    destruct m; simpl; unfold Record___setattr__, Record___delattr__,
      Record___setitem__, Record___delitem__; rewrite ?Hin; reflexivity. }
  split; [exact Hone|split].
  - intros m m' Hm Hm'. rewrite !Hone. cbn [fst]. intros H.
    apply (attribute_and_item_messages_differ c m m' Hm Hm').
    congruence.
  - intros ms. induction ms as [|m ms IH]; simpl; [reflexivity|].
    now rewrite Hone.
Qed.

Lemma record_is_immutable_witness :
  let side := [("service", VStr "service"); ("test", VStr "test")] in
  let kwargs := [("color", VStr "red"); ("number", VInt 10)] in
  let r := {| obj_class := TstRecord; obj_attrs := side;
              obj_record := kwargs; obj_initialized := true |} in
  construct insertion_order TstRecord side kwargs = Ok r
  /\ Record___setattr__ r "test" (VInt 1)
     = (Raise (TypeError
                 "'TstRecord' object does not support attribute assignment"),
        r)
  /\ Record___delitem__ r "number"
     = (Raise (TypeError
                 "'TstRecord' object does not support item deletion"), r).
Proof.
  intros side kwargs r.
  assert (Hc : construct insertion_order TstRecord side kwargs = Ok r)
    by reflexivity.
  destruct (record_is_immutable insertion_order TstRecord side kwargs r Hc)
    as (H & _ & _).
  split; [exact Hc|]. split.
  - exact (H (SetAttr "test" (VInt 1))).
  - exact (H (DelItem "number")).
Defined.

(** ** Hash-index keys *)

Section KeyFacts.

Variable py_format : value -> string.

Lemma collect_field_values_spec (values : pydict) (fields acc : list string) :
  collect_field_values py_format fields values acc
  = match find (fun f => negb (is_sequence_or_int
                                 (dict_get_default values f)))
               (survivors falsy fields values) with
    | Some f => Raise (unordered_value_error f)
    | None =>
        Ok (acc ++ map (segment py_format values)
                       (survivors falsy fields values))%list
    end.
Proof.
  revert acc. induction fields as [|f fields IH]; intros acc.
  - simpl. now rewrite app_nil_r.
  - cbn [collect_field_values survivors filter].
    fold (survivors falsy fields values).
    replace (negb (falsy (dict_get_default values f)))
      with (truthy (dict_get_default values f))
      by (unfold falsy; now rewrite negb_involutive).
    destruct (truthy (dict_get_default values f)) eqn:Et; cbn [negb].
    + cbn [find map].
      destruct (is_sequence_or_int (dict_get_default values f)) eqn:Es;
        cbn [negb]; [|reflexivity].
      rewrite IH.
      destruct (find _ (survivors falsy fields values)); [reflexivity|].
      now rewrite <- app_assoc.
    + apply IH.
Qed.

(** C3 (as amended). The generator returns no key when [fields] or the
    values are empty or no field survives; a field survives when its
    looked-up value is truthy, so [None], empty strings, sequences and
    mappings, and also [0] and [False], are skipped without error; the
    first survivor, in field order, whose value is neither a sequence nor an
    integer raises the [ValueError] naming it; otherwise the key is the
    prefix (the object type, followed by the id when one is given and is
    not [0]) joined by a colon with one "field:value" segment per survivor
    in field order. *)
Theorem generate_hash_index_key_spec (obj_type : string)
  (fields : list string) (values_dict : pydict) (obj_id : option Z) :
  generate_hash_index_key py_format obj_type fields values_dict obj_id
  = falsy_key py_format obj_type fields values_dict obj_id.
Proof.
  unfold generate_hash_index_key, falsy_key, key_spec.
  destruct fields as [|f fields]; [reflexivity|].
  destruct values_dict as [|kv values]; [reflexivity|].
  cbn [nonempty andb].
  rewrite collect_field_values_spec.
  set (kept := survivors falsy (f :: fields) (kv :: values)).
  clearbody kept.
  destruct (find _ kept); [reflexivity|].
  cbn [app bind].
  destruct kept as [|s kept]; [reflexivity|].
  cbn [map nonempty prefix_of truthy].
  destruct obj_id as [id|]; reflexivity.
Qed.

End KeyFacts.

(** C3 (as claimed) fails: an integer field holding [0] is neither null
    nor empty, yet it is left out of the key, and the supplied id [0] is
    left out of the prefix. *)
Lemma zero_is_skipped :
  generate_hash_index_key format_scalar "Stock" ["isbn"; "count"]
    [("isbn", VStr "978-1-61902-786-2"); ("count", VInt 0)] (Some 0%Z)
  = Ok (Some "Stock:isbn:978-1-61902-786-2")
  /\ claimed_key format_scalar "Stock" ["isbn"; "count"]
       [("isbn", VStr "978-1-61902-786-2"); ("count", VInt 0)] (Some 0%Z)
     = Ok (Some "Stock:0:isbn:978-1-61902-786-2:count:0")
  /\ generate_hash_index_key format_scalar "Stock" ["isbn"; "count"]
       [("isbn", VStr "978-1-61902-786-2"); ("count", VInt 0)] (Some 0%Z)
     <> claimed_key format_scalar "Stock" ["isbn"; "count"]
          [("isbn", VStr "978-1-61902-786-2"); ("count", VInt 0)] (Some 0%Z).
Proof.
  split; [reflexivity|]. split; [reflexivity|]. discriminate.
Qed.

(** The keys of the specification's examples. *)
Example hash_key_examples :
  let values := [("isbn", VStr "978-1-61902-786-2");
                 ("title", VStr "Moshi Moshi")] in
  generate_hash_index_key format_scalar "Book" ["isbn"; "title"] values None
  = Ok (Some "Book:isbn:978-1-61902-786-2:title:Moshi Moshi")
  /\ generate_hash_index_key format_scalar "Book" ["isbn"; "title"] values
       (Some 1%Z)
     = Ok (Some "Book:1:isbn:978-1-61902-786-2:title:Moshi Moshi")
  /\ generate_hash_index_key format_scalar "Book" ["isbn"; "title"]
       [("isbn", VStr "978-1-61902-786-2"); ("title", VNone)] None
     = Ok (Some "Book:isbn:978-1-61902-786-2")
  /\ generate_hash_index_key format_scalar "Book" ["isbn"; "title"]
       [("isbn", VNone); ("title", VStr "")] None
     = Ok None.
Proof. repeat split. Qed.

(** C4 (defect in the code). A record type that declares [fields] and
    names one of its slots in [hash_index_fields] cannot produce a key: the
    lookup is built by [copy_record], which validates the slot name against
    [fields] and raises the extra-key [KeyError], although the method
    documents that keys from slots can be included. *)
Theorem slot_key_rejected_when_fields_declared
  (set_iter : list string -> list string) (py_format : value -> string) :
  let r := {| obj_class := FieldSlotsRecord;
              obj_attrs := [("service", VStr "service");
                            ("test", VStr "test")];
              obj_record := [("a", VInt 1); ("b", VInt 2)];
              obj_initialized := true |} in
  construct set_iter FieldSlotsRecord
    [("service", VStr "service"); ("test", VStr "test")]
    [("a", VInt 1); ("b", VInt 2)] = Ok r
  /\ Record_get_hash_index_key set_iter py_format r
     = Raise (KeyError
                ("Extra keys: " ++ join_comma (set_iter ["test"])
                   ++ ". Only the following keys can be used in the record: "
                   ++ "a, b")).
Proof. split; reflexivity. Qed.

(** Without [fields] the slot is part of the key, as in the test suite. *)
Example slot_key_without_fields :
  Record_get_hash_index_key insertion_order format_scalar
    {| obj_class := HashIndexSlotsRecord;
       obj_attrs := [("service", VStr "service"); ("test", VStr "test")];
       obj_record := [("a", VInt 1); ("b", VInt 2)];
       obj_initialized := true |}
  = Ok (Some "HashIndexSlotsRecord:test:test:a:1:b:2").
Proof. reflexivity. Qed.

(** ** Serialisation *)

(** C9 (defect in the code). A date-time inside a list that is itself
    inside a list is not converted: [_convert_list_datetime] only converts
    the elements of the outer list, the encoder then hands the date-time to
    [default], which calls [copy_record] on it, and [json()] raises
    [AttributeError] instead of returning JSON text. *)
Theorem nested_list_datetime_not_serialised
  (set_iter : list string -> list string) (fuel : nat) :
  let dtime := mkDateTime 2001 1 1 1 1 1 100 in
  let r := {| obj_class := TstRecord;
              obj_attrs := [("service", VStr "service");
                            ("test", VStr "test")];
              obj_record := [("lst", VList [VList [VDateTime dtime]])];
              obj_initialized := true |} in
  construct set_iter TstRecord
    [("service", VStr "service"); ("test", VStr "test")]
    [("lst", VList [VList [VDateTime dtime]])] = Ok r
  /\ Record_json set_iter (5 + fuel) r
     = Some (Raise (AttributeError
                      ("'datetime.datetime' object has no attribute "
                         ++ "'copy_record'"))).
Proof. split; reflexivity. Qed.

(** The record of the test suite serialises as the tests expect: dates and
    times at the top level, in a list, in a tuple, in a dict and in a nested
    record are converted, and no side attribute appears. *)
Example json_of_test_record :
  let dtime := mkDateTime 2001 1 1 1 1 1 100 in
  let day := mkDate 2001 1 1 in
  let side := [("service", VStr "service"); ("test", VStr "test")] in
  let inner := {| obj_class := TstRecord; obj_attrs := side;
                  obj_record := [("integer", VInt 1);
                                 ("datetime", VDateTime dtime);
                                 ("lst", VList [VDateTime dtime; VDate day]);
                                 ("tpl", VTuple [VDateTime dtime; VDate day]);
                                 ("dictionary", VDict [("date", VDate day)])];
                  obj_initialized := true |} in
  let outer := {| obj_class := TstRecord; obj_attrs := side;
                  obj_record := [("record", value_of_obj inner)];
                  obj_initialized := true |} in
  Record_json insertion_order 10 outer
  = Some (Ok (JObj [("record",
        JObj [("integer", JInt 1);
              ("datetime", JStr "2001-01-01T01:01:01");
              ("lst", JArr [JStr "2001-01-01T01:01:01"; JStr "2001-01-01"]);
              ("tpl", JArr [JStr "2001-01-01T01:01:01"; JStr "2001-01-01"]);
              ("dictionary", JObj [("date", JStr "2001-01-01")])])])).
Proof. reflexivity. Qed.

(** ** Equality and hashing *)

(** Induction on values, with the hypothesis available for the elements of
    lists and tuples and for the values of mappings and records. *)
Section ValueInduction.

Variable P : value -> Prop.

Hypothesis P_None : P VNone.
Hypothesis P_Bool : forall b, P (VBool b).
Hypothesis P_Int : forall n, P (VInt n).
Hypothesis P_Str : forall s, P (VStr s).
Hypothesis P_List : forall l, Forall P l -> P (VList l).
Hypothesis P_Tuple : forall l, Forall P l -> P (VTuple l).
Hypothesis P_Dict :
  forall d, Forall (fun kv => P (snd kv)) d -> P (VDict d).
Hypothesis P_Date : forall d, P (VDate d).
Hypothesis P_DateTime : forall d, P (VDateTime d).
Hypothesis P_Record :
  forall c attrs rec,
    Forall (fun kv => P (snd kv)) attrs ->
    Forall (fun kv => P (snd kv)) rec -> P (VRecord c attrs rec).

Fixpoint value_nested_ind (v : value) : P v :=
  let fix on_list (l : list value) : Forall P l :=
    match l with
    | [] => Forall_nil _
    | x :: l' => Forall_cons _ (value_nested_ind x) (on_list l')
    end in
  let fix on_items (d : list (string * value))
    : Forall (fun kv => P (snd kv)) d :=
    match d with
    | [] => Forall_nil _
    | (k, x) :: d' =>
        Forall_cons (P := fun kv => P (snd kv)) (k, x)
          (value_nested_ind x) (on_items d')
    end in
  match v with
  | VNone => P_None
  | VBool b => P_Bool b
  | VInt n => P_Int n
  | VStr s => P_Str s
  | VList l => P_List l (on_list l)
  | VTuple l => P_Tuple l (on_list l)
  | VDict d => P_Dict d (on_items d)
  | VDate d => P_Date d
  | VDateTime d => P_DateTime d
  | VRecord c attrs rec =>
      P_Record c attrs rec (on_items attrs) (on_items rec)
  end.

End ValueInduction.

Lemma date_eqb_refl (d : date) : date_eqb d d = true.
Proof. unfold date_eqb. now rewrite !N.eqb_refl. Qed.

Lemma datetime_eqb_refl (d : datetime) : datetime_eqb d d = true.
Proof. unfold datetime_eqb. now rewrite !N.eqb_refl. Qed.

Lemma list_eq_with_refl (eqv : value -> value -> bool) (l : list value) :
  Forall (fun x => wf_value x = true -> eqv x x = true) l ->
  forallb wf_value l = true -> list_eq_with eqv l l = true.
Proof.
  induction 1 as [|x l Hx _ IH]; simpl; [reflexivity|].
  rewrite andb_true_iff. intros [Hw Hl]. now rewrite Hx, IH.
Qed.

(** Every item of [d1] is an item of [d2], up to the equality of values. *)
Lemma items_in_with_true (eqv : value -> value -> bool) (d1 d2 : pydict) :
  (forall k v, In (k, v) d1 ->
               exists v', dict_get d2 k = Some v' /\ eqv v v' = true) ->
  items_in_with eqv d1 d2 = true.
Proof.
  induction d1 as [|[k v] d1 IH]; simpl; intros H; [reflexivity|].
  destruct (H k v) as (v' & -> & ->); [now left|]. simpl.
  apply IH. intros k0 v0 Hin. apply H. now right.
Qed.

Lemma items_in_with_false (eqv : value -> value -> bool) (d1 d2 : pydict)
  (k : string) (v v' : value) :
  In (k, v) d1 -> dict_get d2 k = Some v' -> eqv v v' = false ->
  items_in_with eqv d1 d2 = false.
Proof.
  induction d1 as [|[k0 v0] d1 IH]; simpl; intros Hin Hg He; [tauto|].
  destruct Hin as [[= -> ->]|Hin].
  - now rewrite Hg, He.
  - rewrite (IH Hin Hg He). apply andb_false_r.
Qed.

Lemma mapping_eq_with_perm (eqv : value -> value -> bool) (d d' : pydict) :
  NoDup (dict_keys d) -> Permutation d d' ->
  Forall (fun kv => wf_value (snd kv) = true -> eqv (snd kv) (snd kv) = true)
         d ->
  wf_values d = true ->
  mapping_eq_with eqv d d' = true.
Proof.
  intros Hnd Hp Hrefl Hwf. unfold mapping_eq_with.
  rewrite (Permutation_length Hp), Nat.eqb_refl. simpl.
  apply items_in_with_true. intros k v Hin. exists v. split.
  - rewrite <- (dict_get_perm d d' k Hnd Hp). now apply In_dict_get.
  - rewrite Forall_forall in Hrefl. apply (Hrefl (k, v) Hin).
    unfold wf_values in Hwf. rewrite forallb_forall in Hwf.
    apply (Hwf (k, v) Hin).
Qed.

(** A well-formed value is equal to itself. *)
Lemma py_eq_refl (v : value) : wf_value v = true -> py_eq v v = true.
Proof.
  induction v using value_nested_ind; simpl; intros Hwf;
    try reflexivity.
  - apply Bool.eqb_reflx.
  - apply Z.eqb_refl.
  - apply String.eqb_refl.
  - now apply list_eq_with_refl.
  - now apply list_eq_with_refl.
  - rewrite andb_true_iff in Hwf. destruct Hwf as [Hk Hv].
    apply mapping_eq_with_perm; auto.
    now apply nodupb_NoDup.
  - apply date_eqb_refl.
  - apply datetime_eqb_refl.
  - rewrite !andb_true_iff in Hwf. destruct Hwf as [[[_ _] Hk] Hv].
    apply mapping_eq_with_perm; auto.
    now apply nodupb_NoDup.
Qed.

(** Mappings with the same items are equal, whatever the order. *)
Lemma mapping_eq_perm (d d' : pydict) :
  NoDup (dict_keys d) -> wf_values d = true -> Permutation d d' ->
  mapping_eq d d' = true.
Proof.
  intros Hnd Hwf Hp. apply mapping_eq_with_perm; auto.
  apply Forall_forall. intros kv _. apply py_eq_refl.
Qed.

(** Replacing a value by one that is not equal to it breaks the equality
    of the mappings. *)
Lemma mapping_eq_changed (d : pydict) (k : string) (v v' : value) :
  dict_get d k = Some v -> py_eq v v' = false ->
  mapping_eq d (dict_set d k v') = false.
Proof.
  intros Hg He. unfold mapping_eq, mapping_eq_with.
  rewrite (items_in_with_false py_eq d (dict_set d k v') k v v').
  - apply andb_false_r.
  - now apply dict_get_In.
  - apply dict_get_set_same.
  - exact He.
Qed.

Section HashFacts.

Variable hash_item : string -> value -> result Z.

(** The hash of a frozen mapping does not depend on the order of its
    items. *)
Lemma frozendict_hash_from_perm (d d' : pydict) :
  Permutation d d' ->
  forall h0 h, frozendict_hash_from hash_item d h0 = Ok h ->
               frozendict_hash_from hash_item d' h0 = Ok h.
Proof.
  induction 1 as [|[k v] d d' _ IH|[k1 v1] [k2 v2] d|d1 d2 d3 _ IH1 _ IH2];
    intros h0 h; simpl.
  - exact (fun H => H).
  - destruct (hash_item k v); simpl; [apply IH|discriminate].
  - destruct (hash_item k1 v1) as [a|], (hash_item k2 v2) as [b|]; simpl;
      try discriminate.
    assert (E : Z.lxor (Z.lxor h0 a) b = Z.lxor (Z.lxor h0 b) a)
      by (rewrite !Z.lxor_assoc; f_equal; apply Z.lxor_comm).
    first [rewrite E | rewrite <- E]; exact (fun H => H).
  - intros H. apply IH2, IH1, H.
Qed.

Lemma frozendict_hash_perm (d d' : pydict) (h : Z) :
  Permutation d d' ->
  frozendict___hash__ hash_item d = Ok h ->
  frozendict___hash__ hash_item d' = Ok h.
Proof.
  intros Hp. apply frozendict_hash_from_perm, Hp.
Qed.

End HashFacts.

Lemma wf_values_dict_set (d : pydict) (k : string) (v : value) :
  wf_values d = true -> wf_value v = true ->
  wf_values (dict_set d k v) = true.
Proof.
  unfold wf_values. intros Hd Hv.
  induction d as [|[k0 v0] d IH]; simpl in *.
  - now rewrite Hv.
  - apply andb_true_iff in Hd. destruct Hd as [H0 Hd].
    destruct (String.eqb k0 k); simpl.
    + now rewrite Hv, Hd.
    + now rewrite H0, IH.
Qed.

Lemma wf_values_dict_update (items : list (string * value)) (d : pydict) :
  wf_values d = true -> wf_values items = true ->
  wf_values (dict_update d items) = true.
Proof.
  revert d. induction items as [|[k v] items IH]; intros d Hd Hi.
  - exact Hd.
  - unfold wf_values in Hi. simpl in Hi. apply andb_true_iff in Hi.
    destruct Hi as [Hv Hi]. unfold dict_update. simpl.
    apply IH; [now apply wf_values_dict_set|exact Hi].
Qed.

Lemma wf_value_dict_get_default (d : pydict) (k : string) :
  wf_values d = true -> wf_value (dict_get_default d k) = true.
Proof.
  intros Hd. unfold dict_get_default.
  destruct (dict_get d k) as [v|] eqn:E; [|reflexivity].
  apply dict_get_In in E. unfold wf_values in Hd.
  rewrite forallb_forall in Hd. apply (Hd (k, v) E).
Qed.

Lemma _set_record_no_fields (set_iter : list string -> list string)
  (c : RecordClass) (kwargs d : pydict) :
  fields c = [] -> _set_record set_iter c kwargs = Ok d ->
  d = dict_of_items kwargs.
Proof.
  intros Hf. unfold _set_record. rewrite Hf.
  destruct (check_non_null c kwargs); simpl; [|discriminate].
  now intros [= <-].
Qed.

(** The validator only stores values it was given, or [None]. *)
Lemma _set_record_wf (set_iter : list string -> list string)
  (c : RecordClass) (kwargs d : pydict) :
  wf_values kwargs = true -> _set_record set_iter c kwargs = Ok d ->
  wf_values d = true.
Proof.
  intros Hwf. unfold _set_record.
  destruct (check_non_null c kwargs); simpl; [|discriminate].
  destruct (nonempty (fields c)).
  - destruct (proper_superset _ _); [discriminate|].
    destruct (_ && _); [discriminate|].
    intros [= <-]. apply wf_values_dict_update; [reflexivity|].
    unfold wf_values. apply forallb_forall. intros kv Hin.
    apply in_map_iff in Hin. destruct Hin as (f & <- & _). simpl.
    now apply wf_value_dict_get_default.
  - intros [= <-]. now apply wf_values_dict_update.
Qed.

(** Replacing the value of a key: the mappings stay equal exactly when
    the new value compares equal to the old one. *)
Lemma mapping_eq_set (d : pydict) (k : string) (v v' : value) :
  NoDup (dict_keys d) -> wf_values d = true ->
  dict_get d k = Some v ->
  mapping_eq d (dict_set d k v') = py_eq v v'.
Proof.
  intros Hnd Hwf Hg.
  destruct (py_eq v v') eqn:He; [|now apply (mapping_eq_changed d k v v')].
  unfold mapping_eq, mapping_eq_with.
  rewrite dict_set_length
    by (apply dict_get_In in Hg; now apply (in_map fst) in Hg).
  rewrite Nat.eqb_refl. cbn [andb].
  apply items_in_with_true. intros k0 v0 Hin.
  destruct (String.eqb_spec k k0) as [<-|Hne].
  - exists v'. split; [apply dict_get_set_same|].
    rewrite (In_dict_get d k v0 Hnd Hin) in Hg. injection Hg as ->.
    exact He.
  - exists v0. split.
    + rewrite dict_get_set_other by exact Hne. now apply In_dict_get.
    + apply py_eq_refl. unfold wf_values in Hwf.
      rewrite forallb_forall in Hwf. exact (Hwf (k0, v0) Hin).
Qed.

(** C7 (as amended). Equality and hashing only look at the data of a
    record.  Two instances of one type built from the same data with
    different side attributes are equal and have the same hash; a record
    is equal to every plain mapping with the same key/value pairs; its
    hash is the hash of such a plain frozen mapping, and when [fields] is
    not declared it does not depend on the order in which the arguments
    were given; replacing the value of a key breaks the equality exactly
    when the new value does not compare equal to the old one: [==] then
    answers [False] and [!=] answers [True], while a change to a value that
    compares equal (such as [1] to [True]) leaves the records equal. *)
Theorem equality_and_hash_over_data
  (set_iter : list string -> list string)
  (hash_item : string -> value -> result Z)
  (c : RecordClass) (side1 side2 : list (string * value))
  (kwargs : pydict) (r1 r2 : RecordObj) :
  NoDup (dict_keys kwargs) -> wf_values kwargs = true ->
  construct set_iter c side1 kwargs = Ok r1 ->
  construct set_iter c side2 kwargs = Ok r2 ->
  (Record___eq__ r1 (value_of_obj r2) = true
   /\ Record___ne__ r1 (value_of_obj r2) = false
   /\ Record___hash__ hash_item r1 = Record___hash__ hash_item r2)
  /\ (forall d, Permutation (obj_record r1) d ->
                Record___eq__ r1 (VDict d) = true)
  /\ (forall d h, Permutation d (obj_record r1) ->
                  frozendict___hash__ hash_item d = Ok h ->
                  Record___hash__ hash_item r1 = Ok h)
  /\ (fields c = [] ->
      forall kwargs' r' h,
        Permutation kwargs kwargs' ->
        construct set_iter c side1 kwargs' = Ok r' ->
        Record___hash__ hash_item r1 = Ok h ->
        Record___hash__ hash_item r' = Ok h)
  /\ (forall k v v',
        dict_get (obj_record r1) k = Some v ->
        let changed := dict_set (obj_record r1) k v' in
        Record___eq__ r1 (VDict changed) = py_eq v v'
        /\ Record___ne__ r1 (VDict changed) = negb (py_eq v v')
        /\ forall c' attrs',
             Record___eq__ r1 (VRecord c' attrs' changed) = py_eq v v'
             /\ Record___ne__ r1 (VRecord c' attrs' changed)
                = negb (py_eq v v')).
Proof.
  intros Hk Hwf Hc1 Hc2.
  destruct (construct_inv _ _ _ _ _ Hc1) as (_ & _ & Hs1).
  destruct (construct_inv _ _ _ _ _ Hc2) as (_ & _ & Hs2).
  assert (Hsame : obj_record r2 = obj_record r1) by congruence.
  pose proof (_set_record_NoDup _ _ _ _ Hs1) as Hnd.
  pose proof (_set_record_wf _ _ _ _ Hwf Hs1) as Hwf1.
  split; [|split; [|split; [|split]]].
  - unfold Record___ne__, value_of_obj, Record___hash__. simpl.
    rewrite Hsame, mapping_eq_perm by auto. auto.
  - intros d Hp. simpl. now apply mapping_eq_perm.
  - intros d h Hp. unfold Record___hash__.
    now apply frozendict_hash_perm.
  - intros Hf kwargs' r' h Hp Hc' Hh.
    destruct (construct_inv _ _ _ _ _ Hc') as (_ & _ & Hs').
    apply (_set_record_no_fields _ _ _ _ Hf) in Hs1, Hs'.
    assert (Hk' : NoDup (dict_keys kwargs')).
    { eapply Permutation_NoDup; [|exact Hk]. now apply Permutation_map. }
    rewrite dict_of_items_id in Hs1, Hs' by assumption.
    unfold Record___hash__ in *. rewrite Hs1 in Hh. rewrite Hs'.
    now apply (frozendict_hash_perm hash_item kwargs kwargs' h).
  - intros k v v' Hg changed.
    pose proof (mapping_eq_set (obj_record r1) k v v' Hnd Hwf1 Hg) as He.
    unfold Record___ne__. cbn [Record___eq__]. fold changed in He.
    rewrite He. repeat split.
Qed.

Lemma equality_and_hash_over_data_witness :
  let kwargs := [("color", VStr "red"); ("number", VInt 10)] in
  let r1 := {| obj_class := TstRecord;
               obj_attrs := [("service", VStr "service");
                             ("test", VStr "test")];
               obj_record := kwargs; obj_initialized := true |} in
  let r2 := {| obj_class := TstRecord;
               obj_attrs := [("service", VStr "other"); ("test", VInt 2)];
               obj_record := kwargs; obj_initialized := true |} in
  construct insertion_order TstRecord (obj_attrs r1) kwargs = Ok r1
  /\ construct insertion_order TstRecord (obj_attrs r2) kwargs = Ok r2
  /\ Record___eq__ r1 (value_of_obj r2) = true
  /\ Record___hash__ sample_hash r1 = Record___hash__ sample_hash r2
  /\ Record___eq__ r1 (VDict [("number", VInt 10); ("color", VStr "red")])
     = true
  /\ Record___eq__ r1 (VDict (dict_set kwargs "number" (VInt 1))) = false.
Proof.
  intros kwargs r1 r2.
  assert (Hk : NoDup (dict_keys kwargs)) by (apply nodupb_NoDup; reflexivity).
  assert (Hwf : wf_values kwargs = true) by reflexivity.
  assert (Hc1 : construct insertion_order TstRecord (obj_attrs r1) kwargs
                = Ok r1) by reflexivity.
  assert (Hc2 : construct insertion_order TstRecord (obj_attrs r2) kwargs
                = Ok r2) by reflexivity.
  destruct (equality_and_hash_over_data insertion_order sample_hash TstRecord
              (obj_attrs r1) (obj_attrs r2) kwargs r1 r2 Hk Hwf Hc1 Hc2)
    as ((He & _ & Hh) & Hd & _ & _ & Hch).
  split; [exact Hc1|]. split; [exact Hc2|]. split; [exact He|].
  split; [exact Hh|]. split.
  - apply Hd. apply perm_swap.
  - exact (proj1 (Hch "number" (VInt 10) (VInt 1) eq_refl)).
Defined.

(** C7 (as claimed) fails: the value [1] of a key changed to [True] is a
    change of a record value, yet the records, and the record and the
    plain mapping, still compare equal, since [1 == True]. *)
Lemma changed_value_may_stay_equal :
  let side := [("service", VStr "service"); ("test", VStr "test")] in
  let r := {| obj_class := TstRecord; obj_attrs := side;
              obj_record := [("a", VInt 1)]; obj_initialized := true |} in
  let r' := {| obj_class := TstRecord; obj_attrs := side;
               obj_record := [("a", VBool true)];
               obj_initialized := true |} in
  construct insertion_order TstRecord side [("a", VInt 1)] = Ok r
  /\ construct insertion_order TstRecord side [("a", VBool true)] = Ok r'
  /\ VBool true <> VInt 1
  /\ dict_set (obj_record r) "a" (VBool true) = obj_record r'
  /\ Record___eq__ r (value_of_obj r') = true
  /\ Record___ne__ r (value_of_obj r') = false
  /\ Record___eq__ r (VDict [("a", VBool true)]) = true.
Proof.
  cbv zeta. repeat split. discriminate.
Qed.



(** * Further properties of the code *)

(** ** Sorting and joining names *)

Lemma insert_sorted_perm (x : string) (l : list string) :
  Permutation (insert_sorted x l) (x :: l).
Proof.
  induction l as [|y l IH]; simpl; [apply Permutation_refl|].
  destruct (String.leb x y); [apply Permutation_refl|].
  apply perm_trans with (y :: x :: l); [now apply perm_skip|apply perm_swap].
Qed.

Lemma sorted_perm (l : list string) : Permutation (sorted l) l.
Proof.
  induction l as [|x l IH]; simpl; [constructor|].
  apply perm_trans with (x :: sorted l);
    [apply insert_sorted_perm|now apply perm_skip].
Qed.

Lemma insert_sorted_Sorted (x : string) (l : list string) :
  Sorted leb_true l -> Sorted leb_true (insert_sorted x l).
Proof.
  induction l as [|y l IH]; simpl; intros Hs.
  - repeat constructor.
  - destruct (String.leb x y) eqn:E.
    + constructor; [exact Hs|]. constructor. exact E.
    + assert (Hyx : leb_true y x).
      { destruct (String.leb_total x y) as [H|H]; [congruence|exact H]. }
      inversion Hs as [|? ? Hs' Hhd]; subst.
      constructor; [now apply IH|].
      destruct l as [|z l]; simpl.
      * constructor. exact Hyx.
      * destruct (String.leb x z); constructor; [exact Hyx|].
        now inversion Hhd.
Qed.

Lemma sorted_Sorted (l : list string) : Sorted leb_true (sorted l).
Proof.
  induction l as [|x l IH]; simpl; [constructor|].
  now apply insert_sorted_Sorted.
Qed.

Lemma In_sorted (x : string) (l : list string) : In x (sorted l) <-> In x l.
Proof.
  split; apply Permutation_in;
    [apply sorted_perm|apply Permutation_sym, sorted_perm].
Qed.

Lemma set_of_NoDup (l : list string) : NoDup (set_of l).
Proof.
  induction l as [|x l IH]; simpl; [constructor|].
  destruct (mem x l) eqn:E; [exact IH|].
  constructor; [|exact IH]. rewrite In_set_of. now apply mem_false.
Qed.

Lemma In_set_diff (x : string) (a b : list string) :
  In x (set_diff a b) <-> In x a /\ ~ In x b.
Proof.
  unfold set_diff. rewrite filter_In, negb_true_iff, mem_false. tauto.
Qed.

Lemma set_diff_NoDup (a b : list string) : NoDup a -> NoDup (set_diff a b).
Proof. apply NoDup_filter. Qed.

Lemma append_nil_inv (a b : string) : (a ++ b)%string = "" -> a = "" /\ b = "".
Proof. destruct a; simpl; [auto|discriminate]. Qed.

(** Joining names gives the empty text only for no name at all or for the
    single empty name. *)
Lemma join_comma_nil_inv (names : list string) :
  join_comma names = "" -> names = [] \/ names = [""].
Proof.
  unfold join_comma.
  destruct names as [|x [|y rest]]; simpl; intros H.
  - now left.
  - right. now rewrite H.
  - apply append_nil_inv in H. destruct H as [_ H]. discriminate.
Qed.

(** ** The required-field checks *)

Lemma null_names_spec (record : pydict) (names : list string) :
  (forall f, In f names -> In f (dict_keys record)) ->
  null_names record names
  = Ok (filter (fun f => is_None (dict_get_default record f)) names).
Proof.
  induction names as [|f names IH]; intros H; simpl; [reflexivity|].
  unfold dict_getitem, dict_get_default.
  destruct (dict_get record f) as [v|] eqn:E.
  - simpl. rewrite IH by (intros g Hg; apply H; now right). simpl.
    destruct (is_None v); reflexivity.
  - apply dict_get_None in E. exfalso. apply E, H. now left.
Qed.

Lemma null_names_nil_inv (record : pydict) (names : list string) :
  null_names record names = Ok [] ->
  forall f, In f names ->
            exists v, dict_get record f = Some v /\ is_None v = false.
Proof.
  induction names as [|f names IH]; simpl; intros H g Hg; [tauto|].
  unfold dict_getitem in H.
  destruct (dict_get record f) as [v|] eqn:E; simpl in H; [|discriminate].
  destruct (null_names record names) as [rest|e]; simpl in H;
    [|discriminate].
  destruct (is_None v) eqn:Ev; [discriminate|].
  injection H as ->. destruct Hg as [<-|Hg]; [eauto|now apply IH].
Qed.

(** The required-field block passes only when every required field is
    supplied with a value other than [None]. *)
Lemma check_non_null_Ok_inv (c : RecordClass) (kwargs : pydict) :
  check_non_null c kwargs = Ok tt ->
  forall f, In f (non_null_fields c) ->
            exists v, dict_get kwargs f = Some v /\ is_None v = false.
Proof.
  unfold check_non_null. intros H f Hf.
  apply (proj2 (In_set_of f _)) in Hf.
  destruct (set_of (non_null_fields c)) as [|n ns] eqn:En; [destruct Hf|].
  cbn [nonempty] in H.
  destruct (negb _); [discriminate|].
  destruct (null_names kwargs (n :: ns)) as [l|e] eqn:El; [|discriminate].
  cbn [bind] in H. destruct l; [|discriminate].
  exact (null_names_nil_inv _ _ El f Hf).
Qed.

Lemma check_non_null_intro (c : RecordClass) (kwargs : pydict) :
  (forall f, In f (non_null_fields c) ->
             exists v, dict_get kwargs f = Some v /\ is_None v = false) ->
  check_non_null c kwargs = Ok tt.
Proof.
  intros H. unfold check_non_null.
  destruct (nonempty (set_of (non_null_fields c))); [|reflexivity].
  assert (Hin : forall f, In f (set_of (non_null_fields c)) ->
                          In f (dict_keys kwargs)).
  { intros f Hf. apply (proj1 (In_set_of f _)) in Hf.
    destruct (H f Hf) as (v & Hv & _).
    apply dict_get_In in Hv. now apply (in_map fst) in Hv. }
  assert (Hd : set_diff (set_of (non_null_fields c))
                 (set_of (dict_keys kwargs)) = []).
  { destruct (set_diff _ _) as [|x l] eqn:E; [reflexivity|].
    assert (Hx : In x (set_diff (set_of (non_null_fields c))
                         (set_of (dict_keys kwargs))))
      by (rewrite E; now left).
    apply In_set_diff in Hx. destruct Hx as [Hx Hn]. exfalso.
    apply Hn, (proj2 (In_set_of _ _)), Hin, Hx. }
  rewrite Hd. simpl.
  rewrite null_names_spec by exact Hin.
  assert (Hf : filter (fun f => is_None (dict_get_default kwargs f))
                 (set_of (non_null_fields c)) = []).
  { destruct (filter _ _) as [|x l] eqn:E; [reflexivity|].
    assert (Hx : In x (filter (fun f => is_None (dict_get_default kwargs f))
                         (set_of (non_null_fields c))))
      by (rewrite E; now left).
    apply filter_In in Hx. destruct Hx as [Hx Hn].
    apply (proj1 (In_set_of x _)) in Hx.
    destruct (H x Hx) as (v & Hv & Hnn). unfold dict_get_default in Hn.
    rewrite Hv in Hn. congruence. }
  rewrite Hf. reflexivity.
Qed.

Lemma In_distinct_from (x : string) (l seen : list string) :
  In x (distinct_from seen l) <-> In x l /\ ~ In x seen.
Proof.
  revert seen. induction l as [|y l IH]; intros seen; simpl; [tauto|].
  destruct (mem y seen) eqn:E.
  - apply mem_In in E. rewrite IH. split; [tauto|].
    intros [[<-|H] Hn]; tauto.
  - apply mem_false in E. simpl. rewrite IH. simpl. split.
    + intros [<-|[H Hn]]; tauto.
    + intros [[<-|H] Hn]; [now left|].
      destruct (String.eqb_spec y x) as [->|Hne]; [now left|right; tauto].
Qed.

Lemma In_distinct (x : string) (l : list string) :
  In x (distinct l) <-> In x l.
Proof. unfold distinct. rewrite In_distinct_from. simpl. tauto. Qed.

Section ValidatorInvariants.

Variable set_iter : list string -> list string.

(** How a validated mapping answers a lookup. *)
Lemma _set_record_get (c : RecordClass) (kwargs d : pydict) (f : string) :
  NoDup (dict_keys kwargs) ->
  _set_record set_iter c kwargs = Ok d ->
  dict_get d f
  = if nonempty (fields c)
    then if mem f (fields c) then Some (dict_get_default kwargs f) else None
    else dict_get kwargs f.
Proof.
  intros Hk Hs. destruct (fields c) as [|f0 fs] eqn:Ef.
  - apply (_set_record_no_fields set_iter c kwargs d Ef) in Hs. subst d.
    now rewrite dict_of_items_id.
  - assert (Hf : fields c <> []) by congruence.
    apply (_set_record_fields set_iter c kwargs d Hf) in Hs. subst d.
    rewrite Ef. apply dict_of_fields_items_get.
Qed.

Lemma _set_record_check (c : RecordClass) (kwargs d : pydict) :
  _set_record set_iter c kwargs = Ok d -> check_non_null c kwargs = Ok tt.
Proof.
  unfold _set_record.
  destruct (check_non_null c kwargs) as [[]|e]; [reflexivity|discriminate].
Qed.

(** A mapping the validator returns holds each required field with a
    value other than [None]. *)
Lemma _set_record_required (c : RecordClass) (kwargs d : pydict) :
  NoDup (dict_keys kwargs) ->
  (fields c = [] \/ incl (non_null_fields c) (fields c)) ->
  _set_record set_iter c kwargs = Ok d ->
  forall f, In f (non_null_fields c) ->
            exists v, dict_get d f = Some v /\ is_None v = false.
Proof.
  intros Hk Hpol Hs f Hf.
  assert (Hc : check_non_null c kwargs = Ok tt).
  { revert Hs. unfold _set_record.
    destruct (check_non_null c kwargs) as [[]|e]; [reflexivity|discriminate]. }
  destruct (check_non_null_Ok_inv c kwargs Hc f Hf) as (v & Hv & Hn).
  exists v. split; [|exact Hn].
  rewrite (_set_record_get c kwargs d f Hk Hs).
  destruct Hpol as [He|Hi].
  - rewrite He. exact Hv.
  - destruct (nonempty (fields c)); [|exact Hv].
    assert (Hm : mem f (fields c) = true) by (apply mem_In, Hi, Hf).
    rewrite Hm. unfold dict_get_default. now rewrite Hv.
Qed.

(** X1. Every mapping the validator returns holds each required field
    with a value other than [None], provided the required fields are among
    the declared ones when [fields] is declared. *)
Theorem validated_record_has_required_fields (c : RecordClass)
  (kwargs d : pydict) :
  NoDup (dict_keys kwargs) ->
  (fields c = [] \/ incl (non_null_fields c) (fields c)) ->
  _set_record set_iter c kwargs = Ok d ->
  forall f, In f (non_null_fields c) ->
            exists v, dict_get d f = Some v /\ is_None v = false.
Proof.
  intros Hk Hpol Hs f Hf.
  pose proof (_set_record_check c kwargs d Hs) as Hc.
  destruct (check_non_null_Ok_inv c kwargs Hc f Hf) as (v & Hv & Hn).
  exists v. split; [|exact Hn].
  rewrite (_set_record_get c kwargs d f Hk Hs).
  destruct Hpol as [He|Hi].
  - now rewrite He.
  - destruct (nonempty (fields c)); [|exact Hv].
    assert (Hm : mem f (fields c) = true) by (apply mem_In, Hi, Hf).
    rewrite Hm. unfold dict_get_default. now rewrite Hv.
Qed.

Lemma proper_superset_irrefl (a b : list string) :
  (forall x, In x a <-> In x b) -> proper_superset a b = false.
Proof.
  intros H. unfold proper_superset.
  assert (E : subseteq a b = true)
    by (apply subseteq_incl; intros x; apply H).
  rewrite E. apply andb_false_r.
Qed.

Lemma proper_subset_irrefl (a b : list string) :
  (forall x, In x a <-> In x b) -> proper_subset a b = false.
Proof.
  intros H. unfold proper_subset.
  assert (E : subseteq b a = true)
    by (apply subseteq_incl; intros x; apply H).
  rewrite E. apply andb_false_r.
Qed.

(** A mapping the validator returned passes the validator of the same
    record type unchanged. *)
Lemma _set_record_idempotent (c : RecordClass) (kwargs d : pydict) :
  NoDup (dict_keys kwargs) ->
  (fields c = [] \/ incl (non_null_fields c) (fields c)) ->
  _set_record set_iter c kwargs = Ok d ->
  _set_record set_iter c d = Ok d.
Proof.
  intros Hk Hpol Hs.
  pose proof (_set_record_NoDup _ _ _ _ Hs) as Hnd.
  unfold _set_record.
  rewrite check_non_null_intro
    by (apply (_set_record_required c kwargs); assumption).
  cbn [bind].
  destruct (fields c) as [|f0 fs] eqn:Ef; cbn [nonempty].
  - now rewrite dict_of_items_id.
  - assert (Hf : fields c <> []) by congruence.
    pose proof (_set_record_fields _ _ _ _ Hf Hs) as Hd.
    assert (Hsame : forall x, In x (set_of (dict_keys d))
                              <-> In x (set_of (f0 :: fs))).
    { intros x. rewrite !In_set_of, Hd, dict_of_items_keys.
      rewrite fields_items_keys, In_distinct, Ef. tauto. }
    rewrite (proper_superset_irrefl _ _ Hsame).
    rewrite (proper_subset_irrefl _ _ Hsame). cbn [andb].
    transitivity
      (Ok (dict_of_items
             (map (fun field => (field, dict_get_default kwargs field))
                  (f0 :: fs)))); [|now rewrite Hd, Ef].
    do 2 f_equal. apply map_ext_in. intros f Hin. f_equal.
    unfold dict_get_default at 1.
    rewrite (_set_record_get c kwargs d f Hk Hs), Ef.
    cbn [nonempty].
    apply mem_In in Hin. now rewrite Hin.
Qed.

(** [copy_record()] of a constructed record. *)
Lemma copy_record_no_overrides (c : RecordClass)
  (side : list (string * value)) (kwargs : pydict) (r : RecordObj) :
  NoDup (dict_keys kwargs) ->
  (fields c = [] \/ incl (non_null_fields c) (fields c)) ->
  construct set_iter c side kwargs = Ok r ->
  Record_copy_record set_iter r [] = Ok (obj_record r).
Proof.
  intros Hk Hpol Hc.
  destruct (construct_inv _ _ _ _ _ Hc) as (Hcl & _ & Hs).
  unfold Record_copy_record, frozendict_copy. rewrite Hcl.
  rewrite dict_of_items_id by exact (_set_record_NoDup _ _ _ _ Hs).
  exact (_set_record_idempotent c kwargs _ Hk Hpol Hs).
Qed.

(** X2. Validation is idempotent: a mapping the validator returned passes
    the validator of the same record type unchanged, so [copy_record()]
    without overrides never raises and returns the data of the record. *)
Theorem copy_record_without_overrides (c : RecordClass)
  (side : list (string * value)) (kwargs : pydict) (r : RecordObj) :
  NoDup (dict_keys kwargs) ->
  (fields c = [] \/ incl (non_null_fields c) (fields c)) ->
  construct set_iter c side kwargs = Ok r ->
  _set_record set_iter c (obj_record r) = Ok (obj_record r)
  /\ Record_copy_record set_iter r [] = Ok (obj_record r).
Proof.
  intros Hk Hpol Hc.
  destruct (construct_inv _ _ _ _ _ Hc) as (_ & _ & Hs).
  split.
  - exact (_set_record_idempotent c kwargs _ Hk Hpol Hs).
  - exact (copy_record_no_overrides c side kwargs r Hk Hpol Hc).
Qed.

(** X3. When [fields] is declared and every required field is supplied
    with a value, keyword arguments that cover all declared fields and
    bring a key that is not declared are rejected with the extra-keys
    error, which lists the undeclared keys and the declared fields. *)
Theorem extra_keys_rejected (c : RecordClass) (kwargs : pydict) :
  fields c <> [] ->
  (forall f, In f (non_null_fields c) ->
             exists v, dict_get kwargs f = Some v /\ is_None v = false) ->
  incl (fields c) (dict_keys kwargs) ->
  (exists k, In k (dict_keys kwargs) /\ ~ In k (fields c)) ->
  exists extra,
    _set_record set_iter c kwargs
    = Raise (KeyError
               ("Extra keys: " ++ join_comma (set_iter extra)
                  ++ ". Only the following keys can be used in the record: "
                  ++ join_comma (fields c)))
    /\ NoDup extra
    /\ forall x, In x extra <-> In x (dict_keys kwargs) /\ ~ In x (fields c).
Proof.
  intros Hf Hreq Hall (k & Hk & Hnk).
  exists (set_diff (set_of (dict_keys kwargs)) (set_of (fields c))).
  split; [|split].
  - unfold _set_record. rewrite check_non_null_intro by exact Hreq.
    cbn [bind]. destruct (fields c) as [|f0 fs] eqn:Ef; [congruence|].
    cbn [nonempty].
    assert (E : proper_superset (set_of (dict_keys kwargs))
                  (set_of (f0 :: fs)) = true).
    { unfold proper_superset. apply andb_true_iff. split.
      - apply subseteq_incl. intros x Hx. rewrite In_set_of in *. auto.
      - apply negb_true_iff. apply not_true_iff_false. intros H.
        apply subseteq_incl in H. apply Hnk.
        apply (proj1 (In_set_of k _)), H, (proj2 (In_set_of k _)), Hk. }
    now rewrite E.
  - apply set_diff_NoDup, set_of_NoDup.
  - intros x. rewrite In_set_diff, !In_set_of. tauto.
Qed.

(** X4. With [require_all_fields], keyword arguments that use declared
    keys only and leave a declared field out are rejected with the
    missing-keys error, which lists the fields left out. *)
Theorem missing_keys_rejected (c : RecordClass) (kwargs : pydict) :
  require_all_fields c = true ->
  (forall f, In f (non_null_fields c) ->
             exists v, dict_get kwargs f = Some v /\ is_None v = false) ->
  incl (dict_keys kwargs) (fields c) ->
  (exists f, In f (fields c) /\ ~ In f (dict_keys kwargs)) ->
  exists missing,
    _set_record set_iter c kwargs
    = Raise (KeyError
               ("Missing keys: " ++ join_comma (set_iter missing)
                  ++ ". The following keys must be used in the record: "
                  ++ join_comma (fields c)))
    /\ NoDup missing
    /\ forall x, In x missing <-> In x (fields c) /\ ~ In x (dict_keys kwargs).
Proof.
  intros Hall Hreq Hsub (f & Hf & Hnf).
  exists (set_diff (set_of (fields c)) (set_of (dict_keys kwargs))).
  split; [|split].
  - unfold _set_record. rewrite check_non_null_intro by exact Hreq.
    cbn [bind]. rewrite Hall.
    destruct (fields c) as [|f0 fs] eqn:Ef; [destruct Hf|].
    cbn [nonempty].
    assert (Hsubset : subseteq (set_of (dict_keys kwargs))
                        (set_of (f0 :: fs)) = true).
    { apply subseteq_incl. intros x Hx. rewrite In_set_of in *. auto. }
    assert (Hnot : subseteq (set_of (f0 :: fs))
                     (set_of (dict_keys kwargs)) = false).
    { apply not_true_iff_false. intros H. apply subseteq_incl in H.
      apply Hnf.
      apply (proj1 (In_set_of f _)), H, (proj2 (In_set_of f _)), Hf. }
    unfold proper_superset, proper_subset. rewrite Hsubset, Hnot.
    reflexivity.
  - apply set_diff_NoDup, set_of_NoDup.
  - intros x. rewrite In_set_diff, !In_set_of. tauto.
Qed.

End ValidatorInvariants.

Lemma validated_record_has_required_fields_witness :
  _set_record insertion_order FieldRecord
    [("b", VInt 3); ("a", VInt 2)]
  = Ok [("a", VInt 2); ("b", VInt 3); ("c", VNone)]
  /\ exists v, dict_get [("a", VInt 2); ("b", VInt 3); ("c", VNone)] "b"
               = Some v /\ is_None v = false.
Proof.
  split; [reflexivity|].
  apply (validated_record_has_required_fields insertion_order FieldRecord
           [("b", VInt 3); ("a", VInt 2)]).
  - apply nodupb_NoDup. reflexivity.
  - right. apply subseteq_incl. reflexivity.
  - reflexivity.
  - simpl. tauto.
Defined.


Lemma copy_record_without_overrides_witness :
  let side := [("service", VStr "red"); ("test", VInt 1)] in
  let r := {| obj_class := FieldRecord; obj_attrs := side;
              obj_record := [("a", VInt 2); ("b", VInt 3); ("c", VNone)];
              obj_initialized := true |} in
  construct insertion_order FieldRecord side [("b", VInt 3); ("a", VInt 2)]
  = Ok r
  /\ Record_copy_record insertion_order r [] = Ok (obj_record r).
Proof.
  intros side r.
  assert (Hc : construct insertion_order FieldRecord side
                 [("b", VInt 3); ("a", VInt 2)] = Ok r) by reflexivity.
  split; [exact Hc|].
  apply (copy_record_without_overrides insertion_order FieldRecord side
           [("b", VInt 3); ("a", VInt 2)] r).
  - apply nodupb_NoDup. reflexivity.
  - right. apply subseteq_incl. reflexivity.
  - exact Hc.
Defined.

Lemma extra_keys_rejected_witness :
  exists extra,
    _set_record insertion_order FieldRecord
      [("a", VInt 2); ("b", VInt 3); ("c", VInt 4); ("d", VInt 5)]
    = Raise (KeyError
               ("Extra keys: " ++ join_comma (insertion_order extra)
                  ++ ". Only the following keys can be used in the record: "
                  ++ join_comma (fields FieldRecord)))
    /\ In "d" extra.
Proof.
  destruct (extra_keys_rejected insertion_order FieldRecord
              [("a", VInt 2); ("b", VInt 3); ("c", VInt 4); ("d", VInt 5)])
    as (extra & He & _ & Hin).
  - discriminate.
  - intros f [<-|[<-|[]]]; eexists; split; reflexivity.
  - apply subseteq_incl. reflexivity.
  - exists "d". split; [simpl; tauto|].
    apply mem_false. reflexivity.
  - exists extra. split; [exact He|].
    apply Hin. split; [simpl; tauto|]. apply mem_false. reflexivity.
Defined.

Lemma missing_keys_rejected_witness :
  exists missing,
    _set_record insertion_order RequireAllFieldsRecord
      [("a", VInt 2); ("b", VInt 3)]
    = Raise (KeyError
               ("Missing keys: " ++ join_comma (insertion_order missing)
                  ++ ". The following keys must be used in the record: "
                  ++ join_comma (fields RequireAllFieldsRecord)))
    /\ In "c" missing.
Proof.
  destruct (missing_keys_rejected insertion_order RequireAllFieldsRecord
              [("a", VInt 2); ("b", VInt 3)])
    as (missing & He & _ & Hin).
  - reflexivity.
  - intros f [<-|[<-|[]]]; eexists; split; reflexivity.
  - apply subseteq_incl. reflexivity.
  - exists "c". split; [simpl; tauto|].
    apply mem_false. reflexivity.
  - exists missing. split; [exact He|].
    apply Hin. split; [simpl; tauto|]. apply mem_false. reflexivity.
Defined.

Section RequiredFieldMessages.

Variable set_iter : list string -> list string.

(** X5. When a required field is not supplied, validation raises one
    error that lists exactly the required fields that are absent, each
    once, sorted; the plural is chosen by the length of the joined text. *)
Theorem missing_required_fields_reported (c : RecordClass)
  (kwargs : pydict) :
  ~ In "" (non_null_fields c) ->
  (exists f, In f (non_null_fields c) /\ ~ In f (dict_keys kwargs)) ->
  exists names,
    _set_record set_iter c kwargs
    = Raise (KeyError
               ("The following field"
                  ++ (if (1 <? String.length (join_comma names))%nat
                      then "s are" else " is")
                  ++ " required: " ++ join_comma names))
    /\ Sorted leb_true names /\ NoDup names
    /\ forall x, In x names
                 <-> In x (non_null_fields c) /\ ~ In x (dict_keys kwargs).
Proof.
  intros Hne (f & Hf & Hnf).
  set (diff := set_diff (set_of (non_null_fields c))
                 (set_of (dict_keys kwargs))).
  assert (Hin : forall x, In x (sorted diff)
                  <-> In x (non_null_fields c) /\ ~ In x (dict_keys kwargs)).
  { intros x. unfold diff. rewrite In_sorted, In_set_diff, !In_set_of.
    tauto. }
  exists (sorted diff). split; [|split; [|split]].
  - unfold _set_record, check_non_null. fold diff.
    destruct (set_of (non_null_fields c)) as [|n ns] eqn:En.
    + apply (proj2 (In_set_of f _)) in Hf. rewrite En in Hf. destruct Hf.
    + cbn [nonempty].
      destruct (String.eqb (join_comma (sorted diff)) "") eqn:E.
      * apply String.eqb_eq, join_comma_nil_inv in E. exfalso.
        assert (Hfs : In f (sorted diff)) by (apply Hin; auto).
        destruct E as [E|E]; rewrite E in *.
        -- destruct Hfs.
        -- assert (Hemp : In "" [""]) by now left.
           apply Hin in Hemp. tauto.
      * reflexivity.
  - apply sorted_Sorted.
  - apply (Permutation_NoDup (Permutation_sym (sorted_perm diff))).
    apply set_diff_NoDup, set_of_NoDup.
  - exact Hin.
Qed.

Lemma is_None_true (v : value) : is_None v = true <-> v = VNone.
Proof. destruct v; simpl; split; congruence. Qed.

(** X6. When every required field is supplied and some of them hold
    [None], validation raises one error that lists exactly the required
    fields holding [None], each once, sorted, in the plural when there is
    more than one. *)
Theorem null_required_fields_reported (c : RecordClass) (kwargs : pydict) :
  incl (non_null_fields c) (dict_keys kwargs) ->
  (exists f, In f (non_null_fields c) /\ dict_get kwargs f = Some VNone) ->
  exists names,
    _set_record set_iter c kwargs
    = Raise (KeyError
               ("The following field"
                  ++ (if (1 <? List.length names)%nat then "s" else "")
                  ++ " can not be None: " ++ join_comma names))
    /\ Sorted leb_true names /\ NoDup names
    /\ forall x, In x names
                 <-> In x (non_null_fields c)
                     /\ dict_get kwargs x = Some VNone.
Proof.
  intros Hall (f & Hf & Hnull).
  set (nulls := filter (fun f => is_None (dict_get_default kwargs f))
                  (set_of (non_null_fields c))).
  assert (Hin : forall x, In x (sorted nulls)
                  <-> In x (non_null_fields c)
                      /\ dict_get kwargs x = Some VNone).
  { intros x. unfold nulls. rewrite In_sorted, filter_In, In_set_of.
    rewrite is_None_true. unfold dict_get_default. split.
    - intros [Hx Hv]. split; [exact Hx|].
      destruct (dict_get kwargs x) as [v|] eqn:E; [now subst|].
      apply dict_get_None in E. exfalso. auto.
    - intros [Hx Hv]. now rewrite Hv. }
  exists (sorted nulls). split; [|split; [|split]].
  - assert (Hfn : In f nulls).
    { apply (proj1 (In_sorted f nulls)), Hin. auto. }
    assert (Hne : nonempty (set_of (non_null_fields c)) = true).
    { apply (proj2 (In_set_of f _)) in Hf.
      destruct (set_of (non_null_fields c)); [destruct Hf|reflexivity]. }
    assert (Hd : set_diff (set_of (non_null_fields c))
                   (set_of (dict_keys kwargs)) = []).
    { destruct (set_diff _ _) as [|x l] eqn:E; [reflexivity|].
      assert (Hx : In x (set_diff (set_of (non_null_fields c))
                           (set_of (dict_keys kwargs))))
        by (rewrite E; now left).
      apply In_set_diff in Hx. rewrite !In_set_of in Hx.
      exfalso. destruct Hx as [Hx Hn]. auto. }
    unfold _set_record, check_non_null. rewrite Hne, Hd.
    cbn [sorted join_comma String.concat String.eqb negb].
    rewrite null_names_spec
      by (intros g Hg; apply Hall; now apply (proj1 (In_set_of g _))).
    cbn [bind]. fold nulls.
    rewrite (Permutation_length (sorted_perm nulls)).
    destruct nulls as [|x l]; [destruct Hfn|reflexivity].
  - apply sorted_Sorted.
  - apply (Permutation_NoDup (Permutation_sym (sorted_perm nulls))).
    apply NoDup_filter, set_of_NoDup.
  - exact Hin.
Qed.

End RequiredFieldMessages.

Lemma missing_required_fields_reported_witness :
  exists names,
    _set_record insertion_order RequiredFieldRecord
      [("d", VInt 2); ("c", VInt 3)]
    = Raise (KeyError
               ("The following field"
                  ++ (if (1 <? String.length (join_comma names))%nat
                      then "s are" else " is")
                  ++ " required: " ++ join_comma names))
    /\ In "a" names /\ In "b" names.
Proof.
  destruct (missing_required_fields_reported insertion_order
              RequiredFieldRecord [("d", VInt 2); ("c", VInt 3)])
    as (names & He & _ & _ & Hin).
  - apply mem_false. reflexivity.
  - exists "a". split; [simpl; tauto|]. apply mem_false. reflexivity.
  - exists names. split; [exact He|].
    split; apply Hin; (split; [simpl; tauto|apply mem_false; reflexivity]).
Defined.

Lemma null_required_fields_reported_witness :
  exists names,
    _set_record insertion_order RequiredFieldRecord
      [("a", VInt 2); ("b", VNone)]
    = Raise (KeyError
               ("The following field"
                  ++ (if (1 <? List.length names)%nat then "s" else "")
                  ++ " can not be None: " ++ join_comma names))
    /\ In "b" names.
Proof.
  destruct (null_required_fields_reported insertion_order
              RequiredFieldRecord [("a", VInt 2); ("b", VNone)])
    as (names & He & _ & _ & Hin).
  - apply subseteq_incl. reflexivity.
  - exists "b". split; [simpl; tauto|reflexivity].
  - exists names. split; [exact He|].
    apply Hin. split; [simpl; tauto|reflexivity].
Defined.

(** ** The mapping interface of a constructed record *)

Section MappingInterface.

Variable set_iter : list string -> list string.

(** X7. The items of a constructed record: with [fields] declared (names
    pairwise distinct), one item per declared field, in declared order,
    holding the supplied value or [None]; without [fields], the keyword
    arguments as given.  [values()], [len()] and [in] follow. *)
Theorem record_items_characterised (c : RecordClass)
  (side : list (string * value)) (kwargs : pydict) (r : RecordObj) :
  NoDup (dict_keys kwargs) -> NoDup (fields c) ->
  construct set_iter c side kwargs = Ok r ->
  Record_items r
  = (if nonempty (fields c)
     then map (fun f => (f, dict_get_default kwargs f)) (fields c)
     else kwargs)
  /\ Record_values r
     = (if nonempty (fields c)
        then map (dict_get_default kwargs) (fields c)
        else map snd kwargs)
  /\ Record___len__ r
     = (if nonempty (fields c) then List.length (fields c)
        else List.length kwargs)
  /\ forall k, Record___contains__ r k
               = if nonempty (fields c) then mem k (fields c)
                 else mem k (dict_keys kwargs).
Proof.
  intros Hk Hnd Hc.
  destruct (construct_inv _ _ _ _ _ Hc) as (_ & _ & Hs).
  assert (Hitems : obj_record r
                   = if nonempty (fields c)
                     then map (fun f => (f, dict_get_default kwargs f))
                              (fields c)
                     else kwargs).
  { destruct (fields c) as [|f0 fs] eqn:Ef; cbn [nonempty].
    - rewrite (_set_record_no_fields _ _ _ _ Ef Hs).
      now apply dict_of_items_id.
    - assert (Hf : fields c <> []) by congruence.
      rewrite (_set_record_fields _ _ _ _ Hf Hs), Ef.
      apply dict_of_items_id. rewrite fields_items_keys.
      first [exact Hnd | rewrite <- Ef; exact Hnd]. }
  unfold Record_items, Record_values, Record___len__, Record___contains__,
    dict_contains.
  split; [exact Hitems|]. split; [|split].
  - rewrite Hitems. destruct (nonempty (fields c)); [|reflexivity].
    now rewrite map_map.
  - rewrite Hitems. destruct (nonempty (fields c)); [|reflexivity].
    apply length_map.
  - intros k. rewrite (_set_record_get set_iter c kwargs _ k Hk Hs).
    destruct (nonempty (fields c)).
    + destruct (mem k (fields c)); reflexivity.
    + destruct (dict_get kwargs k) eqn:E.
      * symmetry. apply mem_In. apply dict_get_In in E.
        now apply (in_map fst) in E.
      * symmetry. apply mem_false. now apply dict_get_None.
Qed.

(** X8. Item access on a constructed record: a key of the record (a
    declared field, or a supplied key when [fields] is not declared) gives
    the supplied value, or [None] for a declared field left out, through
    [[]] and through [get]; any other name, such as the name of a side
    attribute, raises [KeyError] with that name through [[]] and gives the
    default through [get]. *)
Theorem record_item_access (c : RecordClass) (side : list (string * value))
  (kwargs : pydict) (r : RecordObj) (k : string) (default : value) :
  NoDup (dict_keys kwargs) ->
  construct set_iter c side kwargs = Ok r ->
  let present := if nonempty (fields c) then mem k (fields c)
                 else mem k (dict_keys kwargs) in
  (present = true ->
   Record___getitem__ r k = Ok (dict_get_default kwargs k)
   /\ Record_get r k default = dict_get_default kwargs k)
  /\ (present = false ->
      Record___getitem__ r k = Raise (KeyError k)
      /\ Record_get r k default = default).
Proof.
  intros Hk Hc present.
  destruct (construct_inv _ _ _ _ _ Hc) as (_ & _ & Hs).
  unfold Record___getitem__, Record_get, dict_getitem.
  rewrite (_set_record_get set_iter c kwargs _ k Hk Hs).
  unfold present. destruct (nonempty (fields c)).
  - destruct (mem k (fields c)); split; intros H; try discriminate; auto.
  - unfold dict_get_default.
    destruct (dict_get kwargs k) as [v|] eqn:E; split; intros H; auto.
    + apply mem_false in H. apply dict_get_In in E.
      apply (in_map fst) in E. tauto.
    + apply mem_In in H. apply dict_get_None in E. tauto.
Qed.

Lemma check_non_null_raises_KeyError (c : RecordClass) (kwargs : pydict)
  (e : exn) :
  check_non_null c kwargs = Raise e -> exists msg, e = KeyError msg.
Proof.
  unfold check_non_null.
  destruct (nonempty _); [|discriminate].
  destruct (negb _); [intros [= <-]; eauto|].
  assert (Hn : forall names e',
             null_names kwargs names = Raise e' -> exists msg, e' = KeyError msg).
  { induction names as [|f names IH]; simpl; [discriminate|].
    intros e'. unfold dict_getitem.
    destruct (dict_get kwargs f); simpl; [|intros [= <-]; eauto].
    destruct (null_names kwargs names); simpl; [discriminate|].
    intros [= <-]. now apply IH. }
  destruct (null_names kwargs _) as [l|e'] eqn:El; simpl.
  - destruct (nonempty l); [intros [= <-]; eauto|discriminate].
  - intros [= <-]. exact (Hn _ e' El).
Qed.

Lemma In_dict_update_keys (items : list (string * value)) (d : pydict)
  (k : string) :
  In k (dict_keys (dict_update d items))
  <-> In k (dict_keys d) \/ In k (dict_keys items).
Proof.
  rewrite dict_update_keys, in_app_iff, In_distinct_from.
  destruct (in_dec string_dec k (dict_keys d)); tauto.
Qed.

(** X9. On a record whose type declares [fields], [copy_record] with an
    override for a name that is not declared always raises [KeyError]. *)
Theorem copy_record_rejects_undeclared_key (c : RecordClass)
  (side : list (string * value)) (kwargs : pydict) (r : RecordObj)
  (overrides : pydict) (k : string) :
  fields c <> [] ->
  construct set_iter c side kwargs = Ok r ->
  In k (dict_keys overrides) -> ~ In k (fields c) ->
  exists msg, Record_copy_record set_iter r overrides = Raise (KeyError msg).
Proof.
  intros Hf Hc Hk Hnk.
  destruct (construct_inv _ _ _ _ _ Hc) as (Hcl & _ & Hs).
  pose proof (_set_record_NoDup _ _ _ _ Hs) as Hnd.
  pose proof (_set_record_fields _ _ _ _ Hf Hs) as Hd.
  unfold Record_copy_record. rewrite Hcl.
  set (merged := frozendict_copy (obj_record r) overrides).
  assert (Hm : forall x, In x (dict_keys merged)
                 <-> In x (fields c) \/ In x (dict_keys overrides)).
  { intros x. unfold merged, frozendict_copy.
    rewrite In_dict_update_keys, dict_of_items_id by exact Hnd.
    rewrite Hd, dict_of_items_keys, fields_items_keys, In_distinct. tauto. }
  unfold _set_record.
  destruct (check_non_null c merged) as [[]|e] eqn:Ec; cbn [bind].
  - destruct (fields c) as [|f0 fs] eqn:Ef; [congruence|]. cbn [nonempty].
    assert (E : proper_superset (set_of (dict_keys merged))
                  (set_of (f0 :: fs)) = true).
    { unfold proper_superset. apply andb_true_iff. split.
      - apply subseteq_incl. intros x Hx. rewrite In_set_of in *.
        apply Hm. now left.
      - apply negb_true_iff, not_true_iff_false. intros H.
        apply subseteq_incl in H. apply Hnk.
        apply (proj1 (In_set_of k _)), H, (proj2 (In_set_of k _)), Hm.
        now right. }
    rewrite E. eauto.
  - destruct (check_non_null_raises_KeyError c merged e Ec) as [msg ->].
    eauto.
Qed.

End MappingInterface.

Lemma record_items_characterised_witness :
  let side := [("service", VStr "red"); ("test", VInt 1)] in
  let kwargs := [("c", VInt 4); ("a", VInt 2); ("b", VInt 3)] in
  exists r,
    construct insertion_order FieldRecord side kwargs = Ok r
    /\ Record_items r = [("a", VInt 2); ("b", VInt 3); ("c", VInt 4)].
Proof.
  intros side kwargs.
  assert (Hc : construct insertion_order FieldRecord side kwargs
               = Ok {| obj_class := FieldRecord; obj_attrs := side;
                       obj_record := [("a", VInt 2); ("b", VInt 3);
                                      ("c", VInt 4)];
                       obj_initialized := true |}) by reflexivity.
  eexists. split; [exact Hc|].
  apply (record_items_characterised insertion_order FieldRecord side kwargs).
  - apply nodupb_NoDup. reflexivity.
  - apply nodupb_NoDup. reflexivity.
  - exact Hc.
Defined.

(** The access test of the suite: ['test'] is a side attribute of the
    record, not one of its keys. *)
Lemma record_item_access_witness :
  let side := [("service", VStr "service"); ("test", VStr "test")] in
  let kwargs := [("color", VStr "red"); ("number", VInt 10)] in
  exists r,
    construct insertion_order TstRecord side kwargs = Ok r
    /\ Record___getitem__ r "test" = Raise (KeyError "test")
    /\ Record_get r "test" (VStr "blue") = VStr "blue".
Proof.
  intros side kwargs.
  assert (Hc : construct insertion_order TstRecord side kwargs
               = Ok {| obj_class := TstRecord; obj_attrs := side;
                       obj_record := kwargs; obj_initialized := true |})
    by reflexivity.
  assert (Hk : NoDup (dict_keys kwargs)) by (apply nodupb_NoDup; reflexivity).
  eexists. split; [exact Hc|].
  destruct (record_item_access insertion_order TstRecord side kwargs _
              "test" (VStr "blue") Hk Hc) as [_ H].
  apply H. reflexivity.
Defined.

Lemma copy_record_rejects_undeclared_key_witness :
  let side := [("service", VStr "red"); ("test", VInt 1)] in
  let kwargs := [("a", VInt 2); ("b", VInt 3); ("c", VInt 4)] in
  let r := {| obj_class := FieldRecord; obj_attrs := side;
              obj_record := kwargs; obj_initialized := true |} in
  construct insertion_order FieldRecord side kwargs = Ok r
  /\ exists msg,
       Record_copy_record insertion_order r [("colorx", VStr "green")]
       = Raise (KeyError msg).
Proof.
  intros side kwargs r.
  assert (Hc : construct insertion_order FieldRecord side kwargs = Ok r)
    by reflexivity.
  split; [exact Hc|].
  apply (copy_record_rejects_undeclared_key insertion_order FieldRecord side
           kwargs r [("colorx", VStr "green")] "colorx").
  - discriminate.
  - exact Hc.
  - simpl. tauto.
  - apply mem_false. reflexivity.
Defined.

(** ** Hash-index keys, continued *)

Lemma append_assoc (a b c : string) :
  ((a ++ b) ++ c = a ++ (b ++ c))%string.
Proof. induction a as [|ch a IH]; simpl; [reflexivity|now rewrite IH]. Qed.

Lemma append_length (a b : string) :
  String.length (a ++ b) = String.length a + String.length b.
Proof. induction a as [|ch a IH]; simpl; [reflexivity|now rewrite IH]. Qed.

Lemma In_survivors (skipped : value -> bool) (fields : list string)
  (values : pydict) (f : string) :
  In f (survivors skipped fields values)
  <-> In f fields /\ skipped (dict_get_default values f) = false.
Proof.
  unfold survivors. rewrite filter_In, negb_true_iff. tauto.
Qed.

Section KeyGeneratorFacts.

Variable py_format : value -> string.

Lemma collect_field_values_ext (values values' : pydict)
  (fields acc : list string) :
  (forall f, In f fields ->
             dict_get_default values f = dict_get_default values' f) ->
  collect_field_values py_format fields values acc
  = collect_field_values py_format fields values' acc.
Proof.
  revert acc. induction fields as [|f fields IH]; intros acc H; simpl.
  - reflexivity.
  - rewrite <- (H f) by now left.
    destruct (negb (truthy (dict_get_default values f)));
      [apply IH; intros g Hg; apply H; now right|].
    destruct (negb (is_sequence_or_int (dict_get_default values f)));
      [reflexivity|].
    apply IH. intros g Hg. apply H. now right.
Qed.

(** X10. The key depends on the values only through the lookups of the
    listed fields: two non-empty value mappings that answer every listed
    field alike (whatever their order, their other keys, and whether a
    field is absent or holds [None]) give the same result. *)
Theorem hash_key_depends_on_field_lookups (obj_type : string)
  (fields : list string) (values values' : pydict) (obj_id : option Z) :
  values <> [] -> values' <> [] ->
  (forall f, In f fields ->
             dict_get_default values f = dict_get_default values' f) ->
  generate_hash_index_key py_format obj_type fields values obj_id
  = generate_hash_index_key py_format obj_type fields values' obj_id.
Proof.
  intros Hv Hv' H. unfold generate_hash_index_key.
  destruct values as [|kv values]; [congruence|].
  destruct values' as [|kv' values']; [congruence|].
  cbn [nonempty]. destruct (nonempty fields); [|reflexivity].
  cbn [andb]. now rewrite (collect_field_values_ext _ _ fields [] H).
Qed.

(** X11. There is no key exactly when there is nothing to index: the
    generator returns [None] if and only if there are no fields, no values,
    or every listed field looks up a falsy value. *)
Theorem hash_key_none_iff (obj_type : string) (fields : list string)
  (values : pydict) (obj_id : option Z) :
  generate_hash_index_key py_format obj_type fields values obj_id = Ok None
  <-> fields = [] \/ values = []
      \/ forall f, In f fields -> truthy (dict_get_default values f) = false.
Proof.
  unfold generate_hash_index_key.
  destruct fields as [|f0 fields]; [cbn; tauto|].
  destruct values as [|kv values]; [cbn; tauto|].
  cbn [nonempty andb]. rewrite collect_field_values_spec.
  set (fs := f0 :: fields). set (vs := kv :: values).
  assert (Hkept : survivors falsy fs vs = []
                  <-> forall f, In f fs ->
                                truthy (dict_get_default vs f) = false).
  { split.
    - intros E f Hf.
      destruct (truthy (dict_get_default vs f)) eqn:Et; [|reflexivity].
      assert (Hin : In f (survivors falsy fs vs)).
      { apply In_survivors. split; [exact Hf|]. unfold falsy.
        now rewrite Et. }
      rewrite E in Hin. destruct Hin.
    - intros H. destruct (survivors falsy fs vs) as [|x l] eqn:E;
        [reflexivity|].
      assert (Hx : In x (survivors falsy fs vs)) by (rewrite E; now left).
      apply In_survivors in Hx. destruct Hx as [Hx Hf]. unfold falsy in Hf.
      rewrite (H x Hx) in Hf. discriminate. }
  destruct (find _ (survivors falsy fs vs)) as [f|] eqn:Ef.
  - split; [discriminate|]. intros [H|[H|H]]; try discriminate.
    apply find_some in Ef. destruct Ef as [Hin _].
    apply Hkept in H. rewrite H in Hin. destruct Hin.
  - cbn [app bind].
    destruct (survivors falsy fs vs) as [|x l] eqn:E; cbn [map nonempty].
    + split; [|reflexivity]. intros _. right. right. now apply Hkept.
    + split; [discriminate|]. intros [H|[H|H]]; try discriminate.
      apply Hkept in H. discriminate.
Qed.

(** X12. Every key starts with the object type followed by a colon, and
    with the formatted id and a colon after that when a non-zero id is
    given. *)
Theorem hash_key_starts_with_object_type (obj_type : string)
  (fields : list string) (values : pydict) (obj_id : option Z)
  (key : string) :
  generate_hash_index_key py_format obj_type fields values obj_id
  = Ok (Some key) ->
  exists rest,
    key = (obj_type ++ ":" ++ rest)%string
    /\ forall id, obj_id = Some id -> id <> 0%Z ->
                  exists rest',
                    rest = (py_format (VInt id) ++ ":" ++ rest')%string.
Proof.
  unfold generate_hash_index_key.
  destruct (nonempty fields && nonempty values); [|discriminate].
  destruct (collect_field_values py_format fields values []) as [fv|e];
    cbn [bind]; [|discriminate].
  destruct (nonempty fv); [|discriminate].
  intros [= <-]. destruct obj_id as [id|].
  - cbn [truthy]. destruct (id =? 0)%Z eqn:E; cbn [negb].
    + eexists. split; [reflexivity|]. intros id' [= <-] Hne.
      apply Z.eqb_eq in E. contradiction.
    + eexists. split; [now rewrite append_assoc|].
      intros id' [= <-] _. eexists. reflexivity.
  - eexists. split; [reflexivity|]. discriminate.
Qed.

End KeyGeneratorFacts.

Lemma hash_key_depends_on_field_lookups_witness :
  generate_hash_index_key format_scalar "Book" ["isbn"; "title"]
    [("isbn", VStr "978-1-61902-786-2"); ("title", VNone)] None
  = generate_hash_index_key format_scalar "Book" ["isbn"; "title"]
      [("price", VInt 25); ("isbn", VStr "978-1-61902-786-2")] None.
Proof.
  apply hash_key_depends_on_field_lookups; [discriminate|discriminate|].
  intros f [<-|[<-|[]]]; reflexivity.
Defined.

Lemma hash_key_starts_with_object_type_witness :
  exists rest,
    "Book:1:isbn:978-1-61902-786-2" = ("Book" ++ ":" ++ rest)%string.
Proof.
  destruct (hash_key_starts_with_object_type format_scalar "Book" ["isbn"]
              [("isbn", VStr "978-1-61902-786-2")] (Some 1%Z)
              "Book:1:isbn:978-1-61902-786-2" eq_refl) as (rest & H & _).
  exists rest. exact H.
Defined.

Lemma filter_nil_of_false {A : Type} (p : A -> bool) (l : list A) :
  (forall x, In x l -> p x = false) -> filter p l = [].
Proof.
  induction l as [|x l IH]; intros H; simpl; [reflexivity|].
  rewrite (H x) by now left. apply IH. intros y Hy. apply H. now right.
Qed.


Section RecordKeyFacts.

Variable set_iter : list string -> list string.
Variable py_format : value -> string.

(** X13. For keyword arguments with unique keys and a type whose required
    fields are among its declared fields whenever it declares [fields]:
    when none of the key fields is a name of [self.__slots__], the key of
    a constructed record is the generator's result on the name of its
    type, its key fields and its own data; a type that declares neither
    [hash_index_fields] nor [fields] has no key. *)
Theorem get_hash_index_key_of_record_data (c : RecordClass)
  (side : list (string * value)) (kwargs : pydict) (r : RecordObj) :
  NoDup (dict_keys kwargs) ->
  (fields c = [] \/ incl (non_null_fields c) (fields c)) ->
  (forall k, In k (key_fields_of c) -> ~ In k (cls_dunder_slots c)) ->
  construct set_iter c side kwargs = Ok r ->
  Record_get_hash_index_key set_iter py_format r
  = generate_hash_index_key py_format (cls_name c) (key_fields_of c)
      (obj_record r) None
  /\ (key_fields_of c = [] ->
      Record_get_hash_index_key set_iter py_format r = Ok None).
Proof.
  intros Hk Hpol Hslots Hc.
  destruct (construct_inv _ _ _ _ _ Hc) as (Hcl & _ & _).
  assert (Hkey : Record_get_hash_index_key set_iter py_format r
                 = generate_hash_index_key py_format (cls_name c)
                     (key_fields_of c) (obj_record r) None).
  { unfold Record_get_hash_index_key, slots_dict_of. rewrite Hcl.
    rewrite filter_nil_of_false
      by (intros x Hx; apply mem_false; now apply Hslots).
    cbn [map]. change (dict_of_items []) with (@nil (string * value)).
    now rewrite (copy_record_no_overrides set_iter c side kwargs r Hk Hpol Hc). }
  split; [exact Hkey|].
  intros He. rewrite Hkey, He. reflexivity.
Qed.


End RecordKeyFacts.

Lemma get_hash_index_key_of_record_data_witness :
  let side := [("service", VStr "service"); ("test", VStr "test")] in
  let kwargs := [("a", VInt 1); ("b", VInt 2)] in
  exists r,
    construct insertion_order FieldRecord side kwargs = Ok r
    /\ Record_get_hash_index_key insertion_order format_scalar r
       = generate_hash_index_key format_scalar "FieldRecord" ["a"; "b"; "c"]
           (obj_record r) None.
Proof.
  intros side kwargs.
  assert (Hc : construct insertion_order FieldRecord side kwargs
               = Ok {| obj_class := FieldRecord; obj_attrs := side;
                       obj_record := [("a", VInt 1); ("b", VInt 2);
                                      ("c", VNone)];
                       obj_initialized := true |}) by reflexivity.
  eexists. split; [exact Hc|].
  apply (get_hash_index_key_of_record_data insertion_order format_scalar
           FieldRecord side kwargs).
  - apply nodupb_NoDup. reflexivity.
  - right. apply subseteq_incl. reflexivity.
  - intros k Hk. apply mem_false.
    destruct Hk as [<-|[<-|[<-|[]]]]; reflexivity.
  - exact Hc.
Defined.


(** The key of an [ExtraSlotRecord]: [test] is a key field and a side
    attribute, but not a name of [self.__slots__], so it has no segment. *)
Example extra_slot_record_key :
  Record_get_hash_index_key insertion_order format_scalar
    {| obj_class := ExtraSlotRecord;
       obj_attrs := [("service", VStr "S"); ("test", VStr "T");
                     ("extra", VStr "E")];
       obj_record := [("a", VInt 1)]; obj_initialized := true |}
  = Ok (Some "ExtraSlotRecord:extra:E:a:1").
Proof. reflexivity. Qed.

(** ** Dates and times as text *)

Lemma zero_padded_length (w : nat) (n : N) :
  String.length (zero_padded w n) = w.
Proof.
  revert n. induction w as [|w IH]; intros n; simpl; [reflexivity|].
  rewrite append_length, IH. simpl. lia.
Qed.

Lemma append_inj_length (a a' b b' : string) :
  String.length a = String.length a' ->
  (a ++ b)%string = (a' ++ b')%string -> a = a' /\ b = b'.
Proof.
  revert a'. induction a as [|ch a IH]; intros [|ch' a']; simpl;
    try discriminate.
  - auto.
  - intros [= Hl] [= -> H]. destruct (IH a' Hl H) as [-> ->]. auto.
Qed.

Lemma digit_inj (n m : N) :
  digit n = digit m -> (n mod 10 = m mod 10)%N.
Proof.
  unfold digit. intros H.
  assert (Hn : (n mod 10 < 10)%N) by (apply N.mod_lt; discriminate).
  assert (Hm : (m mod 10 < 10)%N) by (apply N.mod_lt; discriminate).
  apply (f_equal N_of_ascii) in H.
  rewrite !N_ascii_embedding in H by lia. lia.
Qed.

(** Below [10 ^ w] the padded decimal text determines the number. *)
Lemma zero_padded_inj (w : nat) (n m : N) :
  (n < 10 ^ N.of_nat w)%N -> (m < 10 ^ N.of_nat w)%N ->
  zero_padded w n = zero_padded w m -> n = m.
Proof.
  revert n m. induction w as [|w IH]; intros n m Hn Hm H.
  - simpl in Hn, Hm. lia.
  - rewrite Nat2N.inj_succ, N.pow_succ_r' in Hn, Hm.
    cbn [zero_padded] in H.
    apply append_inj_length in H;
      [|now rewrite !zero_padded_length].
    destruct H as [Hq Hd]. injection Hd as Hd.
    apply digit_inj in Hd.
    assert (Hq' : (n / 10 = m / 10)%N).
    { apply IH; [| |exact Hq];
        apply N.Div0.div_lt_upper_bound; lia. }
    rewrite (N.div_mod n 10), (N.div_mod m 10) by discriminate.
    now rewrite Hq', Hd.
Qed.

Lemma in_range_spec (lo hi n : N) :
  in_range lo hi n = true <-> (lo <= n <= hi)%N.
Proof.
  unfold in_range. rewrite andb_true_iff, !N.leb_le. tauto.
Qed.

Lemma padded_field_inj (w : nat) (n m : N) (rest rest' : string) :
  (n < 10 ^ N.of_nat w)%N -> (m < 10 ^ N.of_nat w)%N ->
  (zero_padded w n ++ rest)%string = (zero_padded w m ++ rest')%string ->
  n = m /\ rest = rest'.
Proof.
  intros Hn Hm H.
  apply append_inj_length in H; [|now rewrite !zero_padded_length].
  destruct H as [H ->]. split; [|reflexivity].
  exact (zero_padded_inj w n m Hn Hm H).
Qed.

Lemma VStr_inj (a b : string) : VStr a = VStr b -> a = b.
Proof. now intros [= ->]. Qed.

Lemma String_tail_inj (ch ch' : ascii) (s s' : string) :
  String ch s = String ch' s' -> s = s'.
Proof. now intros [= _ ->]. Qed.

Local Ltac next_field H :=
  apply padded_field_inj in H; [|cbn; lia|cbn; lia];
  let E := fresh "E" in
  destruct H as [E H]; cbn [append] in H;
  try (apply String_tail_inj in H).

(** X15. Two dates are written alike by the conversion only when they are
    the same date, the text of a date has ten characters, and a date is
    never written like a date-time. *)
Theorem converted_dates_are_distinct (a b : date) (dt : datetime) :
  valid_date a = true -> valid_date b = true ->
  (_convert_datetime (VDate a) = _convert_datetime (VDate b) <-> a = b)
  /\ (exists s, _convert_datetime (VDate a) = VStr s
                /\ String.length s = 10)
  /\ _convert_datetime (VDate a) <> _convert_datetime (VDateTime dt).
Proof.
  unfold valid_date. rewrite !andb_true_iff, !in_range_spec.
  intros [[Hy Hm] Hd] [[Hy' Hm'] Hd'].
  split; [|split].
  - split; [|now intros ->].
    cbn [_convert_datetime]. unfold date_isoformat. intros H.
    apply VStr_inj in H.
    destruct a as [y m d], b as [y' m' d'];
      cbn [d_year d_month d_day] in *.
    next_field H. next_field H.
    apply zero_padded_inj in H; [|cbn; lia|cbn; lia].
    now subst.
  - eexists. split; [reflexivity|].
    unfold date_isoformat.
    rewrite !append_length, !zero_padded_length. reflexivity.
  - cbn [_convert_datetime]. intros H. apply VStr_inj in H.
    apply (f_equal String.length) in H. revert H.
    unfold date_isoformat, datetime_isoformat.
    rewrite !append_length, !zero_padded_length. cbn. lia.
Qed.

(** X16. The conversion writes a valid naive date-time (one without
    [tzinfo]) without its microseconds, on nineteen characters, and two
    such date-times are written alike exactly when they differ in their
    microseconds only. *)
Theorem converted_datetimes_differ_up_to_microseconds (a b : datetime) :
  valid_datetime a = true -> valid_datetime b = true ->
  (_convert_datetime (VDateTime a) = _convert_datetime (VDateTime b)
   <-> replace_microsecond a 0 = replace_microsecond b 0)
  /\ _convert_datetime (VDateTime a)
     = _convert_datetime (VDateTime (replace_microsecond a 0))
  /\ exists s, _convert_datetime (VDateTime a) = VStr s
               /\ String.length s = 19.
Proof.
  unfold valid_datetime. rewrite !andb_true_iff, !in_range_spec.
  intros [[[[[[Hy Hm] Hd] Hh] Hmi] Hs] _]
         [[[[[[Hy' Hm'] Hd'] Hh'] Hmi'] Hs'] _].
  split; [|split].
  - cbn [_convert_datetime]. split.
    + unfold datetime_isoformat, replace_microsecond. intros H.
      apply VStr_inj in H.
      destruct a as [y m d h mi s us], b as [y' m' d' h' mi' s' us'];
        cbn [dt_year dt_month dt_day dt_hour dt_minute dt_second
             dt_microsecond N.eqb] in *.
      next_field H. next_field H. next_field H. next_field H. next_field H.
      next_field H. now subst.
    + now intros ->.
  - reflexivity.
  - eexists. split; [reflexivity|].
    unfold datetime_isoformat, replace_microsecond.
    cbn [dt_microsecond dt_year dt_month dt_day dt_hour dt_minute dt_second
         N.eqb].
    rewrite !append_length, !zero_padded_length. reflexivity.
Qed.

Lemma converted_dates_are_distinct_witness :
  _convert_datetime (VDate (mkDate 2001 1 1)) = VStr "2001-01-01"
  /\ _convert_datetime (VDate (mkDate 2001 1 1))
     <> _convert_datetime (VDateTime (mkDateTime 2001 1 1 0 0 0 0)).
Proof.
  split; [reflexivity|].
  apply (converted_dates_are_distinct (mkDate 2001 1 1) (mkDate 2001 1 1));
    reflexivity.
Defined.

Lemma converted_datetimes_differ_up_to_microseconds_witness :
  _convert_datetime (VDateTime (mkDateTime 2001 1 1 1 1 1 100))
  = _convert_datetime (VDateTime (mkDateTime 2001 1 1 1 1 1 0)).
Proof.
  apply (converted_datetimes_differ_up_to_microseconds
           (mkDateTime 2001 1 1 1 1 1 100) (mkDateTime 2001 1 1 1 1 1 0));
    reflexivity.
Defined.

(** ** The serialiser on the values it supports *)

Lemma Forall_fuel_bound {A : Type} (Q : nat -> A -> Prop) (l : list A) :
  Forall (fun x => exists N, forall fuel, N <= fuel -> Q fuel x) l ->
  exists N, forall fuel, N <= fuel -> Forall (Q fuel) l.
Proof.
  induction 1 as [|x l [N HN] _ [M HM]].
  - exists 0. constructor.
  - exists (Nat.max N M). intros fuel Hf. constructor.
    + apply HN. lia.
    + apply HM. lia.
Qed.

(** A loop whose step succeeds on every item fills the dict with the
    converted items, in order. *)
Lemma convert_items_map (step : value -> option (result value))
  (g : value -> value) (items rdict : pydict) :
  Forall (fun kv => step (snd kv) = Some (Ok (g (snd kv)))) items ->
  NoDup (dict_keys rdict ++ dict_keys items) ->
  convert_items step items rdict
  = Some (Ok (rdict ++ map (fun '(k, x) => (k, g x)) items)%list).
Proof.
  revert rdict. induction items as [|[k v] items IH]; intros rdict Hs Hnd.
  - simpl. now rewrite app_nil_r.
  - inversion Hs as [|? ? Hv Hs']; subst. simpl in Hv. simpl.
    rewrite Hv. simpl in Hnd.
    assert (Hfresh : ~ In k (dict_keys rdict)).
    { apply NoDup_remove_2 in Hnd. intros H. apply Hnd.
      apply in_or_app. now left. }
    rewrite dict_set_fresh by exact Hfresh.
    rewrite IH; [now rewrite <- app_assoc|exact Hs'|].
    unfold dict_keys in *. rewrite map_app. simpl.
    rewrite <- app_assoc. exact Hnd.
Qed.

Lemma encode_all_map (enc : value -> option (result json))
  (g : value -> json) (h : value -> value) (l : list value) :
  Forall (fun x => enc (h x) = Some (Ok (g x))) l ->
  encode_all enc (map h l) = Some (Ok (map g l)).
Proof.
  induction 1 as [|x l Hx _ IH]; simpl; [reflexivity|].
  now rewrite Hx, IH.
Qed.

Lemma encode_members_map (enc : value -> option (result json))
  (g : value -> json) (h : value -> value) (d : pydict) :
  Forall (fun kv => enc (h (snd kv)) = Some (Ok (g (snd kv)))) d ->
  encode_members enc (map (fun '(k, x) => (k, h x)) d)
  = Some (Ok (map (fun '(k, x) => (k, g x)) d)).
Proof.
  induction 1 as [|[k x] d Hx _ IH]; simpl; [reflexivity|].
  simpl in Hx. now rewrite Hx, IH.
Qed.

Section SerialiserFacts.

Variable set_iter : list string -> list string.

Lemma _convert_dict_datetime_step (fuel : nat) (d : pydict) :
  _convert_dict_datetime set_iter (S fuel) d
  = convert_items
      (convert_value set_iter (_convert_dict_datetime set_iter fuel)) d [].
Proof.
  cbn [_convert_dict_datetime]. generalize (@nil (string * value)).
  induction d as [|[k v] d IH]; intros rdict; [reflexivity|].
  destruct v; cbn [convert_items convert_value]; try apply IH.
  - destruct (_convert_dict_datetime set_iter fuel d0) as [[r|e]|];
      [apply IH|reflexivity|reflexivity].
  - destruct (copy_record_of set_iter c attrs rec) as [copy|e];
      [|reflexivity].
    destruct (_convert_dict_datetime set_iter fuel copy) as [[r|e]|];
      [apply IH|reflexivity|reflexivity].
Qed.

Lemma encode_step (fuel : nat) (o : value) :
  encode set_iter (S fuel) o
  = match o with
    | VNone => Some (Ok JNull)
    | VBool b => Some (Ok (JBool b))
    | VInt n => Some (Ok (JInt n))
    | VStr s => Some (Ok (JStr s))
    | VList l | VTuple l =>
        match encode_all (encode set_iter fuel) l with
        | Some (Ok js) => Some (Ok (JArr js))
        | Some (Raise e) => Some (Raise e)
        | None => None
        end
    | VDict d =>
        match encode_members (encode set_iter fuel) d with
        | Some (Ok js) => Some (Ok (JObj js))
        | Some (Raise e) => Some (Raise e)
        | None => None
        end
    | _ =>
        match RecordJSONEncoder_default set_iter fuel o with
        | Some (Ok v) => encode set_iter fuel v
        | Some (Raise e) => Some (Raise e)
        | None => None
        end
    end.
Proof.
  assert (Hl : forall l,
             (fix encode_list (l : list value)
                : option (result (list json)) :=
                match l with
                | [] => Some (Ok [])
                | x :: l' =>
                    match encode set_iter fuel x with
                    | Some (Ok j) =>
                        match encode_list l' with
                        | Some (Ok js) => Some (Ok (j :: js))
                        | other => other
                        end
                    | Some (Raise e) => Some (Raise e)
                    | None => None
                    end
                end) l = encode_all (encode set_iter fuel) l).
  { induction l as [|x l IH]; [reflexivity|]. simpl. now rewrite IH. }
  assert (Hd : forall d,
             (fix encode_items (d : pydict)
                : option (result (list (string * json))) :=
                match d with
                | [] => Some (Ok [])
                | (k, x) :: d' =>
                    match encode set_iter fuel x with
                    | Some (Ok j) =>
                        match encode_items d' with
                        | Some (Ok js) => Some (Ok ((k, j) :: js))
                        | other => other
                        end
                    | Some (Raise e) => Some (Raise e)
                    | None => None
                    end
                end) d = encode_members (encode set_iter fuel) d).
  { induction d as [|[k x] d IH]; [reflexivity|]. simpl. now rewrite IH. }
  destruct o; cbn [encode]; rewrite ?Hl, ?Hd; reflexivity.
Qed.

Lemma supported_dict_inv (d : pydict) :
  supported set_iter (VDict d) ->
  NoDup (dict_keys d) /\ Forall (fun kv => supported set_iter (snd kv)) d.
Proof. intros H. inversion H; subst; [discriminate|auto]. Qed.

Lemma supported_record_inv (c : RecordClass) (attrs rec : pydict) :
  supported set_iter (VRecord c attrs rec) ->
  copy_record_of set_iter c attrs rec = Ok rec
  /\ Forall (fun kv => supported set_iter (snd kv)) rec.
Proof. intros H. inversion H; subst; [discriminate|auto]. Qed.

Lemma supported_list_inv (l : list value) :
  supported set_iter (VList l) \/ supported set_iter (VTuple l) ->
  Forall (fun x => is_leaf x = true) l.
Proof.
  intros [H|H]; inversion H; subst; try discriminate; assumption.
Qed.

Lemma Forall_combine {A : Type} (P Q R : A -> Prop) (l : list A) :
  (forall x, P x -> Q x -> R x) -> Forall P l -> Forall Q l -> Forall R l.
Proof.
  intros H HP. induction HP as [|x l Hx _ IH]; intros HQ;
    inversion HQ; subst; constructor; auto.
Qed.

(** The dict of converted items, once every value converts. *)
Lemma convert_dict_of_supported (d : pydict) :
  NoDup (dict_keys d) ->
  Forall (fun kv =>
            exists N, forall fuel, N <= fuel ->
              convert_value set_iter (_convert_dict_datetime set_iter fuel)
                (snd kv) = Some (Ok (normalised (snd kv)))) d ->
  exists N, forall fuel, N <= fuel ->
    _convert_dict_datetime set_iter fuel d
    = Some (Ok (map (fun '(k, x) => (k, normalised x)) d)).
Proof.
  intros Hnd Hall.
  destruct (Forall_fuel_bound
              (fun fuel kv =>
                 convert_value set_iter (_convert_dict_datetime set_iter fuel)
                   (snd kv) = Some (Ok (normalised (snd kv)))) d Hall)
    as [N HN].
  exists (S N). intros fuel Hf.
  destruct fuel as [|fuel]; [lia|].
  rewrite _convert_dict_datetime_step.
  rewrite (convert_items_map _ normalised d []); [reflexivity| |exact Hnd].
  apply HN. lia.
Qed.

(** Every supported value is converted to its normal form. *)
Lemma convert_value_supported (v : value) :
  supported set_iter v ->
  exists N, forall fuel, N <= fuel ->
    convert_value set_iter (_convert_dict_datetime set_iter fuel) v
    = Some (Ok (normalised v)).
Proof.
  induction v using value_nested_ind; intros Hs;
    try (exists 0; intros; reflexivity).
  - apply supported_dict_inv in Hs. destruct Hs as [Hnd Hall].
    destruct (convert_dict_of_supported d Hnd) as [N HN].
    { eapply Forall_combine; [|exact H|exact Hall]. auto. }
    exists N. intros fuel Hf. cbn [convert_value normalised].
    now rewrite (HN fuel Hf).
  - apply supported_record_inv in Hs. destruct Hs as [Hcopy Hall].
    assert (Hnd : NoDup (dict_keys rec)).
    { unfold copy_record_of, Record_copy_record in Hcopy.
      exact (_set_record_NoDup _ _ _ _ Hcopy). }
    destruct (convert_dict_of_supported rec Hnd) as [N HN].
    { eapply Forall_combine; [|exact H0|exact Hall]. auto. }
    exists N. intros fuel Hf. cbn [convert_value normalised].
    now rewrite Hcopy, (HN fuel Hf).
Qed.

Lemma encode_converted_leaf (fuel : nat) (x : value) :
  is_leaf x = true ->
  encode set_iter (S fuel) (_convert_datetime x) = Some (Ok (to_json x)).
Proof. destruct x; try discriminate; reflexivity. Qed.

(** The normal form of a supported value is encoded into its document. *)
Lemma encode_normalised (v : value) :
  supported set_iter v ->
  exists N, forall fuel, N <= fuel ->
    encode set_iter fuel (normalised v) = Some (Ok (to_json v)).
Proof.
  assert (Hdict : forall d,
    Forall (fun kv => supported set_iter (snd kv) ->
              exists N, forall fuel, N <= fuel ->
                encode set_iter fuel (normalised (snd kv))
                = Some (Ok (to_json (snd kv)))) d ->
    Forall (fun kv => supported set_iter (snd kv)) d ->
    exists N, forall fuel, N <= fuel ->
      encode set_iter fuel (VDict (map (fun '(k, x) => (k, normalised x)) d))
      = Some (Ok (JObj (map (fun '(k, x) => (k, to_json x)) d)))).
  { intros d HIH Hall.
    destruct (Forall_fuel_bound
                (fun fuel kv =>
                   encode set_iter fuel (normalised (snd kv))
                   = Some (Ok (to_json (snd kv)))) d) as [N HN].
    { eapply Forall_combine; [|exact HIH|exact Hall]. auto. }
    exists (S N). intros fuel Hf. destruct fuel as [|fuel]; [lia|].
    rewrite encode_step.
    rewrite (encode_members_map _ to_json normalised d); [reflexivity|].
    apply HN. lia. }
  assert (Hlist : forall l,
    Forall (fun x => is_leaf x = true) l ->
    forall fuel, 2 <= fuel ->
      encode set_iter fuel (VList (_convert_list_datetime l))
      = Some (Ok (JArr (map to_json l)))).
  { intros l Hl fuel Hf. destruct fuel as [|[|fuel]]; try lia.
    rewrite encode_step. unfold _convert_list_datetime.
    rewrite (encode_all_map _ to_json _convert_datetime l); [reflexivity|].
    eapply Forall_impl; [|exact Hl].
    intros x Hx. now apply encode_converted_leaf. }
  induction v using value_nested_ind; intros Hs;
    try (exists 1; intros [|fuel] Hf; [lia|reflexivity]).
  - exists 2. intros fuel Hf. cbn [normalised to_json].
    apply Hlist; [|exact Hf]. apply supported_list_inv. now left.
  - exists 2. intros fuel Hf. cbn [normalised to_json].
    apply Hlist; [|exact Hf]. apply supported_list_inv. now right.
  - apply supported_dict_inv in Hs. destruct Hs as [_ Hall].
    cbn [normalised to_json]. now apply Hdict.
  - apply supported_record_inv in Hs. destruct Hs as [_ Hall].
    cbn [normalised to_json]. now apply Hdict.
Qed.

End SerialiserFacts.

Lemma _convert_datetime_idempotent (v : value) :
  _convert_datetime (_convert_datetime v) = _convert_datetime v.
Proof. destruct v; reflexivity. Qed.

Lemma _convert_datetime_leaf (v : value) :
  is_leaf v = true -> is_leaf (_convert_datetime v) = true.
Proof. destruct v; try discriminate; reflexivity. Qed.

Lemma normalised_items_keys (d : pydict) :
  dict_keys (map (fun '(k, x) => (k, normalised x)) d) = dict_keys d.
Proof.
  unfold dict_keys. rewrite map_map. apply map_ext. now intros [k x].
Qed.

Section SerialiserTheorems.

Variable set_iter : list string -> list string.

Lemma normalised_idempotent (v : value) :
  supported set_iter v -> normalised (normalised v) = normalised v.
Proof.
  assert (Hlist : forall l,
             _convert_list_datetime (_convert_list_datetime l)
             = _convert_list_datetime l).
  { intros l. unfold _convert_list_datetime. rewrite map_map.
    apply map_ext. intros x. apply _convert_datetime_idempotent. }
  assert (Hdict : forall d : pydict,
    Forall (fun kv => supported set_iter (snd kv) ->
              normalised (normalised (snd kv)) = normalised (snd kv)) d ->
    Forall (fun kv => supported set_iter (snd kv)) d ->
    map (fun '(k, x) => (k, normalised x))
        (map (fun '(k, x) => (k, normalised x)) d)
    = map (fun '(k, x) => (k, normalised x)) d).
  { intros d HIH. induction HIH as [|[k x] d Hx _ IH]; intros Hall;
      [reflexivity|].
    inversion Hall; subst. simpl in *. rewrite Hx, IH by assumption.
    reflexivity. }
  induction v using value_nested_ind; intros Hs; try reflexivity.
  - cbn [normalised]. now rewrite Hlist.
  - cbn [normalised]. now rewrite Hlist.
  - apply supported_dict_inv in Hs. destruct Hs as [_ Hall].
    cbn [normalised]. f_equal. now apply Hdict.
  - apply supported_record_inv in Hs. destruct Hs as [_ Hall].
    cbn [normalised]. f_equal. now apply Hdict.
Qed.

Lemma supported_normalised (v : value) :
  supported set_iter v -> supported set_iter (normalised v).
Proof.
  assert (Hlist : forall l,
             Forall (fun x => is_leaf x = true) l ->
             supported set_iter (VList (_convert_list_datetime l))).
  { intros l Hl. apply supported_list. unfold _convert_list_datetime.
    apply Forall_map. eapply Forall_impl; [|exact Hl].
    intros x. apply _convert_datetime_leaf. }
  assert (Hdict : forall d : pydict,
    NoDup (dict_keys d) ->
    Forall (fun kv => supported set_iter (snd kv) ->
              supported set_iter (normalised (snd kv))) d ->
    Forall (fun kv => supported set_iter (snd kv)) d ->
    supported set_iter (VDict (map (fun '(k, x) => (k, normalised x)) d))).
  { intros d Hnd HIH Hall. apply supported_dict.
    - now rewrite normalised_items_keys.
    - apply Forall_map.
      eapply Forall_combine; [|exact HIH|exact Hall].
      intros [k x] H1 H2. simpl in *. auto. }
  induction v using value_nested_ind; intros Hs;
    try (apply supported_leaf; reflexivity).
  - cbn [normalised]. apply Hlist, (supported_list_inv set_iter). now left.
  - cbn [normalised]. apply Hlist, (supported_list_inv set_iter). now right.
  - apply supported_dict_inv in Hs. destruct Hs as [Hnd Hall].
    cbn [normalised]. now apply Hdict.
  - apply supported_record_inv in Hs. destruct Hs as [Hcopy Hall].
    cbn [normalised]. apply Hdict; [|assumption|assumption].
    unfold copy_record_of, Record_copy_record in Hcopy.
    exact (_set_record_NoDup _ _ _ _ Hcopy).
Qed.

(** X17. With enough fuel, [_convert_dict_datetime] turns a dict with
    unique keys and supported values into the dict of the normal forms of
    its values, under the same keys in the same order, without raising;
    converting the result again changes nothing. *)
Theorem convert_dict_datetime_normalises (d : pydict) :
  NoDup (dict_keys d) ->
  Forall (fun kv => supported set_iter (snd kv)) d ->
  exists N, forall fuel, N <= fuel ->
    let converted := map (fun '(k, x) => (k, normalised x)) d in
    _convert_dict_datetime set_iter fuel d = Some (Ok converted)
    /\ dict_keys converted = dict_keys d
    /\ _convert_dict_datetime set_iter fuel converted = Some (Ok converted).
Proof.
  intros Hnd Hall.
  set (converted := map (fun '(k, x) => (k, normalised x)) d).
  destruct (convert_dict_of_supported set_iter d Hnd) as [N HN].
  { eapply Forall_impl; [|exact Hall].
    intros kv. apply convert_value_supported. }
  assert (Hall' : Forall (fun kv => supported set_iter (snd kv)) converted).
  { apply Forall_map. eapply Forall_impl; [|exact Hall].
    intros [k x]. apply supported_normalised. }
  assert (Hnd' : NoDup (dict_keys converted))
    by (unfold converted; now rewrite normalised_items_keys).
  destruct (convert_dict_of_supported set_iter converted Hnd') as [M HM].
  { eapply Forall_impl; [|exact Hall'].
    intros kv. apply convert_value_supported. }
  assert (Hidem : map (fun '(k, x) => (k, normalised x)) converted
                  = converted).
  { unfold converted. rewrite map_map. apply map_ext_in.
    intros [k x] Hin. f_equal. apply normalised_idempotent.
    rewrite Forall_forall in Hall. exact (Hall (k, x) Hin). }
  exists (Nat.max N M). intros fuel Hf. cbv zeta.
  split; [apply HN; lia|]. split; [apply normalised_items_keys|].
  fold converted. rewrite (HM fuel) by lia. now rewrite Hidem.
Qed.

(** X18. For keyword arguments with unique keys and a type whose required
    fields are among its declared fields whenever it declares [fields]:
    with enough fuel, [json()] of a constructed record whose values are
    supported (dates and naive date-times among the leaves) returns,
    without raising, the object that has one member per key of the record,
    in the order of the record, holding the document of the value; the
    side attributes of the record and of nested records do not appear. *)
Theorem json_of_supported_record (c : RecordClass)
  (side : list (string * value)) (kwargs : pydict) (r : RecordObj) :
  NoDup (dict_keys kwargs) ->
  (fields c = [] \/ incl (non_null_fields c) (fields c)) ->
  construct set_iter c side kwargs = Ok r ->
  Forall (fun kv => supported set_iter (snd kv)) (obj_record r) ->
  exists N, forall fuel, N <= fuel ->
    Record_json set_iter fuel r
    = Some (Ok (JObj (map (fun '(k, x) => (k, to_json x)) (obj_record r)))).
Proof.
  intros Hk Hpol Hc Hall.
  destruct (construct_inv _ _ _ _ _ Hc) as (Hcl & Hin & Hs).
  pose proof (_set_record_NoDup _ _ _ _ Hs) as Hnd.
  pose proof (copy_record_no_overrides set_iter c side kwargs r Hk Hpol Hc)
    as Hcopy.
  destruct (convert_dict_of_supported set_iter (obj_record r) Hnd)
    as [N HN].
  { eapply Forall_impl; [|exact Hall].
    intros kv. apply convert_value_supported. }
  destruct (encode_normalised set_iter (VDict (obj_record r))) as [M HM].
  { now apply supported_dict. }
  exists (S (Nat.max N M)). intros fuel Hf.
  destruct fuel as [|fuel]; [lia|].
  unfold Record_json, value_of_obj. rewrite encode_step.
  unfold RecordJSONEncoder_default, copy_record_of.
  replace {| obj_class := obj_class r; obj_attrs := obj_attrs r;
             obj_record := obj_record r; obj_initialized := true |}
    with r by (destruct r; simpl in *; now subst).
  rewrite Hcopy, (HN fuel) by lia.
  exact (HM fuel ltac:(lia)).
Qed.

End SerialiserTheorems.

Lemma convert_dict_datetime_normalises_witness :
  let dtime := mkDateTime 2001 1 1 1 1 1 100 in
  let day := mkDate 2001 1 1 in
  exists N, forall fuel, N <= fuel ->
    _convert_dict_datetime insertion_order fuel
      [("datetime", VDateTime dtime);
       ("tpl", VTuple [VDateTime dtime; VDate day]);
       ("dictionary", VDict [("date", VDate day)])]
    = Some (Ok [("datetime", VStr "2001-01-01T01:01:01");
                ("tpl", VList [VStr "2001-01-01T01:01:01";
                               VStr "2001-01-01"]);
                ("dictionary", VDict [("date", VStr "2001-01-01")])]).
Proof.
  intros dtime day.
  destruct (convert_dict_datetime_normalises insertion_order
              [("datetime", VDateTime dtime);
               ("tpl", VTuple [VDateTime dtime; VDate day]);
               ("dictionary", VDict [("date", VDate day)])])
    as [N HN].
  - apply nodupb_NoDup. reflexivity.
  - repeat apply Forall_cons; try apply Forall_nil; simpl.
    + apply supported_leaf. reflexivity.
    + apply supported_tuple. repeat constructor.
    + apply supported_dict; [apply nodupb_NoDup; reflexivity|].
      repeat apply Forall_cons; try apply Forall_nil.
      apply supported_leaf. reflexivity.
  - exists N. intros fuel Hf. exact (proj1 (HN fuel Hf)).
Defined.

(** The nested-record test of the suite. *)
Lemma json_of_supported_record_witness :
  let dtime := mkDateTime 2001 1 1 1 1 1 100 in
  let day := mkDate 2001 1 1 in
  let side := [("service", VStr "service"); ("test", VStr "test")] in
  let inner := [("integer", VInt 1); ("datetime", VDateTime dtime);
                ("lst", VList [VDateTime dtime; VDate day])] in
  let kwargs := [("record", VRecord TstRecord side inner)] in
  let r := {| obj_class := TstRecord; obj_attrs := side;
              obj_record := kwargs; obj_initialized := true |} in
  construct insertion_order TstRecord side kwargs = Ok r
  /\ exists N, forall fuel, N <= fuel ->
       Record_json insertion_order fuel r
       = Some (Ok (JObj [("record",
            JObj [("integer", JInt 1);
                  ("datetime", JStr "2001-01-01T01:01:01");
                  ("lst", JArr [JStr "2001-01-01T01:01:01";
                                JStr "2001-01-01"])])])).
Proof.
  intros dtime day side inner kwargs r.
  assert (Hc : construct insertion_order TstRecord side kwargs = Ok r)
    by reflexivity.
  split; [exact Hc|].
  apply (json_of_supported_record insertion_order TstRecord side kwargs r).
  - apply nodupb_NoDup. reflexivity.
  - now left.
  - exact Hc.
  - repeat apply Forall_cons; try apply Forall_nil; simpl.
    apply supported_record; [reflexivity|].
    repeat apply Forall_cons; try apply Forall_nil; simpl.
    + apply supported_leaf. reflexivity.
    + apply supported_leaf. reflexivity.
    + apply supported_list. repeat constructor.
Defined.

(** ** Equality is symmetric and agrees with hashing *)

Lemma items_in_with_inv (eqv : value -> value -> bool) (d1 d2 : pydict) :
  items_in_with eqv d1 d2 = true ->
  forall k v, In (k, v) d1 ->
              exists v', dict_get d2 k = Some v' /\ eqv v v' = true.
Proof.
  induction d1 as [|[k0 v0] d1 IH]; simpl; intros H k v Hin; [tauto|].
  apply andb_true_iff in H. destruct H as [H0 H].
  destruct Hin as [[= <- <-]|Hin]; [|now apply IH].
  destruct (dict_get d2 k0) as [v'|]; [eauto|discriminate].
Qed.

Lemma dict_keys_In (d : pydict) (k : string) :
  In k (dict_keys d) <-> exists v, In (k, v) d.
Proof.
  unfold dict_keys. rewrite in_map_iff. split.
  - intros ([k' v] & <- & H). now exists v.
  - intros (v & H). now exists (k, v).
Qed.

(** Two equal mappings have the same keys. *)
Lemma mapping_eq_with_keys (eqv : value -> value -> bool) (a b : pydict) :
  NoDup (dict_keys a) -> NoDup (dict_keys b) ->
  mapping_eq_with eqv a b = true ->
  forall k, In k (dict_keys a) <-> In k (dict_keys b).
Proof.
  intros Ha Hb H. unfold mapping_eq_with in H.
  apply andb_true_iff in H. destruct H as [Hlen Hin].
  apply Nat.eqb_eq in Hlen.
  assert (Hab : incl (dict_keys a) (dict_keys b)).
  { intros k Hk. apply dict_keys_In in Hk. destruct Hk as [v Hv].
    destruct (items_in_with_inv eqv a b Hin k v Hv) as (v' & Hg & _).
    apply dict_get_In in Hg. apply dict_keys_In. eauto. }
  assert (Hba : incl (dict_keys b) (dict_keys a)).
  { apply (NoDup_length_incl Ha); [|exact Hab].
    unfold dict_keys. rewrite !length_map. lia. }
  intros k. split; [apply Hab|apply Hba].
Qed.

Lemma mapping_eq_with_flip (eqv : value -> value -> bool) (a b : pydict) :
  NoDup (dict_keys a) -> NoDup (dict_keys b) ->
  (forall k v v', In (k, v) a -> In (k, v') b -> eqv v v' = eqv v' v) ->
  mapping_eq_with eqv a b = true -> mapping_eq_with eqv b a = true.
Proof.
  intros Ha Hb Hsym H.
  pose proof (mapping_eq_with_keys eqv a b Ha Hb H) as Hkeys.
  unfold mapping_eq_with in *.
  apply andb_true_iff in H. destruct H as [Hlen Hin].
  apply andb_true_iff. split.
  - apply Nat.eqb_eq in Hlen. apply Nat.eqb_eq. lia.
  - apply items_in_with_true. intros k v' Hv'.
    assert (Hk : In k (dict_keys a)).
    { apply Hkeys, dict_keys_In. eauto. }
    apply dict_keys_In in Hk. destruct Hk as [v Hv].
    exists v. split; [now apply In_dict_get|].
    destruct (items_in_with_inv eqv a b Hin k v Hv) as (v'' & Hg & He).
    rewrite (In_dict_get b k v' Hb Hv') in Hg. injection Hg as <-.
    now rewrite <- (Hsym k v v' Hv Hv').
Qed.

Lemma mapping_eq_with_sym (eqv : value -> value -> bool) (a b : pydict) :
  NoDup (dict_keys a) -> NoDup (dict_keys b) ->
  (forall k v v', In (k, v) a -> In (k, v') b -> eqv v v' = eqv v' v) ->
  mapping_eq_with eqv a b = mapping_eq_with eqv b a.
Proof.
  intros Ha Hb Hsym. apply Bool.eq_iff_eq_true. split.
  - now apply mapping_eq_with_flip.
  - apply mapping_eq_with_flip; [exact Hb|exact Ha|].
    intros k v' v Hv' Hv. symmetry. now apply (Hsym k).
Qed.

Lemma list_eq_with_sym (eqv : value -> value -> bool) (a b : list value) :
  (forall x y, In x a -> In y b -> eqv x y = eqv y x) ->
  list_eq_with eqv a b = list_eq_with eqv b a.
Proof.
  revert b. induction a as [|x a IH]; intros [|y b] H; simpl;
    try reflexivity.
  rewrite (H x y) by now left. f_equal. apply IH.
  intros x' y' Hx Hy. apply H; now right.
Qed.

Lemma wf_values_In (d : pydict) (k : string) (v : value) :
  wf_values d = true -> In (k, v) d -> wf_value v = true.
Proof.
  unfold wf_values. rewrite forallb_forall. intros H Hin.
  exact (H (k, v) Hin).
Qed.

Lemma date_eqb_sym (a b : date) : date_eqb a b = date_eqb b a.
Proof.
  unfold date_eqb.
  now rewrite (N.eqb_sym (d_year a)), (N.eqb_sym (d_month a)),
    (N.eqb_sym (d_day a)).
Qed.

Lemma datetime_eqb_sym (a b : datetime) :
  datetime_eqb a b = datetime_eqb b a.
Proof.
  unfold datetime_eqb.
  now rewrite (N.eqb_sym (dt_year a)), (N.eqb_sym (dt_month a)),
    (N.eqb_sym (dt_day a)), (N.eqb_sym (dt_hour a)),
    (N.eqb_sym (dt_minute a)), (N.eqb_sym (dt_second a)),
    (N.eqb_sym (dt_microsecond a)).
Qed.

(** [==] is symmetric on well-formed values. *)
Lemma py_eq_sym (v1 : value) :
  forall v2, wf_value v1 = true -> wf_value v2 = true ->
             py_eq v1 v2 = py_eq v2 v1.
Proof.
  assert (Hmap : forall a b : pydict,
    Forall (fun kv => forall v2, wf_value (snd kv) = true ->
              wf_value v2 = true -> py_eq (snd kv) v2 = py_eq v2 (snd kv)) a ->
    nodupb (map fst a) = true ->
    forallb (fun kv => wf_value (snd kv)) a = true ->
    nodupb (map fst b) = true ->
    forallb (fun kv => wf_value (snd kv)) b = true ->
    mapping_eq_with py_eq a b = mapping_eq_with py_eq b a).
  { intros a b HIH Ha Hwa Hb Hwb.
    apply mapping_eq_with_sym; try (now apply nodupb_NoDup).
    intros k v v' Hv Hv'. rewrite Forall_forall in HIH.
    apply (HIH (k, v) Hv).
    - exact (wf_values_In a k v Hwa Hv).
    - exact (wf_values_In b k v' Hwb Hv'). }
  assert (Hlist : forall a b : list value,
    Forall (fun x => forall v2, wf_value x = true ->
              wf_value v2 = true -> py_eq x v2 = py_eq v2 x) a ->
    forallb wf_value a = true -> forallb wf_value b = true ->
    list_eq_with py_eq a b = list_eq_with py_eq b a).
  { intros a b HIH Hwa Hwb. apply list_eq_with_sym.
    intros x y Hx Hy. rewrite Forall_forall in HIH.
    rewrite forallb_forall in Hwa, Hwb. apply HIH; auto. }
  induction v1 using value_nested_ind; intros v2 Hw1 Hw2;
    destruct v2; try reflexivity; cbn [py_eq];
    cbn [wf_value] in Hw1, Hw2;
    repeat rewrite andb_true_iff in Hw1; repeat rewrite andb_true_iff in Hw2;
    try apply Z.eqb_sym; try apply String.eqb_sym;
    try apply date_eqb_sym; try apply datetime_eqb_sym;
    try (apply Hlist; assumption);
    try (apply Hmap; intuition assumption).
  destruct b, b0; reflexivity.
Qed.

Lemma mapping_eq_sym (a b : pydict) :
  NoDup (dict_keys a) -> NoDup (dict_keys b) ->
  wf_values a = true -> wf_values b = true ->
  mapping_eq a b = mapping_eq b a.
Proof.
  intros Ha Hb Hwa Hwb. apply mapping_eq_with_sym; try assumption.
  intros k v v' Hv Hv'. apply py_eq_sym.
  - exact (wf_values_In a k v Hwa Hv).
  - exact (wf_values_In b k v' Hwb Hv').
Qed.

(** Equal mappings that can both be hashed hash alike, when equal values
    that can both be hashed do. *)
Lemma mapping_eq_hash (hash_item : string -> value -> result Z)
  (a b : pydict) (h h' : Z) :
  (forall k v v' x y, wf_value v = true -> wf_value v' = true ->
                      py_eq v v' = true ->
                      hash_item k v = Ok x -> hash_item k v' = Ok y ->
                      x = y) ->
  NoDup (dict_keys a) -> NoDup (dict_keys b) ->
  wf_values a = true -> wf_values b = true ->
  mapping_eq a b = true ->
  frozendict___hash__ hash_item a = Ok h ->
  frozendict___hash__ hash_item b = Ok h' ->
  h = h'.
Proof.
  intros Hhash Ha Hb Hwa Hwb Heq Hh Hh'.
  pose proof (mapping_eq_with_keys py_eq a b Ha Hb Heq) as Hkeys.
  assert (Hitems : forall k v, In (k, v) a ->
             exists v', dict_get b k = Some v' /\ py_eq v v' = true).
  { unfold mapping_eq, mapping_eq_with in Heq.
    apply andb_true_iff in Heq. destruct Heq as [_ Hin].
    exact (items_in_with_inv py_eq a b Hin). }
  set (b' := map (fun '(k, _) => (k, dict_get_default b k)) a).
  assert (Hkeys' : dict_keys b' = dict_keys a).
  { unfold b', dict_keys. rewrite map_map. apply map_ext. now intros [k v]. }
  assert (Hperm : Permutation b b').
  { apply NoDup_Permutation.
    - now apply (NoDup_map_inv fst).
    - apply (NoDup_map_inv fst). fold (dict_keys b'). now rewrite Hkeys'.
    - intros [k v']. split.
      + intros Hin.
        assert (Hk : In k (dict_keys a)).
        { apply Hkeys, dict_keys_In. eauto. }
        apply dict_keys_In in Hk. destruct Hk as [v Hv].
        unfold b'. apply in_map_iff. exists (k, v). split; [|exact Hv].
        unfold dict_get_default. now rewrite (In_dict_get b k v' Hb Hin).
      + unfold b'. rewrite in_map_iff.
        intros ([k0 v0] & [= <- <-] & Hin).
        destruct (Hitems k0 v0 Hin) as (v' & Hg & _).
        unfold dict_get_default. rewrite Hg. now apply dict_get_In. }
  apply (frozendict_hash_perm hash_item b b' h' Hperm) in Hh'.
  unfold frozendict___hash__ in Hh, Hh'. unfold b' in Hh'.
  assert (Hsub : forall l, incl l a -> forall h0,
             frozendict_hash_from hash_item l h0 = Ok h ->
             frozendict_hash_from hash_item
               (map (fun '(k, _) => (k, dict_get_default b k)) l) h0
             = Ok h' ->
             h = h').
  { induction l as [|[k v] l IH]; intros Hl h0; simpl.
    - intros [= <-] [= <-]. reflexivity.
    - assert (Hkv : In (k, v) a) by (apply Hl; now left).
      destruct (Hitems k v Hkv) as (v' & Hg & He).
      unfold dict_get_default at 1. rewrite Hg.
      destruct (hash_item k v) as [x|] eqn:Ex; simpl; [|discriminate].
      destruct (hash_item k v') as [y|] eqn:Ey; simpl; [|discriminate].
      rewrite (Hhash k v v' x y
                 (wf_values_In a k v Hwa Hkv)
                 (wf_values_In b k v' Hwb (dict_get_In b k v' Hg))
                 He Ex Ey).
      apply IH. intros z Hz. apply Hl. now right. }
  exact (Hsub a (incl_refl a) 0%Z Hh Hh').
Qed.

Section EqualityFacts.

Variable set_iter : list string -> list string.

(** X19. Comparing is symmetric: for two constructed records, of any
    types, [r1 == r2] and [r2 == r1] agree, and [record == dict] agrees
    with [dict == record] for every well-formed dict. *)
Theorem record_equality_symmetric (c1 c2 : RecordClass)
  (side1 side2 : list (string * value)) (kwargs1 kwargs2 : pydict)
  (r1 r2 : RecordObj) :
  wf_values kwargs1 = true -> wf_values kwargs2 = true ->
  construct set_iter c1 side1 kwargs1 = Ok r1 ->
  construct set_iter c2 side2 kwargs2 = Ok r2 ->
  Record___eq__ r1 (value_of_obj r2) = Record___eq__ r2 (value_of_obj r1)
  /\ forall d, wf_value (VDict d) = true ->
               Record___eq__ r1 (VDict d)
               = py_eq (VDict d) (value_of_obj r1).
Proof.
  intros Hw1 Hw2 Hc1 Hc2.
  destruct (construct_inv _ _ _ _ _ Hc1) as (_ & _ & Hs1).
  destruct (construct_inv _ _ _ _ _ Hc2) as (_ & _ & Hs2).
  pose proof (_set_record_NoDup _ _ _ _ Hs1) as Hnd1.
  pose proof (_set_record_NoDup _ _ _ _ Hs2) as Hnd2.
  pose proof (_set_record_wf _ _ _ _ Hw1 Hs1) as Hwf1.
  pose proof (_set_record_wf _ _ _ _ Hw2 Hs2) as Hwf2.
  split.
  - cbn [Record___eq__ value_of_obj]. now apply mapping_eq_sym.
  - intros d Hd. cbn [wf_value] in Hd. apply andb_true_iff in Hd.
    destruct Hd as [Hk Hv]. cbn [Record___eq__ value_of_obj py_eq].
    apply mapping_eq_sym; auto. now apply nodupb_NoDup.
Qed.

(** X20. Records that compare equal and can both be hashed have the same
    hash, provided the hash of an item does not tell apart equal values
    that can both be hashed. *)
Theorem equal_records_hash_alike (hash_item : string -> value -> result Z)
  (c1 c2 : RecordClass) (side1 side2 : list (string * value))
  (kwargs1 kwargs2 : pydict) (r1 r2 : RecordObj) (h h' : Z) :
  (forall k v v' x y, wf_value v = true -> wf_value v' = true ->
                      py_eq v v' = true ->
                      hash_item k v = Ok x -> hash_item k v' = Ok y ->
                      x = y) ->
  wf_values kwargs1 = true -> wf_values kwargs2 = true ->
  construct set_iter c1 side1 kwargs1 = Ok r1 ->
  construct set_iter c2 side2 kwargs2 = Ok r2 ->
  Record___eq__ r1 (value_of_obj r2) = true ->
  Record___hash__ hash_item r1 = Ok h ->
  Record___hash__ hash_item r2 = Ok h' ->
  h = h'.
Proof.
  intros Hhash Hw1 Hw2 Hc1 Hc2 Heq Hh Hh'.
  destruct (construct_inv _ _ _ _ _ Hc1) as (_ & _ & Hs1).
  destruct (construct_inv _ _ _ _ _ Hc2) as (_ & _ & Hs2).
  apply (mapping_eq_hash hash_item (obj_record r1) (obj_record r2) h h'
           Hhash).
  - exact (_set_record_NoDup _ _ _ _ Hs1).
  - exact (_set_record_NoDup _ _ _ _ Hs2).
  - exact (_set_record_wf _ _ _ _ Hw1 Hs1).
  - exact (_set_record_wf _ _ _ _ Hw2 Hs2).
  - exact Heq.
  - exact Hh.
  - exact Hh'.
Qed.

End EqualityFacts.

Lemma record_equality_symmetric_witness :
  let side := [("service", VStr "service"); ("test", VStr "test")] in
  let kwargs := [("a", VInt 1); ("b", VBool true)] in
  let r1 := {| obj_class := TstRecord; obj_attrs := side;
               obj_record := kwargs; obj_initialized := true |} in
  construct insertion_order TstRecord side kwargs = Ok r1
  /\ Record___eq__ r1 (VDict [("b", VInt 1); ("a", VBool true)])
     = py_eq (VDict [("b", VInt 1); ("a", VBool true)]) (value_of_obj r1).
Proof.
  intros side kwargs r1.
  assert (Hc : construct insertion_order TstRecord side kwargs = Ok r1)
    by reflexivity.
  split; [exact Hc|].
  destruct (record_equality_symmetric insertion_order TstRecord TstRecord
              side side kwargs kwargs r1 r1 eq_refl eq_refl Hc Hc)
    as [_ H].
  apply H. reflexivity.
Defined.

(** The sample hash tells values apart and respects [==]. *)
Lemma scalar_item_hash_respects_eq (k : string) (v v' : value) (x y : Z) :
  py_eq v v' = true ->
  scalar_item_hash k v = Ok x -> scalar_item_hash k v' = Ok y -> x = y.
Proof.
  destruct v, v'; cbn [py_eq scalar_item_hash]; try discriminate;
    intros He [= <-] [= <-]; try reflexivity.
  - apply Bool.eqb_prop in He. now subst.
  - apply Z.eqb_eq in He. now subst.
  - apply Z.eqb_eq in He. now subst.
  - apply Z.eqb_eq in He. now subst.
  - apply String.eqb_eq in He. now subst.
  - unfold date_eqb in He. rewrite !andb_true_iff, !N.eqb_eq in He.
    destruct He as [[-> _] _]. reflexivity.
  - unfold datetime_eqb in He. rewrite !andb_true_iff, !N.eqb_eq in He.
    destruct He as [[[[[[-> _] _] _] _] _] _]. reflexivity.
Qed.

Lemma equal_records_hash_alike_witness :
  let side := [("service", VStr "service"); ("test", VStr "test")] in
  let r1 := {| obj_class := TstRecord; obj_attrs := side;
               obj_record := [("a", VInt 1); ("bb", VStr "x")];
               obj_initialized := true |} in
  let r2 := {| obj_class := TstRecord; obj_attrs := side;
               obj_record := [("bb", VStr "x"); ("a", VBool true)];
               obj_initialized := true |} in
  Record___eq__ r1 (value_of_obj r2) = true
  /\ exists h h',
       Record___hash__ scalar_item_hash r1 = Ok h
       /\ Record___hash__ scalar_item_hash r2 = Ok h'
       /\ h = h'.
Proof.
  intros side r1 r2.
  split; [reflexivity|].
  eexists. eexists. split; [reflexivity|]. split; [reflexivity|].
  apply (equal_records_hash_alike insertion_order scalar_item_hash TstRecord
           TstRecord side side [("a", VInt 1); ("bb", VStr "x")]
           [("bb", VStr "x"); ("a", VBool true)] r1 r2).
  - intros k v v' x y _ _. apply scalar_item_hash_respects_eq.
  - reflexivity.
  - reflexivity.
  - reflexivity.
  - reflexivity.
  - reflexivity.
  - reflexivity.
  - reflexivity.
Defined.

(** ** The errors callers have to expect *)

(** X21. The validator only ever fails with [KeyError]: whatever
    [_set_record] raises, on keyword arguments or on the merged mapping of
    [copy_record], is a [KeyError]. *)
Theorem validation_raises_only_KeyError
  (set_iter : list string -> list string) (e : exn) :
  (forall c kwargs,
     _set_record set_iter c kwargs = Raise e -> exists msg, e = KeyError msg)
  /\ (forall r overrides,
        Record_copy_record set_iter r overrides = Raise e ->
        exists msg, e = KeyError msg).
Proof.
  assert (H : forall c' kw, _set_record set_iter c' kw = Raise e ->
                            exists msg, e = KeyError msg).
  { intros c' kw. unfold _set_record.
    destruct (check_non_null c' kw) as [[]|e'] eqn:Ec; cbn [bind].
    - destruct (nonempty (fields c')); [|discriminate].
      destruct (proper_superset _ _); [intros [= <-]; eauto|].
      destruct (_ && _); [intros [= <-]; eauto|discriminate].
    - intros [= <-]. exact (check_non_null_raises_KeyError c' kw e' Ec). }
  split; [exact H|].
  intros r overrides. apply H.
Qed.

(** X22. The key generator only ever fails with the [ValueError] that
    names one of the listed fields, and that field looks up a truthy value
    that is neither a sequence nor an integer. *)
Theorem hash_key_error_names_unordered_field
  (py_format : value -> string) (obj_type : string) (fields : list string)
  (values : pydict) (obj_id : option Z) (e : exn) :
  generate_hash_index_key py_format obj_type fields values obj_id = Raise e ->
  exists f,
    e = ValueError
          ("Fields that return unordered value types cannot be used "
             ++ "to create hash keys. field: " ++ f)
    /\ In f fields
    /\ truthy (dict_get_default values f) = true
    /\ is_sequence_or_int (dict_get_default values f) = false.
Proof.
  unfold generate_hash_index_key.
  destruct (nonempty fields && nonempty values); [|discriminate].
  rewrite collect_field_values_spec.
  destruct (find _ (survivors falsy fields values)) as [f|] eqn:Ef;
    cbn [bind].
  - intros [= <-]. apply find_some in Ef. destruct Ef as [Hin Hseq].
    apply In_survivors in Hin. destruct Hin as [Hin Hf].
    exists f. split; [reflexivity|]. split; [exact Hin|].
    unfold falsy in Hf. apply negb_false_iff in Hf.
    apply negb_true_iff in Hseq. auto.
  - destruct (nonempty _); discriminate.
Qed.

Lemma validation_raises_only_KeyError_witness :
  exists msg,
    KeyError "The following field is required: b" = KeyError msg.
Proof.
  destruct (validation_raises_only_KeyError insertion_order
              (KeyError "The following field is required: b")) as [H _].
  apply (H RequiredFieldRecord [("a", VInt 2); ("c", VInt 3)]).
  reflexivity.
Defined.

Lemma hash_key_error_names_unordered_field_witness :
  exists f,
    In f ["isbn"; "published"]
    /\ is_sequence_or_int
         (dict_get_default
            [("isbn", VStr "978-1-61902-786-2");
             ("published", VDate (mkDate 2016 12 6))] f) = false.
Proof.
  destruct (hash_key_error_names_unordered_field format_scalar "Book"
              ["isbn"; "published"]
              [("isbn", VStr "978-1-61902-786-2");
               ("published", VDate (mkDate 2016 12 6))] None
              (unordered_value_error "published") eq_refl)
    as (f & _ & Hin & _ & Hseq).
  exists f. auto.
Defined.
